(** * QuantFlow: the detection-and-confirmation engine

    A shallow embedding of [trading.py] (class [TradingEngine]) and of the
    alert part of [indicator.py] (class [IndicatorEngine]).

    Conventions of the embedding:
    - a pandas DataFrame of candles with its default RangeIndex is the list
      of its rows; [df.iloc[i]] is the list lookup, which raises outside the
      frame;
    - prices (Python floats) are rationals [Q], compared exactly; where the
      code multiplies a price by a decimal constant to compare it with
      another, the constant and the product are rounded as doubles are
      ([to_double]);
    - timestamps are integers (milliseconds);
    - a Python call returns or raises: [outcome];
    - [self.triggered_levels] is a finite map from level ids to tap records. *)

From Stdlib Require Import QArith Qabs Qround Qpower ZArith List Bool String Sorted Lia Lqa.
From stdpp Require Import gmap strings list.

Local Open Scope Q_scope.

(** ** Python calls: return or raise *)

(** A call returns, raises an exception that derives from [Exception]
    ([Raises], which [except Exception] catches), or raises one that does
    not, such as [SystemExit], [KeyboardInterrupt] or [GeneratorExit]
    ([Exits], which [except Exception] lets through). *)
Inductive outcome (A : Type) : Type :=
| Returns (a : A)
| Raises (msg : string)
| Exits (msg : string).
Arguments Returns {A} a.
Arguments Raises {A} msg.
Arguments Exits {A} msg.

Definition bind {A B : Type} (m : outcome A) (k : A -> outcome B) : outcome B :=
  match m with
  | Returns a => k a
  | Raises msg => Raises msg
  | Exits msg => Exits msg
  end.

Notation "'do' x <- m ; k" := (bind m (fun x => k))
  (at level 10, x name, m at level 100, k at level 200).

(** ** Float comparisons, on rationals *)

Definition Qltb (x y : Q) : bool := negb (Qle_bool y x).
Definition Qleb (x y : Q) : bool := Qle_bool x y.
Definition Qgtb (x y : Q) : bool := Qltb y x.

(** ** Floats: the double nearest to a rational *)

(** The integer nearest to [x], ties going to the even one. *)
Definition round_half_even (x : Q) : Z :=
  let f := Qfloor x in
  let r := x - inject_Z f in
  if Qltb r 0.5 then f
  else if Qltb 0.5 r then (f + 1)%Z
  else if Z.even f then f else (f + 1)%Z.

(** The integer part of the binary logarithm of [x], for [0 < x]. *)
Definition floor_log2 (x : Q) : Z :=
  let k := (Z.log2 (Qnum x) - Z.log2 (Zpos (Qden x)))%Z in
  if Qle_bool (2 ^ k) x then k else (k - 1)%Z.

(** The double (binary64: 53 significant bits, least exponent -1074)
    nearest to [x], ties going to the even significand. The result is exact
    below the overflow threshold [2 ^ 1024], which the model does not
    represent. *)
Definition to_double_pos (x : Q) : Q :=
  let e := Z.max (floor_log2 x - 52) (-1074) in
  inject_Z (round_half_even (x / 2 ^ e)) * 2 ^ e.

Definition to_double (x : Q) : Q :=
  if Qltb 0 x then to_double_pos x
  else if Qltb x 0 then - to_double_pos (- x)
  else 0.

(** [a * b] on floats: the exact product, rounded once. *)
Definition float_mul (a b : Q) : Q := to_double (a * b).

(** Half a unit in the last place of a number of [[1, 2)]: [2 ^ -53]. *)
Definition half_ulp : Q := 1 # 9007199254740992.

(** A price whose products with the constants of [determine_fvg_type] are
    normal doubles. *)
Definition normal_price (x : Q) : Prop := 2 ^ (-1021) <= x /\ x <= 2 ^ 1023.

(** ** Candles and frames *)

Record Candle : Type := mkCandle {
  timestamp : Z;
  open : Q;
  high : Q;
  low : Q;
  close : Q;
  volume : Q
}.

Abbreviation DataFrame := (list Candle).

(** [df.iloc[i]] *)
Definition iloc (df : DataFrame) (i : nat) : outcome Candle :=
  match df !! i with
  | Some row => Returns row
  | None => Raises "IndexError: single positional indexer is out-of-bounds"
  end.

(** [df.iloc[:-1]] *)
Definition iloc_drop_last (df : DataFrame) : DataFrame :=
  take (length df - 1) df.

(** [range(a, b)] *)
Definition range (a b : nat) : list nat := seq a (b - a).

(** A candle whose low does not exceed its high. *)
Definition well_formed (c : Candle) : Prop := low c <= high c.

(** ** Fair value gaps *)

Inductive FvgType : Type := Bullish | Bearish.

Definition FvgType_eqb (a b : FvgType) : bool :=
  match a, b with
  | Bullish, Bullish | Bearish, Bearish => true
  | _, _ => false
  end.

Record FVG : Type := mkFVG {
  fvg_type : FvgType;
  index : nat;
  fvg_timestamp : Z;
  fvg_low : Q;
  fvg_high : Q;
  gap_size : Q;
  candle_1 : Candle;
  candle_2 : Candle;
  candle_3 : Candle
}.

(** [fvg_type_filter is None or fvg_type_filter == t] *)
Definition filter_allows (fvg_type_filter : option FvgType) (t : FvgType) : bool :=
  match fvg_type_filter with
  | None => true
  | Some t' => FvgType_eqb t' t
  end.

(** The body of the loop of [detect_fvg], at index [i], on the list built so
    far. *)
Definition detect_fvg_body (df_completed : DataFrame)
    (fvg_type_filter : option FvgType) (fvg_list : list FVG) (i : nat)
  : outcome (list FVG) :=
  do c1 <- iloc df_completed (i - 2);
  do c3 <- iloc df_completed i;
  if Qltb (high c1) (low c3) then
    if filter_allows fvg_type_filter Bullish then
      do c2 <- iloc df_completed (i - 1);
      Returns (fvg_list ++ [ {| fvg_type := Bullish;
                                index := i;
                                fvg_timestamp := timestamp c3;
                                fvg_low := high c1;
                                fvg_high := low c3;
                                gap_size := low c3 - high c1;
                                candle_1 := c1;
                                candle_2 := c2;
                                candle_3 := c3 |} ])
    else Returns fvg_list
  else if Qltb (high c3) (low c1) then
    if filter_allows fvg_type_filter Bearish then
      do c2 <- iloc df_completed (i - 1);
      Returns (fvg_list ++ [ {| fvg_type := Bearish;
                                index := i;
                                fvg_timestamp := timestamp c3;
                                fvg_low := high c3;
                                fvg_high := low c1;
                                gap_size := low c1 - high c3;
                                candle_1 := c1;
                                candle_2 := c2;
                                candle_3 := c3 |} ])
    else Returns fvg_list
  else Returns fvg_list.

(** [for i in idxs: body] *)
Fixpoint detect_fvg_loop (df_completed : DataFrame)
    (fvg_type_filter : option FvgType) (idxs : list nat) (fvg_list : list FVG)
  : outcome (list FVG) :=
  match idxs with
  | [] => Returns fvg_list
  | i :: rest =>
      do fvg_list' <- detect_fvg_body df_completed fvg_type_filter fvg_list i;
      detect_fvg_loop df_completed fvg_type_filter rest fvg_list'
  end.

Definition detect_fvg (df : DataFrame) (fvg_type_filter : option FvgType)
    (start_idx : Z) : outcome (list FVG) :=
  if (length df <? 4)%nat then Returns []
  else
    let df_completed := iloc_drop_last df in
    if (length df_completed <? 3)%nat then Returns []
    else
      let start := Z.to_nat (Z.max 2 start_idx) in
      detect_fvg_loop df_completed fvg_type_filter
        (range start (length df_completed)) [].

(** What one round of the loop appends at an index inside the frame: the
    loop body read as a function of the index alone. *)
Definition gap_at (df_completed : DataFrame) (fvg_type_filter : option FvgType)
    (i : nat) : list FVG :=
  match df_completed !! (i - 2)%nat, df_completed !! (i - 1)%nat,
        df_completed !! i with
  | Some c1, Some c2, Some c3 =>
      if Qltb (high c1) (low c3) then
        if filter_allows fvg_type_filter Bullish then
          [ mkFVG Bullish i (timestamp c3) (high c1) (low c3)
              (low c3 - high c1) c1 c2 c3 ]
        else []
      else if Qltb (high c3) (low c1) then
        if filter_allows fvg_type_filter Bearish then
          [ mkFVG Bearish i (timestamp c3) (high c3) (low c1)
              (low c1 - high c3) c1 c2 c3 ]
        else []
      else []
  | _, _, _ => []
  end.

(** ** Expected direction and taps *)

(** [get_current_price]: the close of the last completed candle. *)
Definition get_current_price (df : DataFrame) : outcome (option Q) :=
  if ((length df =? 0) || (length df <? 2))%nat then Returns None
  else
    do row <- iloc df (length df - 2);
    Returns (Some (close row)).

(** The literals [1.001] and [0.999] are the doubles nearest to them, and
    each product is a float product. *)
Definition determine_fvg_type (price_level current_price : Q) : option FvgType :=
  if Qgtb price_level (float_mul current_price (to_double 1.001))
  then Some Bearish
  else if Qltb price_level (float_mul current_price (to_double 0.999))
  then Some Bullish
  else None.

(** A row of the [price_levels] table. *)
Record PriceLevel : Type := mkLevel {
  level_id : Z;
  price : Q;
  label : string;
  enabled : bool;
  triggered : bool
}.

(** A value of [self.triggered_levels]. *)
Record TapInfo : Type := mkTap {
  tap_index : nat;
  tap_timestamp : Z;
  tap_price : Q;
  expected_fvg_type : option FvgType
}.

(** An element of the list [check_price_tap] returns; the keys ['timestamp']
    and ['expected_fvg_type'] carry the prefix [tapped_]. *)
Record TriggeredInfo : Type := mkTriggered {
  level : PriceLevel;
  candle_index : nat;
  tapped_timestamp : Z;
  candle_open : Q;
  candle_close : Q;
  candle_high : Q;
  candle_low : Q;
  tapped_expected_fvg_type : option FvgType
}.

(** [df.iterrows()] on a frame with the default index. *)
Definition iterrows (df : DataFrame) : list (nat * Candle) :=
  zip (seq 0 (length df)) df.

(** The inner loop of [check_price_tap]: the first row whose range holds the
    price, where the loop breaks. *)
Fixpoint first_tap (rows : list (nat * Candle)) (p : Q) : option (nat * Candle) :=
  match rows with
  | [] => None
  | (idx, row) :: rest =>
      if Qleb (low row) p && Qleb p (high row) then Some (idx, row)
      else first_tap rest p
  end.

(** One round of the outer loop of [check_price_tap]. *)
Definition check_price_tap_level (df_completed : DataFrame) (current_price : Q)
    (acc : list TriggeredInfo * gmap Z TapInfo) (lvl : PriceLevel)
  : list TriggeredInfo * gmap Z TapInfo :=
  let '(triggered_list, taps) := acc in
  if negb (enabled lvl) || triggered lvl then acc
  else
    match taps !! level_id lvl with
    | Some _ => acc
    | None =>
        let expected := determine_fvg_type (price lvl) current_price in
        match first_tap (iterrows df_completed) (price lvl) with
        | Some (idx, row) =>
            (triggered_list ++ [ {| level := lvl;
                                    candle_index := idx;
                                    tapped_timestamp := timestamp row;
                                    candle_open := open row;
                                    candle_close := close row;
                                    candle_high := high row;
                                    candle_low := low row;
                                    tapped_expected_fvg_type := expected |} ],
             <[ level_id lvl := {| tap_index := idx;
                                   tap_timestamp := timestamp row;
                                   tap_price := price lvl;
                                   expected_fvg_type := expected |} ]> taps)
        | None => acc
        end
    end.

(** [check_price_tap], on the tap map [self.triggered_levels]. *)
Definition check_price_tap (df : DataFrame) (price_levels : list PriceLevel)
    (current_price : Q) (taps : gmap Z TapInfo)
  : list TriggeredInfo * gmap Z TapInfo :=
  if ((length df =? 0) || (length price_levels =? 0))%nat then ([], taps)
  else
    let df_completed :=
      if (1 <? length df)%nat then iloc_drop_last df else df in
    fold_left (check_price_tap_level df_completed current_price)
      price_levels ([], taps).

(** What a tap record says of the frame it was found in. *)
Definition tap_from (df_completed : DataFrame) (info : TapInfo) : Prop :=
  exists row,
    df_completed !! tap_index info = Some row /\
    tap_timestamp info = timestamp row /\
    low row <= tap_price info /\ tap_price info <= high row.

(** ** Confirmation *)

(** [fvg_df[fvg_df['timestamp'] > tap_timestamp].reset_index(drop=True)] *)
Definition post_tap (fvg_df : DataFrame) (tap_ts : Z) : DataFrame :=
  List.filter (fun row => (tap_ts <? timestamp row)%Z) fvg_df.

Definition check_fvg_after_tap (fvg_df : DataFrame) (tap_ts : Z)
    (expected : option FvgType) : outcome (option FVG) :=
  if (length fvg_df =? 0)%nat then Returns None
  else
    let post_tap_df := post_tap fvg_df tap_ts in
    if (length post_tap_df <? 4)%nat then Returns None
    else
      do fvg_list <- detect_fvg post_tap_df expected 2;
      match fvg_list with
      | [] => Returns None
      | fvg :: _ => Returns (Some fvg)
      end.

(** ** Signals and the collaborators of the engine *)

Definition type_name (t : FvgType) : string :=
  match t with Bullish => "Bullish" | Bearish => "Bearish" end.

(** [expected_fvg_type or 'Any'] *)
Definition expected_name (expected : option FvgType) : string :=
  match expected with Some t => type_name t | None => "Any" end.

(** The dict [signal_data]; the keys shared with other dicts carry the prefix
    [sig_]. *)
Record Signal : Type := mkSignal {
  symbol : string;
  price_timeframe : string;
  fvg_timeframe : string;
  price_level : Q;
  trigger_price : Q;
  sig_tap_timestamp : Z;
  sig_fvg_type : FvgType;
  sig_fvg_timestamp : Z;
  sig_fvg_low : Q;
  sig_fvg_high : Q;
  sig_gap_size : Q;
  expected_type : string;
  notified : bool;
  signal_id : option nat
}.

(** The storage service, as far as the engine uses it: the rows of
    [price_levels], the rows of [signals_history], and the webhook of each
    user. *)
Record Db : Type := mkDb {
  price_levels_table : list PriceLevel;
  signals_history : list Signal;
  webhooks : gmap Z string
}.

(** What one engine instance and its collaborators hold between calls. *)
Record World : Type := mkWorld {
  triggered_levels : gmap Z TapInfo;
  db : Db;
  discord_sent : list Signal
}.

(** [db.save_signal]: inserts the row and returns its row id. *)
Definition save_signal (d : Db) (s : Signal) : nat * Db :=
  (S (length (signals_history d)),
   {| price_levels_table := price_levels_table d;
      signals_history := signals_history d ++ [s];
      webhooks := webhooks d |}).

Definition set_triggered (flag : bool) (lvl : PriceLevel) : PriceLevel :=
  {| level_id := level_id lvl; price := price lvl; label := label lvl;
     enabled := enabled lvl; triggered := flag |}.

(** [db.update_price_level_triggered]:
    [UPDATE price_levels SET triggered = ? WHERE level_id = ?] *)
Definition update_price_level_triggered (d : Db) (id : Z) (flag : bool) : Db :=
  {| price_levels_table :=
       map (fun lvl => if (level_id lvl =? id)%Z then set_triggered flag lvl else lvl)
           (price_levels_table d);
     signals_history := signals_history d;
     webhooks := webhooks d |}.

(** [db.get_price_levels] *)
Definition get_price_levels (d : Db) : list PriceLevel := price_levels_table d.

(** [db.decrypt_webhook] *)
Definition decrypt_webhook (d : Db) (user_id : Z) : option string :=
  webhooks d !! user_id.

Definition set_signal_id (s : Signal) (id : nat) : Signal :=
  {| symbol := symbol s; price_timeframe := price_timeframe s;
     fvg_timeframe := fvg_timeframe s; price_level := price_level s;
     trigger_price := trigger_price s; sig_tap_timestamp := sig_tap_timestamp s;
     sig_fvg_type := sig_fvg_type s; sig_fvg_timestamp := sig_fvg_timestamp s;
     sig_fvg_low := sig_fvg_low s; sig_fvg_high := sig_fvg_high s;
     sig_gap_size := sig_gap_size s; expected_type := expected_type s;
     notified := notified s; signal_id := Some id |}.

Definition set_notified (s : Signal) : Signal :=
  {| symbol := symbol s; price_timeframe := price_timeframe s;
     fvg_timeframe := fvg_timeframe s; price_level := price_level s;
     trigger_price := trigger_price s; sig_tap_timestamp := sig_tap_timestamp s;
     sig_fvg_type := sig_fvg_type s; sig_fvg_timestamp := sig_fvg_timestamp s;
     sig_fvg_low := sig_fvg_low s; sig_fvg_high := sig_fvg_high s;
     sig_gap_size := sig_gap_size s; expected_type := expected_type s;
     notified := true; signal_id := signal_id s |}.

(** The block under [if fvg:], which both loops of [check_fvg_signals] carry:
    build [signal_data], save it, flag the level in the store, notify, and
    append to [signals]. [trig] is the one entry the two copies fill
    differently. *)
Definition fire_signal (user_id : Z) (sym price_tf fvg_tf : string)
    (lvl : PriceLevel) (trig : Q) (tap_ts : Z) (expected : option FvgType)
    (fvg : FVG) (signals : list Signal) (w : World) : list Signal * World :=
  let signal_data :=
    {| symbol := sym; price_timeframe := price_tf; fvg_timeframe := fvg_tf;
       price_level := price lvl; trigger_price := trig;
       sig_tap_timestamp := tap_ts; sig_fvg_type := fvg_type fvg;
       sig_fvg_timestamp := fvg_timestamp fvg; sig_fvg_low := fvg_low fvg;
       sig_fvg_high := fvg_high fvg; sig_gap_size := gap_size fvg;
       expected_type := expected_name expected; notified := false;
       signal_id := None |} in
  let '(id, d1) := save_signal (db w) signal_data in
  let signal_data := set_signal_id signal_data id in
  let d2 := update_price_level_triggered d1 (level_id lvl) true in
  match decrypt_webhook d2 user_id with
  | Some _ =>
      let signal_data := set_notified signal_data in
      (signals ++ [signal_data],
       {| triggered_levels := triggered_levels w; db := d2;
          discord_sent := discord_sent w ++ [signal_data] |})
  | None =>
      (signals ++ [signal_data],
       {| triggered_levels := triggered_levels w; db := d2;
          discord_sent := discord_sent w |})
  end.

(** [del self.triggered_levels[level_id]] *)
Definition del_tap (id : Z) (w : World) : World :=
  {| triggered_levels := delete id (triggered_levels w); db := db w;
     discord_sent := discord_sent w |}.

(** The first loop of [check_fvg_signals], over [newly_tapped]. *)
Fixpoint newly_tapped_loop (fvg_df : DataFrame) (user_id : Z)
    (sym price_tf fvg_tf : string) (newly_tapped : list TriggeredInfo)
    (signals : list Signal) (w : World) : outcome (list Signal * World) :=
  match newly_tapped with
  | [] => Returns (signals, w)
  | tapped :: rest =>
      let lvl := level tapped in
      let tap_ts := tapped_timestamp tapped in
      let expected := tapped_expected_fvg_type tapped in
      do fvg <- check_fvg_after_tap fvg_df tap_ts expected;
      match fvg with
      | Some fvg =>
          let '(signals', w') :=
            fire_signal user_id sym price_tf fvg_tf lvl (candle_close tapped)
              tap_ts expected fvg signals w in
          newly_tapped_loop fvg_df user_id sym price_tf fvg_tf rest signals' w'
      | None =>
          newly_tapped_loop fvg_df user_id sym price_tf fvg_tf rest signals w
      end
  end.

(** The second loop of [check_fvg_signals], over [price_levels]. *)
Fixpoint previously_tapped_loop (fvg_df : DataFrame) (user_id : Z)
    (sym price_tf fvg_tf : string) (price_levels : list PriceLevel)
    (signals : list Signal) (w : World) : outcome (list Signal * World) :=
  match price_levels with
  | [] => Returns (signals, w)
  | lvl :: rest =>
      if triggered lvl then
        previously_tapped_loop fvg_df user_id sym price_tf fvg_tf rest signals w
      else
        match triggered_levels w !! level_id lvl with
        | Some tap_info =>
            let tap_ts := tap_timestamp tap_info in
            let expected := expected_fvg_type tap_info in
            do fvg <- check_fvg_after_tap fvg_df tap_ts expected;
            match fvg with
            | Some fvg =>
                let '(signals', w') :=
                  fire_signal user_id sym price_tf fvg_tf lvl (tap_price tap_info)
                    tap_ts expected fvg signals w in
                previously_tapped_loop fvg_df user_id sym price_tf fvg_tf rest
                  signals' (del_tap (level_id lvl) w')
            | None =>
                previously_tapped_loop fvg_df user_id sym price_tf fvg_tf rest
                  signals w
            end
        | None =>
            previously_tapped_loop fvg_df user_id sym price_tf fvg_tf rest
              signals w
        end
  end.

Definition check_fvg_signals (price_df fvg_df : DataFrame)
    (price_levels : list PriceLevel) (user_id : Z)
    (sym price_tf fvg_tf : string) (w : World)
  : outcome (list Signal * World) :=
  if ((length price_df =? 0) || (length fvg_df =? 0)
      || (length price_levels =? 0))%nat
  then Returns ([], w)
  else
    do current_price <- get_current_price price_df;
    match current_price with
    | None => Returns ([], w)
    | Some current_price =>
        let '(newly_tapped, taps) :=
          check_price_tap price_df price_levels current_price
            (triggered_levels w) in
        let w1 := {| triggered_levels := taps; db := db w;
                     discord_sent := discord_sent w |} in
        do r <- newly_tapped_loop fvg_df user_id sym price_tf fvg_tf
                  newly_tapped [] w1;
        previously_tapped_loop fvg_df user_id sym price_tf fvg_tf price_levels
          (fst r) (snd r)
    end.

(** [TradingEngine(db_manager, notification_manager)]: a new engine over the
    same store has seen no tap. *)
Definition new_engine (w : World) : World :=
  {| triggered_levels := ∅; db := db w; discord_sent := discord_sent w |}.

(** One refresh of the host: the script of the page runs from its top, where
    it builds the engine anew; then [chart_page] reads the levels from the
    store and calls the engine on the two fetched series. *)
Definition refresh (user_id : Z) (sym price_tf fvg_tf : string)
    (frames : DataFrame * DataFrame) (w : World)
  : outcome (list Signal * World) :=
  check_fvg_signals (fst frames) (snd frames) (get_price_levels (db w))
    user_id sym price_tf fvg_tf (new_engine w).

(** Successive calls of [check_fvg_signals] on one engine object, each with
    the levels as the store holds them then, and all the signals they
    return. *)
Fixpoint evaluations (user_id : Z) (sym price_tf fvg_tf : string)
    (ticks : list (DataFrame * DataFrame)) (w : World)
  : outcome (list Signal * World) :=
  match ticks with
  | [] => Returns ([], w)
  | frames :: rest =>
      do r <- check_fvg_signals (fst frames) (snd frames)
                (get_price_levels (db w)) user_id sym price_tf fvg_tf w;
      do r' <- evaluations user_id sym price_tf fvg_tf rest (snd r);
      Returns (fst r ++ fst r', snd r')
  end.

(** Successive refreshes, with all the signals they return. *)
Fixpoint refreshes (user_id : Z) (sym price_tf fvg_tf : string)
    (ticks : list (DataFrame * DataFrame)) (w : World)
  : outcome (list Signal * World) :=
  match ticks with
  | [] => Returns ([], w)
  | frames :: rest =>
      do r <- refresh user_id sym price_tf fvg_tf frames w;
      do r' <- refreshes user_id sym price_tf fvg_tf rest (snd r);
      Returns (fst r ++ fst r', snd r')
  end.

(** The signal carries the first gap found after its tap in the
    confirmation series, under some expected direction. *)
Definition signal_from (fvg_df : DataFrame) (s : Signal) : Prop :=
  exists expected fvgs fvg,
    detect_fvg (post_tap fvg_df (sig_tap_timestamp s)) expected 2
    = Returns fvgs /\
    head fvgs = Some fvg /\
    expected_type s = expected_name expected /\
    sig_fvg_type s = fvg_type fvg /\
    sig_fvg_timestamp s = fvg_timestamp fvg /\
    sig_fvg_low s = fvg_low fvg /\
    sig_fvg_high s = fvg_high fvg /\
    sig_gap_size s = gap_size fvg.

(** ** Indicator output and alert rules *)

(** What [calculate] returns: a [pd.Series], or a [pd.DataFrame] given by its
    named columns. *)
Inductive IndicatorData : Type :=
| Series (values : list Q)
| Frame (columns : list (string * list Q)).

(** [len(indicator_data)]: the number of rows. *)
Definition data_len (d : IndicatorData) : nat :=
  match d with
  | Series values => length values
  | Frame [] => 0
  | Frame ((_, values) :: _) => length values
  end.

(** [indicator_data.empty]: some axis has length zero. *)
Definition data_empty (d : IndicatorData) : bool :=
  match d with
  | Series values => (length values =? 0)%nat
  | Frame cols => ((length cols =? 0) || (data_len d =? 0))%nat
  end.

(** [name in indicator_data.columns] *)
Definition has_column (cols : list (string * list Q)) (name : string) : bool :=
  existsb (fun c => String.eqb (fst c) name) cols.

(** [indicator_data[name]] *)
Fixpoint get_column (cols : list (string * list Q)) (name : string)
  : outcome (list Q) :=
  match cols with
  | [] => Raises ("KeyError: " ++ name)
  | (n, values) :: rest =>
      if String.eqb n name then Returns values else get_column rest name
  end.

(** [s.iloc[-k]], for [k >= 1] *)
Definition iloc_back (values : list Q) (k : nat) : outcome Q :=
  if (length values <? k)%nat
  then Raises "IndexError: single positional indexer is out-of-bounds"
  else
    match values !! (length values - k)%nat with
    | Some v => Returns v
    | None => Raises "IndexError: single positional indexer is out-of-bounds"
    end.

(** What a dict has under a key: nothing, [None], or a value. *)
Inductive DictEntry (A : Type) : Type :=
| Missing
| HoldsNone
| Holds (a : A).
Arguments Missing {A}.
Arguments HoldsNone {A}.
Arguments Holds {A} a.

(** [d.get(key, default)]; the result [None] is Python's [None]. *)
Definition dict_get {A : Type} (e : DictEntry A) (default : A) : option A :=
  match e with
  | Missing => Some default
  | HoldsNone => None
  | Holds a => Some a
  end.

(** [d.get(key)] *)
Definition dict_get_none {A : Type} (e : DictEntry A) : option A :=
  match e with
  | Holds a => Some a
  | Missing | HoldsNone => None
  end.

(** [x == s], for a string [s] and an [x] that can be [None]. *)
Definition py_eq (x : option string) (s : string) : bool :=
  match x with
  | Some x => String.eqb x s
  | None => false
  end.

(** The dict [alert_config], by its five keys. *)
Record AlertDict : Type := mkAlertDict {
  key_type : DictEntry string;
  key_condition : DictEntry string;
  key_value : DictEntry Q;
  key_line : DictEntry string;
  key_compare_with : DictEntry string
}.

(** A dict [alert_config] none of whose keys holds [None]: a key is absent
    ([None] here) or holds a value. *)
Record AlertConfig : Type := mkAlert {
  cfg_type : option string;
  cfg_condition : option string;
  cfg_value : option Q;
  cfg_line : option string;
  cfg_compare_with : option string
}.

(** The second component of what [check_alert_conditions] returns. *)
Inductive Details : Type :=
| ValueDetails (current threshold : Q)
| CrossDetails (current previous threshold : Q)
| CompareDetails (main_current compare_current : Q).

(** [abs(x) < 0.01] *)
Definition Qabs_lt_cent (x : Q) : bool :=
  Qltb x 0.01 && Qltb (- 0.01) x.

(** [s.iloc[-2] if len(indicator_data) > 1 else None] *)
Definition previous_of (d : IndicatorData) (values : list Q) : outcome (option Q) :=
  if (1 <? data_len d)%nat
  then do v <- iloc_back values 2; Returns (Some v)
  else Returns None.

Definition is_frame (d : IndicatorData) : bool :=
  match d with Frame _ => true | Series _ => false end.

(** The dict of a rule none of whose keys holds [None]. *)
Definition entry_of {A : Type} (o : option A) : DictEntry A :=
  match o with
  | Some a => Holds a
  | None => Missing
  end.

Definition as_dict (cfg : AlertConfig) : AlertDict :=
  {| key_type := entry_of (cfg_type cfg);
     key_condition := entry_of (cfg_condition cfg);
     key_value := entry_of (cfg_value cfg);
     key_line := entry_of (cfg_line cfg);
     key_compare_with := entry_of (cfg_compare_with cfg) |}.

Coercion as_dict : AlertConfig >-> AlertDict.

(** The branch [alert_type == 'compare'] once the data is a frame. *)
Definition compare_lines (d : IndicatorData) (cols : list (string * list Q))
    (compare_line : option string) (condition : option string) (current : Q)
    (previous : option Q) : outcome (bool * option Details) :=
  match compare_line with
  | Some compare_line =>
      if negb (String.eqb compare_line "") && has_column cols compare_line then
        do cmp <- get_column cols compare_line;
        do compare_current <- iloc_back cmp 1;
        do compare_previous <- previous_of d cmp;
        match compare_previous, previous with
        | Some cp, Some p =>
            if py_eq condition "crosses_above" then
              Returns (Qleb p cp && Qltb compare_current current,
                       Some (CompareDetails current compare_current))
            else if py_eq condition "crosses_below" then
              Returns (Qleb cp p && Qltb current compare_current,
                       Some (CompareDetails current compare_current))
            else Returns (false, None)
        | Some _, None =>
            if py_eq condition "crosses_above"
               || py_eq condition "crosses_below"
            then Raises "TypeError: '<=' not supported for 'NoneType'"
            else Returns (false, None)
        | None, _ => Returns (false, None)
        end
      else Returns (false, None)
  | None => Returns (false, None)
  end.

(** A comparison or a difference of a number with the threshold, which
    raises when the threshold is [None]. *)
Definition with_threshold {A : Type} (threshold : option Q) (k : Q -> A)
  : outcome A :=
  match threshold with
  | Some thr => Returns (k thr)
  | None => Raises "TypeError: operand of type 'NoneType'"
  end.

Definition check_alert_conditions (indicator_data : option IndicatorData)
    (alert_config : AlertDict) : outcome (bool * option Details) :=
  match indicator_data with
  | None => Returns (false, None)
  | Some d =>
      if data_empty d then Returns (false, None)
      else
        let alert_type := dict_get (key_type alert_config) "value" in
        let condition := dict_get (key_condition alert_config) "above" in
        let threshold := dict_get (key_value alert_config) 0 in
        do line <-
          match d with
          | Frame cols =>
              match cols with
              | (first_column, _) :: _ =>
                  match dict_get (key_line alert_config) first_column with
                  | Some main_line => get_column cols main_line
                  | None => Raises "KeyError: None"
                  end
              | [] => Raises "IndexError: list index out of range"
              end
          | Series values => Returns values
          end;
        do current <- iloc_back line 1;
        do previous <- previous_of d line;
        if py_eq alert_type "value" then
          if py_eq condition "above" then
            with_threshold threshold (fun thr =>
              (Qltb thr current, Some (ValueDetails current thr)))
          else if py_eq condition "below" then
            with_threshold threshold (fun thr =>
              (Qltb current thr, Some (ValueDetails current thr)))
          else if py_eq condition "equals" then
            with_threshold threshold (fun thr =>
              (Qabs_lt_cent (current - thr), Some (ValueDetails current thr)))
          else Returns (false, None)
        else
          match py_eq alert_type "crossover", previous with
          | true, Some p =>
              if py_eq condition "crosses_above" then
                with_threshold threshold (fun thr =>
                  (Qleb p thr && Qltb thr current,
                   Some (CrossDetails current p thr)))
              else if py_eq condition "crosses_below" then
                with_threshold threshold (fun thr =>
                  (Qleb thr p && Qltb current thr,
                   Some (CrossDetails current p thr)))
              else Returns (false, None)
          | _, _ =>
              if py_eq alert_type "compare" && is_frame d then
                match d with
                | Frame cols =>
                    compare_lines d cols
                      (dict_get_none (key_compare_with alert_config))
                      condition current previous
                | Series _ => Returns (false, None)
                end
              else Returns (false, None)
          end
  end.

(** The branch [alert_type == 'compare'] for a rule none of whose keys holds
    [None]. *)
Definition compare_branch (d : IndicatorData) (cols : list (string * list Q))
    (cfg : AlertConfig) (condition : string) (current : Q) (previous : option Q)
  : outcome (bool * option Details) :=
  match cfg_compare_with cfg with
  | Some compare_line =>
      if negb (String.eqb compare_line "") && has_column cols compare_line then
        do cmp <- get_column cols compare_line;
        do compare_current <- iloc_back cmp 1;
        do compare_previous <- previous_of d cmp;
        match compare_previous, previous with
        | Some cp, Some p =>
            if String.eqb condition "crosses_above" then
              Returns (Qleb p cp && Qltb compare_current current,
                       Some (CompareDetails current compare_current))
            else if String.eqb condition "crosses_below" then
              Returns (Qleb cp p && Qltb current compare_current,
                       Some (CompareDetails current compare_current))
            else Returns (false, None)
        | Some _, None =>
            if String.eqb condition "crosses_above"
               || String.eqb condition "crosses_below"
            then Raises "TypeError: '<=' not supported for 'NoneType'"
            else Returns (false, None)
        | None, _ => Returns (false, None)
        end
      else Returns (false, None)
  | None => Returns (false, None)
  end.

(** [check_alert_conditions] on a rule none of whose keys holds [None], with
    the defaults of the absent keys filled in: the two agree on such a rule
    (lemma [check_alert_conditions_config]). *)
Definition check_alert_config (indicator_data : option IndicatorData)
    (cfg : AlertConfig) : outcome (bool * option Details) :=
  match indicator_data with
  | None => Returns (false, None)
  | Some d =>
      if data_empty d then Returns (false, None)
      else
        let alert_type := default "value" (cfg_type cfg) in
        let condition := default "above" (cfg_condition cfg) in
        let threshold := default 0 (cfg_value cfg) in
        do line <-
          match d with
          | Frame cols =>
              match cols with
              | (first_column, _) :: _ =>
                  get_column cols (default first_column (cfg_line cfg))
              | [] => Raises "IndexError: list index out of range"
              end
          | Series values => Returns values
          end;
        do current <- iloc_back line 1;
        do previous <- previous_of d line;
        if String.eqb alert_type "value" then
          if String.eqb condition "above" then
            Returns (Qltb threshold current, Some (ValueDetails current threshold))
          else if String.eqb condition "below" then
            Returns (Qltb current threshold, Some (ValueDetails current threshold))
          else if String.eqb condition "equals" then
            Returns (Qabs_lt_cent (current - threshold),
                     Some (ValueDetails current threshold))
          else Returns (false, None)
        else
          match String.eqb alert_type "crossover", previous with
          | true, Some p =>
              if String.eqb condition "crosses_above" then
                Returns (Qleb p threshold && Qltb threshold current,
                         Some (CrossDetails current p threshold))
              else if String.eqb condition "crosses_below" then
                Returns (Qleb threshold p && Qltb current threshold,
                         Some (CrossDetails current p threshold))
              else Returns (false, None)
          | _, _ =>
              if String.eqb alert_type "compare" && is_frame d then
                match d with
                | Frame cols => compare_branch d cols cfg condition current previous
                | Series _ => Returns (false, None)
                end
              else Returns (false, None)
          end
  end.

(** A frame as pandas holds it: every column has the rows of the frame. *)
Definition frame_aligned (d : IndicatorData) : Prop :=
  match d with
  | Series _ => True
  | Frame cols => Forall (fun c => length (snd c) = data_len d) cols
  end.

(** The key ['line'], when the rule has it and the output is a frame, names
    one of the columns. *)
Definition main_line_known (d : IndicatorData) (cfg : AlertConfig) : Prop :=
  match d, cfg_line cfg with
  | Frame cols, Some name => has_column cols name = true
  | _, _ => True
  end.


(** ** The sandbox run and its caller *)

Abbreviation Params := (list (string * Q)).

(** The function the code binds to [calculate]: what a call returns or
    raises, and the rows of its first argument when the call ends. The
    argument is the frame of the caller itself, which the call can alter in
    place. *)
Abbreviation PyCalculate :=
  (DataFrame -> Params -> outcome IndicatorData * DataFrame).

Section Sandbox.

(** [exec(code, namespace)]: the run of the code raises, or it ends, with
    ['calculate'] bound in the namespace or not. The interpreter is a
    parameter of the model; the frame is the copy that the namespace holds
    under ['df'], so the run of the code leaves the frame of the caller as
    it is. Of what a run can alter, the model follows the frame of the
    caller; the modules [pd] and [np] that every namespace shares are taken
    as left as they are. *)
Variable py_exec : string -> DataFrame -> outcome (option PyCalculate).

(** The body of the [try] of [execute_indicator], with the frame of the
    caller as the body leaves it. *)
Definition execute_indicator_try (code : string) (df : DataFrame)
    (params : option Params) : outcome IndicatorData * DataFrame :=
  match py_exec code df with
  | Returns (Some calculate) =>
      match params with
      | Some (p :: ps) => calculate df (p :: ps)
      | Some [] | None => calculate df []
      end
  | Returns None => (Raises "Code must define a 'calculate' function", df)
  | Raises e => (Raises e, df)
  | Exits e => (Exits e, df)
  end.

(** [execute_indicator]: the [except Exception as e] clause raises anew,
    with [str(e)] after a fixed prefix; an exception that does not derive
    from [Exception] passes the clause as it is. *)
Definition execute_indicator (code : string) (df : DataFrame)
    (params : option Params) : outcome IndicatorData :=
  match fst (execute_indicator_try code df params) with
  | Returns result => Returns result
  | Raises e => Raises ("Indicator execution error: " ++ e)
  | Exits e => Exits e
  end.

(** The frame of the caller after the call of [execute_indicator]. *)
Definition frame_after_indicator (code : string) (df : DataFrame)
    (params : option Params) : DataFrame :=
  snd (execute_indicator_try code df params).

(** A row of [db.get_indicator_alerts], with the type and the condition
    that [save_indicator_alert] wrote; the column [value] can be NULL. *)
Record IndicatorAlert : Type := mkIndicatorAlert {
  alert_id : Z;
  indicator_id : string;
  indicator_name : string;
  alert_type : string;
  condition : string;
  value : option Q
}.

(** What the host shows for one alert of the loop; [AlertsLeft] stands for
    an exception that leaves the loop and the function. *)
Inductive AlertReport : Type :=
| AlertFired (details : option Details)
| AlertQuiet
| AlertError (msg : string)
| AlertsLeft (msg : string).

(** [self.builtin_indicators]: code and default parameters by id. *)
Variable builtin_indicators : gmap string (string * Params).

(** [db.get_indicator_code] *)
Variable get_indicator_code : string -> outcome string.

(** The code and the parameters that the loop finds for an alert. *)
Definition find_code (alert : IndicatorAlert) : outcome (string * Params) :=
  match builtin_indicators !! indicator_id alert with
  | Some (code, params) => Returns (code, params)
  | None =>
      do code <- get_indicator_code (indicator_id alert);
      Returns (code, [])
  end.

(** The dict that the loop builds from a row. The row has the key ['value']
    whatever the column holds, so [alert.get('value', 0)] is [None] for
    NULL. *)
Definition alert_config_of (alert : IndicatorAlert) : AlertDict :=
  {| key_type := Holds (alert_type alert);
     key_condition := Holds (condition alert);
     key_value := match value alert with
                  | Some v => Holds v
                  | None => HoldsNone
                  end;
     key_line := Missing;
     key_compare_with := Missing |}.

(** The body of the [try] of the loop of [check_indicator_alerts], with the
    frame as the body leaves it. *)
Definition check_one_alert (df : DataFrame) (alert : IndicatorAlert)
  : outcome (bool * option Details) * DataFrame :=
  match find_code alert with
  | Returns (code, params) =>
      (do indicator_data <- execute_indicator code df (Some params);
       check_alert_conditions (Some indicator_data) (alert_config_of alert),
       frame_after_indicator code df (Some params))
  | Raises e => (Raises e, df)
  | Exits e => (Exits e, df)
  end.

(** The loop of [check_indicator_alerts] over the alerts, on the one frame
    [df] that every round hands to the sandbox: one report for each alert,
    an [Exception] of one round being shown and the loop going on; any
    other exception ends the loop. *)
Fixpoint check_indicator_alerts (df : DataFrame)
    (alerts : list IndicatorAlert) : list AlertReport :=
  match alerts with
  | [] => []
  | alert :: rest =>
      let df' := snd (check_one_alert df alert) in
      match fst (check_one_alert df alert) with
      | Returns (true, details) =>
          AlertFired details :: check_indicator_alerts df' rest
      | Returns (false, _) => AlertQuiet :: check_indicator_alerts df' rest
      | Raises e =>
          AlertError ("Alert check error: " ++ e)
          :: check_indicator_alerts df' rest
      | Exits e => [AlertsLeft e]
      end
  end.

(** The frame after the loop over [alerts], when no round leaves the loop. *)
Fixpoint frame_after_alerts (df : DataFrame) (alerts : list IndicatorAlert)
  : option DataFrame :=
  match alerts with
  | [] => Some df
  | alert :: rest =>
      match fst (check_one_alert df alert) with
      | Exits _ => None
      | Returns _ | Raises _ =>
          frame_after_alerts (snd (check_one_alert df alert)) rest
      end
  end.

End Sandbox.

(** The ways a sandbox run fails with an [Exception], with the cause of
    each: the code binds no [calculate], the code raises, or [calculate]
    raises when called. *)
Inductive run_fails (py_exec : string -> DataFrame -> outcome (option PyCalculate))
    (code : string) (df : DataFrame) (params : option Params) : string -> Prop :=
| fails_no_calculate :
    py_exec code df = Returns None ->
    run_fails py_exec code df params "Code must define a 'calculate' function"
| fails_code_raises (e : string) :
    py_exec code df = Raises e ->
    run_fails py_exec code df params e
| fails_calculate_raises (calculate : PyCalculate) (e : string) :
    py_exec code df = Returns (Some calculate) ->
    fst (calculate df (default [] params)) = Raises e ->
    run_fails py_exec code df params e.

(** The run of the code raises, whatever the class of the exception. *)
Definition code_raises (py_exec : string -> DataFrame -> outcome (option PyCalculate))
    (code : string) (df : DataFrame) (e : string) : Prop :=
  py_exec code df = Raises e \/ py_exec code df = Exits e.

(** Where the loop of [check_indicator_alerts] finds the code and the
    parameters of an alert. *)
Definition alert_code (builtin_indicators : gmap string (string * Params))
    (get_indicator_code : string -> outcome string) (alert : IndicatorAlert)
    (code : string) (params : Params) : Prop :=
  builtin_indicators !! indicator_id alert = Some (code, params)
  \/ (builtin_indicators !! indicator_id alert = None /\
      get_indicator_code (indicator_id alert) = Returns code /\
      params = []).

(** ** Concrete inputs *)

(** A candle given by its timestamp and its four prices. *)
Definition candle (ts : Z) (o h l c : Q) : Candle :=
  {| timestamp := ts; open := o; high := h; low := l; close := c; volume := 1 |}.

(** Three completed candles that leave a Bullish gap between 100 and 103,
    and the live candle. *)
Definition gap_frame : DataFrame :=
  [ candle 11 99 100 98 99;
    candle 12 99 99 95 96;
    candle 13 103 105 103 104;
    candle 14 104 104 104 104 ].

(** Four candles after the tap that leave no gap. *)
Definition quiet_frame : DataFrame :=
  [ candle 11 99 100 98 99;
    candle 12 99 101 97 98;
    candle 13 98 100 98 99;
    candle 14 99 99 99 99 ].

(** A trigger series: one completed candle that spans 99..106 and closes at
    105, and the live candle. *)
Definition tap_frame : DataFrame :=
  [ candle 10 100 106 99 105;
    candle 20 105 105 105 105 ].

(** A series that holds the live candle alone. *)
Definition live_only_frame : DataFrame := [ candle 10 100 106 99 105 ].

(** A level at 101, enabled and not yet triggered. *)
Definition level_101 : PriceLevel :=
  {| level_id := 1; price := 101; label := "101"; enabled := true;
     triggered := false |}.

(** An engine that has seen nothing, over a store that holds [level_101]. *)
Definition fresh_world : World :=
  {| triggered_levels := ∅;
     db := {| price_levels_table := [level_101]; signals_history := [];
              webhooks := ∅ |};
     discord_sent := [] |}.

(** A two-column output and a rule of unknown type that names a line the
    output does not have. *)
Definition macd_frame : IndicatorData :=
  Frame [ ("macd", [1; 2]); ("signal", [2; 1]) ].


(** An interpreter for which no code binds [calculate]. *)
Definition exec_binds_nothing (code : string) (df : DataFrame)
  : outcome (option PyCalculate) := Returns None.

(** An interpreter for which every code ends the process: it raises
    [SystemExit]. *)
Definition exec_exits (code : string) (df : DataFrame)
  : outcome (option PyCalculate) := Exits "SystemExit".

(** An interpreter that knows two codes. The code ["rsi"] binds a
    [calculate] that returns the closes 69 and 71 and leaves its frame as it
    is; any other code binds a [calculate] that drops the first row of its
    frame, then raises. *)
Definition exec_two_codes (code : string) (df : DataFrame)
  : outcome (option PyCalculate) :=
  if String.eqb code "rsi"
  then Returns (Some (fun df _ => (Returns (Series [69; 71]), df)))
  else Returns (Some (fun df _ => (Raises "KeyError: 'vwap'", tail df))).

(** Two built-in indicators for [exec_two_codes], and three alerts on them:
    two value rules on the first, between them one on the second. *)
Definition two_builtins : gmap string (string * Params) :=
  {[ "rsi" := ("rsi", []); "vwap" := ("vwap", []) ]}.

Definition rsi_above (thr : Q) : IndicatorAlert :=
  {| alert_id := 1; indicator_id := "rsi"; indicator_name := "RSI";
     alert_type := "value"; condition := "above"; value := Some thr |}.

Definition vwap_above : IndicatorAlert :=
  {| alert_id := 2; indicator_id := "vwap"; indicator_name := "VWAP";
     alert_type := "value"; condition := "above"; value := Some 0 |}.

(** * Further functions of the engine and of its host *)

(** [fvg['type'] == t] *)
Definition has_type (t : FvgType) (f : FVG) : bool := FvgType_eqb (fvg_type f) t.

(** [fvg['index'] >= start] *)
Definition from_index (start : nat) (f : FVG) : bool := (start <=? index f)%nat.

(** [get_fvg_type_indicator] of the host: the badge shown beside a level. *)
Definition get_fvg_type_indicator (price_level : Q) (current_price : option Q)
  : string :=
  match current_price with
  | None => "⚪ Unknown"
  | Some current_price =>
      if Qgtb price_level (float_mul current_price (to_double 1.001))
      then "🔴 Bearish"
      else if Qltb price_level (float_mul current_price (to_double 0.999))
      then "🟢 Bullish"
      else "🟡 Both"
  end.

(** The text of the badge that stands for an expected direction. *)
Definition badge_of (expected : option FvgType) : string :=
  match expected with
  | Some Bearish => "🔴 Bearish"
  | Some Bullish => "🟢 Bullish"
  | None => "🟡 Both"
  end.

(** The dict that [get_trading_recommendation] returns; the arithmetic of
    the function is taken exact. *)
Record Recommendation : Type := mkRecommendation {
  action : string;
  entry : Q;
  stop_loss : Q;
  take_profit : Q;
  risk_reward : Q
}.

(** [round(x, 2)] *)
Definition py_round2 (x : Q) : Q := inject_Z (round_half_even (x * 100)) / 100.

Definition with_risk_reward (r : Recommendation) (rr : Q) : Recommendation :=
  {| action := action r; entry := entry r; stop_loss := stop_loss r;
     take_profit := take_profit r; risk_reward := rr |}.

Definition get_trading_recommendation (fvg_type : string)
    (current_price fvg_low fvg_high : Q) : Recommendation :=
  let recommendation :=
    if String.eqb fvg_type "Bullish" then
      {| action := "BUY";
         entry := fvg_low;
         stop_loss := fvg_low - (fvg_high - fvg_low) * 0.5;
         take_profit := fvg_high + (fvg_high - fvg_low) * 2;
         risk_reward := 0 |}
    else if String.eqb fvg_type "Bearish" then
      {| action := "SELL";
         entry := fvg_high;
         stop_loss := fvg_high + (fvg_high - fvg_low) * 0.5;
         take_profit := fvg_low - (fvg_high - fvg_low) * 2;
         risk_reward := 0 |}
    else
      {| action := ""; entry := 0; stop_loss := 0; take_profit := 0;
         risk_reward := 0 |} in
  let risk := Qabs (entry recommendation - stop_loss recommendation) in
  let reward := Qabs (take_profit recommendation - entry recommendation) in
  if Qgtb risk 0 then with_risk_reward recommendation (py_round2 (reward / risk))
  else recommendation.

(** An element of the list of [calculate_support_resistance]. *)
Inductive SRType : Type := resistance | support.

Record SRLevel : Type := mkSR {
  sr_type : SRType;
  sr_price : Q;
  sr_timestamp : Z
}.

(** [df.iloc[a:b]] *)
Definition iloc_slice (df : DataFrame) (a b : nat) : DataFrame :=
  take (b - a) (drop a df).

(** [s.max()]: not a number, here [None], on an empty series. *)
Fixpoint series_max (values : list Q) : option Q :=
  match values with
  | [] => None
  | x :: rest =>
      match series_max rest with
      | None => Some x
      | Some m => Some (if Qltb m x then x else m)
      end
  end.

(** [s.min()] *)
Fixpoint series_min (values : list Q) : option Q :=
  match values with
  | [] => None
  | x :: rest =>
      match series_min rest with
      | None => Some x
      | Some m => Some (if Qltb x m then x else m)
      end
  end.

(** [x == m], false against not a number. *)
Definition float_eq (x : Q) (m : option Q) : bool :=
  match m with
  | Some m => Qeq_bool x m
  | None => false
  end.

(** The body of the loop of [calculate_support_resistance]. *)
Definition support_resistance_body (df_completed : DataFrame) (window : nat)
    (levels : list SRLevel) (i : nat) : outcome (list SRLevel) :=
  do row <- iloc df_completed i;
  let around := iloc_slice df_completed (i - window) (i + window + 1) in
  let levels :=
    if float_eq (high row) (series_max (map high around))
    then levels ++ [ {| sr_type := resistance; sr_price := high row;
                        sr_timestamp := timestamp row |} ]
    else levels in
  let levels :=
    if float_eq (low row) (series_min (map low around))
    then levels ++ [ {| sr_type := support; sr_price := low row;
                        sr_timestamp := timestamp row |} ]
    else levels in
  Returns levels.

Fixpoint support_resistance_loop (df_completed : DataFrame) (window : nat)
    (idxs : list nat) (levels : list SRLevel) : outcome (list SRLevel) :=
  match idxs with
  | [] => Returns levels
  | i :: rest =>
      do levels' <- support_resistance_body df_completed window levels i;
      support_resistance_loop df_completed window rest levels'
  end.

Definition calculate_support_resistance (df : DataFrame) (window : nat)
  : outcome (list SRLevel) :=
  if (length df <? window + 1)%nat then Returns []
  else
    let df_completed := iloc_drop_last df in
    support_resistance_loop df_completed window
      (range window (length df_completed - window)) [].

(** The frame that [check_price_tap] scans: [df_completed]. *)
Definition scanned (df : DataFrame) : DataFrame :=
  if (1 <? length df)%nat then iloc_drop_last df else df.

(** The record and the list entry that a level receives when the scan of
    [df_completed] finds its first tap. *)
Definition tap_record (cp : Q) (lvl : PriceLevel) (idx : nat) (row : Candle)
  : TapInfo :=
  {| tap_index := idx; tap_timestamp := timestamp row; tap_price := price lvl;
     expected_fvg_type := determine_fvg_type (price lvl) cp |}.

Definition tap_entry (cp : Q) (lvl : PriceLevel) (idx : nat) (row : Candle)
  : TriggeredInfo :=
  {| level := lvl; candle_index := idx; tapped_timestamp := timestamp row;
     candle_open := open row; candle_close := close row;
     candle_high := high row; candle_low := low row;
     tapped_expected_fvg_type := determine_fvg_type (price lvl) cp |}.

(** What holds of the list and of the map of [check_price_tap] after the
    levels [done], from the map [taps0]. *)
Definition tap_scan_inv (dfc : DataFrame) (cp : Q) (taps0 : gmap Z TapInfo)
    (done : list PriceLevel) (acc : list TriggeredInfo * gmap Z TapInfo)
  : Prop :=
  (forall id info, taps0 !! id = Some info -> snd acc !! id = Some info) /\
  (forall id info, snd acc !! id = Some info ->
     taps0 !! id = Some info \/
     exists lvl idx row,
       In lvl done /\ level_id lvl = id /\
       enabled lvl = true /\ triggered lvl = false /\
       first_tap (iterrows dfc) (price lvl) = Some (idx, row) /\
       info = tap_record cp lvl idx row) /\
  (forall t, In t (fst acc) ->
     exists idx row,
       In (level t) done /\ taps0 !! level_id (level t) = None /\
       first_tap (iterrows dfc) (price (level t)) = Some (idx, row) /\
       t = tap_entry cp (level t) idx row /\
       snd acc !! level_id (level t) = Some (tap_record cp (level t) idx row)) /\
  NoDup (map (fun t => level_id (level t)) (fst acc)) /\
  (forall lvl, In lvl done -> enabled lvl = true -> triggered lvl = false ->
     snd acc !! level_id lvl = None ->
     first_tap (iterrows dfc) (price lvl) = None) /\
  (forall id info, snd acc !! id = Some info -> taps0 !! id = None ->
     exists t, In t (fst acc) /\ level_id (level t) = id).

(** The range of the candle holds the price: [row['low'] <= p <= row['high']]. *)
Definition touches (row : Candle) (p : Q) : Prop := low row <= p /\ p <= high row.

(** The row of [signals_history] that [save_signal] writes for a signal: the
    dict as it is when saved, before the row id and the notification. *)
Definition as_saved (s : Signal) : Signal :=
  {| symbol := symbol s; price_timeframe := price_timeframe s;
     fvg_timeframe := fvg_timeframe s; price_level := price_level s;
     trigger_price := trigger_price s; sig_tap_timestamp := sig_tap_timestamp s;
     sig_fvg_type := sig_fvg_type s; sig_fvg_timestamp := sig_fvg_timestamp s;
     sig_fvg_low := sig_fvg_low s; sig_fvg_high := sig_fvg_high s;
     sig_gap_size := sig_gap_size s; expected_type := expected_type s;
     notified := false; signal_id := None |}.

(** The signals that the notifier receives for a user: all of them with a
    webhook, none without. *)
Definition notified_of (d : Db) (user_id : Z) (signals : list Signal)
  : list Signal :=
  match decrypt_webhook d user_id with Some _ => signals | None => [] end.

(** The books of a call: from the world [w0], the signals [signals] and the
    world [w] agree on what was saved, notified and flagged. *)
Definition books (user_id : Z) (ids : list Z) (w0 : World)
    (signals : list Signal) (w : World) : Prop :=
  signals_history (db w)
  = signals_history (db w0) ++ map as_saved signals /\
  webhooks (db w) = webhooks (db w0) /\
  discord_sent w = discord_sent w0 ++ notified_of (db w0) user_id signals /\
  Forall (fun s => notified s = bool_decide (is_Some (decrypt_webhook (db w0) user_id)))
    signals /\
  map signal_id signals
  = map Some (seq (S (length (signals_history (db w0)))) (length signals)) /\
  Forall2 (fun a b =>
             level_id a = level_id b /\ price a = price b /\
             label a = label b /\ enabled a = enabled b /\
             (triggered a = true -> triggered b = true) /\
             (~ In (level_id a) ids -> triggered b = triggered a))
    (price_levels_table (db w0)) (price_levels_table (db w)).

(** Three candles: too few to confirm anything. *)
Definition short_frame : DataFrame :=
  [ candle 11 99 100 98 99; candle 12 99 99 95 96; candle 13 103 105 103 104 ].

(** An engine that holds the tap of [level_101] at the candle of timestamp
    10, not yet confirmed. *)
Definition pending_world : World :=
  {| triggered_levels := {[ 1%Z := mkTap 0 10 101 (Some Bullish) ]};
     db := {| price_levels_table := [level_101]; signals_history := [];
              webhooks := ∅ |};
     discord_sent := [] |}.

(** What one round of the loop of [calculate_support_resistance] appends at
    an index inside the frame. *)
Definition sr_at (df_completed : DataFrame) (window : nat) (i : nat)
  : list SRLevel :=
  match df_completed !! i with
  | Some row =>
      let around := iloc_slice df_completed (i - window) (i + window + 1) in
      (if float_eq (high row) (series_max (map high around))
       then [ mkSR resistance (high row) (timestamp row) ] else [])
      ++ (if float_eq (low row) (series_min (map low around))
          then [ mkSR support (low row) (timestamp row) ] else [])
  | None => []
  end.

(** Five completed candles with a peak of 110 and a trough of 90 in the
    middle, and the live candle. *)
Definition peak_frame : DataFrame :=
  [ candle 1 100 101 99 100;
    candle 2 100 110 98 105;
    candle 3 105 106 90 95;
    candle 4 95 100 94 99;
    candle 5 99 100 98 99;
    candle 6 99 99 99 99 ].

(** An interpreter for which every code binds a [calculate] that returns
    [macd_frame], and one whose [calculate] returns the closes 69 and 71. *)
Definition exec_returns_macd (code : string) (df : DataFrame)
  : outcome (option PyCalculate) :=
  Returns (Some (fun df _ => (Returns macd_frame, df))).

Definition exec_returns_series (code : string) (df : DataFrame)
  : outcome (option PyCalculate) :=
  Returns (Some (fun df _ => (Returns (Series [69; 71]), df))).

(** The key ['line'] of a dict, when the dict has it and the output is a
    frame, names one of the columns. *)
Definition line_known (d : IndicatorData) (alert_config : AlertDict) : Prop :=
  match d, key_line alert_config with
  | Frame cols, Holds name => has_column cols name = true
  | Frame _, HoldsNone => False
  | _, _ => True
  end.

(** The rule reaches an expression on the threshold: a value rule with one
    of its three conditions, or a crossover rule with one of its two on an
    output of two rows or more. *)
Definition needs_threshold (d : IndicatorData) (alert_config : AlertDict)
  : bool :=
  let alert_type := dict_get (key_type alert_config) "value" in
  let condition := dict_get (key_condition alert_config) "above" in
  (py_eq alert_type "value"
   && (py_eq condition "above" || py_eq condition "below"
       || py_eq condition "equals"))
  || (negb (py_eq alert_type "value") && py_eq alert_type "crossover"
      && (1 <? data_len d)%nat
      && (py_eq condition "crosses_above" || py_eq condition "crosses_below")).

(** * Properties *)

(** ** Comparisons *)

Lemma Qltb_lt (x y : Q) : Qltb x y = true <-> x < y.
Proof.
  unfold Qltb. rewrite negb_true_iff, <- not_true_iff_false, Qle_bool_iff.
  split; [apply Qnot_le_lt | apply Qlt_not_le].
Qed.

Lemma Qltb_ge (x y : Q) : Qltb x y = false <-> y <= x.
Proof.
  unfold Qltb. rewrite negb_false_iff. apply Qle_bool_iff.
Qed.

Lemma Qleb_le (x y : Q) : Qleb x y = true <-> x <= y.
Proof. apply Qle_bool_iff. Qed.

(** ** The detector as a function of the completed candles *)

Lemma length_drop_last (df : DataFrame) :
  length (iloc_drop_last df) = (length df - 1)%nat.
Proof. unfold iloc_drop_last. rewrite length_take. lia. Qed.

Lemma drop_last_app (pre : DataFrame) (c : Candle) :
  iloc_drop_last (pre ++ [c]) = pre.
Proof.
  unfold iloc_drop_last. rewrite length_app. simpl.
  replace (length pre + 1 - 1)%nat with (length pre) by lia.
  apply take_app_length.
Qed.

Lemma iloc_inside (df : DataFrame) (i : nat) :
  (i < length df)%nat -> exists row, df !! i = Some row /\ iloc df i = Returns row.
Proof.
  intros Hi. destruct (lookup_lt_is_Some_2 df i Hi) as [row Hrow].
  exists row. unfold iloc. rewrite Hrow. auto.
Qed.

Lemma detect_fvg_body_gap (dc : DataFrame) (flt : option FvgType)
    (acc : list FVG) (i : nat) :
  (2 <= i < length dc)%nat ->
  detect_fvg_body dc flt acc i = Returns (acc ++ gap_at dc flt i).
Proof.
  intros Hi.
  destruct (iloc_inside dc (i - 2)) as (c1 & L1 & E1); [lia |].
  destruct (iloc_inside dc (i - 1)) as (c2 & L2 & E2); [lia |].
  destruct (iloc_inside dc i) as (c3 & L3 & E3); [lia |].
  unfold detect_fvg_body, gap_at. rewrite E1, E3, L1, L2, L3. simpl.
  destruct (Qltb (high c1) (low c3)).
  - destruct (filter_allows flt Bullish); [rewrite E2; reflexivity |].
    now rewrite app_nil_r.
  - destruct (Qltb (high c3) (low c1)); [| now rewrite app_nil_r].
    destruct (filter_allows flt Bearish); [rewrite E2; reflexivity |].
    now rewrite app_nil_r.
Qed.

Lemma detect_fvg_loop_gaps (dc : DataFrame) (flt : option FvgType)
    (idxs : list nat) :
  Forall (fun i => (2 <= i < length dc)%nat) idxs ->
  forall acc,
    detect_fvg_loop dc flt idxs acc
    = Returns (acc ++ flat_map (gap_at dc flt) idxs).
Proof.
  induction 1 as [| i rest Hi _ IH]; intros acc; simpl.
  - now rewrite app_nil_r.
  - rewrite detect_fvg_body_gap by exact Hi. simpl.
    rewrite IH. now rewrite <- app_assoc.
Qed.

Lemma range_inside (a b : nat) :
  (2 <= a)%nat -> Forall (fun i => (2 <= i < b)%nat) (range a b).
Proof.
  intros Ha. apply List.Forall_forall. intros i Hi.
  unfold range in Hi. apply in_seq in Hi. lia.
Qed.

(** The start index of the loop. *)
Lemma start_ge_2 (start_idx : Z) : (2 <= Z.to_nat (Z.max 2 start_idx))%nat.
Proof. lia. Qed.

Lemma detect_fvg_gaps (df : DataFrame) (flt : option FvgType) (start_idx : Z) :
  detect_fvg df flt start_idx
  = Returns (flat_map (gap_at (iloc_drop_last df) flt)
               (range (Z.to_nat (Z.max 2 start_idx))
                      (length (iloc_drop_last df)))).
Proof.
  unfold detect_fvg.
  pose proof (start_ge_2 start_idx) as Hs.
  pose proof (length_drop_last df) as Hl.
  destruct (Nat.ltb_spec (length df) 4) as [Hshort | Hlong].
  - unfold range.
    replace (length (iloc_drop_last df) - Z.to_nat (Z.max 2 start_idx))%nat
      with 0%nat by lia.
    reflexivity.
  - destruct (Nat.ltb_spec (length (iloc_drop_last df)) 3) as [H3 | H3]; [lia |].
    rewrite detect_fvg_loop_gaps by (apply range_inside; exact Hs).
    reflexivity.
Qed.

Lemma gap_at_cases (dc : DataFrame) (flt : option FvgType) (i : nat) (f : FVG) :
  In f (gap_at dc flt i) ->
  exists c1 c2 c3,
    dc !! (i - 2)%nat = Some c1 /\ dc !! (i - 1)%nat = Some c2 /\
    dc !! i = Some c3 /\
    ((high c1 < low c3 /\ filter_allows flt Bullish = true /\
      f = mkFVG Bullish i (timestamp c3) (high c1) (low c3)
            (low c3 - high c1) c1 c2 c3)
     \/
     (~ high c1 < low c3 /\ high c3 < low c1 /\
      filter_allows flt Bearish = true /\
      f = mkFVG Bearish i (timestamp c3) (high c3) (low c1)
            (low c1 - high c3) c1 c2 c3)).
Proof.
  unfold gap_at.
  destruct (dc !! (i - 2)%nat) as [c1 |]; [| intros []].
  destruct (dc !! (i - 1)%nat) as [c2 |]; [| intros []].
  destruct (dc !! i) as [c3 |]; [| intros []].
  intros Hin. exists c1, c2, c3. repeat split.
  destruct (Qltb (high c1) (low c3)) eqn:Hb.
  - destruct (filter_allows flt Bullish) eqn:Hf; [| destruct Hin].
    destruct Hin as [<- | []]. left. rewrite Qltb_lt in Hb. auto.
  - destruct (Qltb (high c3) (low c1)) eqn:Hb'; [| destruct Hin].
    destruct (filter_allows flt Bearish) eqn:Hf; [| destruct Hin].
    destruct Hin as [<- | []]. right.
    rewrite Qltb_lt in Hb'. rewrite Qltb_ge in Hb.
    repeat split; auto. now apply Qle_not_lt.
Qed.

Lemma gap_at_index (dc : DataFrame) (flt : option FvgType) (i : nat) (f : FVG) :
  In f (gap_at dc flt i) -> index f = i.
Proof.
  intros Hin. apply gap_at_cases in Hin.
  destruct Hin as (c1 & c2 & c3 & _ & _ & _ & [(_ & _ & ->) | (_ & _ & _ & ->)]);
    reflexivity.
Qed.

Lemma gap_at_shape (dc : DataFrame) (flt : option FvgType) (i : nat) :
  gap_at dc flt i = [] \/ exists f, gap_at dc flt i = [f] /\ index f = i.
Proof.
  unfold gap_at.
  destruct (dc !! (i - 2)%nat) as [c1 |]; [| now left].
  destruct (dc !! (i - 1)%nat) as [c2 |]; [| now left].
  destruct (dc !! i) as [c3 |]; [| now left].
  destruct (Qltb (high c1) (low c3)).
  - destruct (filter_allows flt Bullish); [right; eauto | now left].
  - destruct (Qltb (high c3) (low c1)); [| now left].
    destruct (filter_allows flt Bearish); [right; eauto | now left].
Qed.

Lemma gaps_index_range (dc : DataFrame) (flt : option FvgType) (a n : nat)
    (f : FVG) :
  In f (flat_map (gap_at dc flt) (seq a n)) -> (a <= index f < a + n)%nat.
Proof.
  intros Hin. apply in_flat_map in Hin. destruct Hin as (i & Hi & Hf).
  apply gap_at_index in Hf. apply in_seq in Hi. lia.
Qed.

Lemma gaps_ascending (dc : DataFrame) (flt : option FvgType) (n : nat) :
  forall a, StronglySorted lt (map index (flat_map (gap_at dc flt) (seq a n))).
Proof.
  induction n as [| n IH]; intros a; simpl; [constructor |].
  assert (Hrest : Forall (lt a)
            (map index (flat_map (gap_at dc flt) (seq (S a) n)))).
  { apply List.Forall_forall. intros k Hk. apply in_map_iff in Hk.
    destruct Hk as (f & <- & Hf). apply gaps_index_range in Hf. lia. }
  destruct (gap_at_shape dc flt a) as [-> | (f & -> & Hf)]; simpl.
  - apply IH.
  - rewrite Hf. constructor; [apply IH | exact Hrest].
Qed.

(** ** Properties of [detect_fvg] *)


(** C8. The result of [detect_fvg] depends only on the candles before the
    last one: two frames that differ in their last candle only give the same
    list of FVGs. *)
Theorem detect_fvg_ignores_last (pre : DataFrame) (c c' : Candle)
    (flt : option FvgType) (start_idx : Z) :
  exists fvgs,
    detect_fvg (pre ++ [c]) flt start_idx = Returns fvgs /\
    detect_fvg (pre ++ [c']) flt start_idx = Returns fvgs.
Proof.
  eexists. rewrite !detect_fvg_gaps, !drop_last_app. split; reflexivity.
Qed.

Lemma filter_allows_iff (flt : option FvgType) (t : FvgType) :
  filter_allows flt t = true <-> flt = None \/ flt = Some t.
Proof.
  destruct flt as [t' |]; simpl.
  - destruct t', t; simpl; split; intros H; auto; try discriminate;
      destruct H as [H | H]; congruence.
  - split; auto.
Qed.

Lemma gap_at_bullish (dc : DataFrame) (flt : option FvgType) (i : nat)
    (c1 c2 c3 : Candle) :
  dc !! (i - 2)%nat = Some c1 -> dc !! (i - 1)%nat = Some c2 ->
  dc !! i = Some c3 ->
  high c1 < low c3 -> filter_allows flt Bullish = true ->
  gap_at dc flt i
  = [ mkFVG Bullish i (timestamp c3) (high c1) (low c3) (low c3 - high c1)
        c1 c2 c3 ].
Proof.
  intros L1 L2 L3 Hlt Hf. unfold gap_at. rewrite L1, L2, L3.
  apply Qltb_lt in Hlt. now rewrite Hlt, Hf.
Qed.

Lemma gap_at_bearish (dc : DataFrame) (flt : option FvgType) (i : nat)
    (c1 c2 c3 : Candle) :
  dc !! (i - 2)%nat = Some c1 -> dc !! (i - 1)%nat = Some c2 ->
  dc !! i = Some c3 ->
  ~ high c1 < low c3 -> high c3 < low c1 -> filter_allows flt Bearish = true ->
  gap_at dc flt i
  = [ mkFVG Bearish i (timestamp c3) (high c3) (low c1) (low c1 - high c3)
        c1 c2 c3 ].
Proof.
  intros L1 L2 L3 Hn Hlt Hf. unfold gap_at. rewrite L1, L2, L3.
  apply Qnot_lt_le, Qltb_ge in Hn. apply Qltb_lt in Hlt.
  now rewrite Hn, Hlt, Hf.
Qed.

(** On candles with [low <= high] the two gap conditions exclude each
    other. *)
Lemma gaps_exclusive (c1 c3 : Candle) :
  well_formed c1 -> well_formed c3 ->
  high c3 < low c1 -> ~ high c1 < low c3.
Proof.
  unfold well_formed. intros W1 W3 Hbear Hbull.
  apply (Qlt_irrefl (low c1)).
  apply Qle_lt_trans with (high c1); [exact W1 |].
  apply Qlt_trans with (low c3); [exact Hbull |].
  apply Qle_lt_trans with (high c3); [exact W3 | exact Hbear].
Qed.

(** C3. On completed candles with [low <= high], [detect_fvg] returns, and
    for every index [i] from [max(2, start_idx)] to the end of the frame
    without its last candle it reports a Bullish FVG at [i] iff
    [candle[i-2].high < candle[i].low] and the filter is absent or Bullish,
    a Bearish FVG at [i] iff [candle[i-2].low > candle[i].high] and the
    filter is absent or Bearish; a reported FVG has the bounds of its
    direction; no FVG is reported at another index; and the indices of the
    result are strictly ascending. *)
Theorem detect_fvg_reports (df : DataFrame) (flt : option FvgType)
    (start_idx : Z) :
  Forall well_formed (iloc_drop_last df) ->
  exists fvgs,
    detect_fvg df flt start_idx = Returns fvgs /\
    (forall i c1 c3,
        (Z.to_nat (Z.max 2 start_idx) <= i < length (iloc_drop_last df))%nat ->
        iloc_drop_last df !! (i - 2)%nat = Some c1 ->
        iloc_drop_last df !! i = Some c3 ->
        ((exists f, In f fvgs /\ index f = i /\ fvg_type f = Bullish)
         <-> high c1 < low c3 /\ (flt = None \/ flt = Some Bullish)) /\
        ((exists f, In f fvgs /\ index f = i /\ fvg_type f = Bearish)
         <-> high c3 < low c1 /\ (flt = None \/ flt = Some Bearish)) /\
        (forall f, In f fvgs -> index f = i ->
           (fvg_type f = Bullish ->
              fvg_low f = high c1 /\ fvg_high f = low c3) /\
           (fvg_type f = Bearish ->
              fvg_low f = high c3 /\ fvg_high f = low c1))) /\
    (forall f, In f fvgs ->
       (Z.to_nat (Z.max 2 start_idx) <= index f
        < length (iloc_drop_last df))%nat) /\
    StronglySorted lt (map index fvgs).
Proof.
  intros Hwf.
  set (dc := iloc_drop_last df) in *.
  set (start := Z.to_nat (Z.max 2 start_idx)).
  exists (flat_map (gap_at dc flt) (range start (length dc))).
  split; [apply detect_fvg_gaps |].
  assert (Hmem : forall f i, In f (flat_map (gap_at dc flt)
                                     (range start (length dc))) ->
                             index f = i -> In f (gap_at dc flt i)).
  { intros f i Hin Hidx. apply in_flat_map in Hin.
    destruct Hin as (j & _ & Hf).
    pose proof (gap_at_index _ _ _ _ Hf). congruence. }
  split; [| split].
  - intros i c1 c3 Hi L1 L3.
    assert (Hrange : In i (range start (length dc))).
    { unfold range. apply in_seq. lia. }
    destruct (lookup_lt_is_Some_2 dc (i - 1)%nat) as [c2 L2]; [lia |].
    pose proof (Forall_lookup_1 _ _ _ _ Hwf L1) as W1.
    pose proof (Forall_lookup_1 _ _ _ _ Hwf L3) as W3.
    split; [| split].
    + rewrite <- filter_allows_iff. split.
      * intros (f & Hin & Hidx & Hty).
        apply (Hmem f i Hin) in Hidx. apply gap_at_cases in Hidx.
        destruct Hidx as (d1 & d2 & d3 & M1 & _ & M3 &
                          [(Hlt & Hf & _) | (_ & _ & _ & ->)]);
          [| discriminate].
        rewrite L1 in M1. rewrite L3 in M3.
        injection M1 as <-. injection M3 as <-. auto.
      * intros (Hlt & Hf). eexists. split; [| split].
        -- apply in_flat_map. exists i. split; [exact Hrange |].
           rewrite (gap_at_bullish dc flt i c1 c2 c3) by assumption.
           left. reflexivity.
        -- reflexivity.
        -- reflexivity.
    + rewrite <- filter_allows_iff. split.
      * intros (f & Hin & Hidx & Hty).
        apply (Hmem f i Hin) in Hidx. apply gap_at_cases in Hidx.
        destruct Hidx as (d1 & d2 & d3 & M1 & _ & M3 &
                          [(_ & _ & ->) | (_ & Hlt & Hf & _)]);
          [discriminate |].
        rewrite L1 in M1. rewrite L3 in M3.
        injection M1 as <-. injection M3 as <-. auto.
      * intros (Hlt & Hf). eexists. split; [| split].
        -- apply in_flat_map. exists i. split; [exact Hrange |].
           rewrite (gap_at_bearish dc flt i c1 c2 c3); try assumption.
           ++ left. reflexivity.
           ++ now apply gaps_exclusive.
        -- reflexivity.
        -- reflexivity.
    + intros f Hin Hidx.
      apply (Hmem f i Hin) in Hidx. apply gap_at_cases in Hidx.
      destruct Hidx as (d1 & d2 & d3 & M1 & _ & M3 &
                        [(_ & _ & ->) | (_ & _ & _ & ->)]);
        rewrite L1 in M1; rewrite L3 in M3;
        injection M1 as <-; injection M3 as <-; simpl;
        split; intros Hty; try discriminate; auto.
  - intros f Hin. unfold range in Hin. apply gaps_index_range in Hin.
    fold start. lia.
  - apply gaps_ascending.
Qed.

Lemma gap_frame_well_formed : Forall well_formed (iloc_drop_last gap_frame).
Proof.
  repeat constructor; unfold well_formed, Qle; simpl; lia.
Qed.

(** The frame [gap_frame] meets the hypothesis of [detect_fvg_reports]. *)
Lemma detect_fvg_reports_witness :
  Forall well_formed (iloc_drop_last gap_frame) /\
  exists fvgs,
    detect_fvg gap_frame None 0 = Returns fvgs /\
    StronglySorted lt (map index fvgs).
Proof.
  split; [exact gap_frame_well_formed |].
  destruct (detect_fvg_reports gap_frame None 0 gap_frame_well_formed)
    as (fvgs & E & _ & _ & Hs).
  exists fvgs. split; [exact E | exact Hs].
Defined.

(** The one FVG of [gap_frame] is the Bullish gap from 100 to 103. *)
Example detect_fvg_gap_frame :
  detect_fvg gap_frame None 0
  = Returns [ mkFVG Bullish 2 13 100 103 (103 - 100)
                (candle 11 99 100 98 99) (candle 12 99 99 95 96)
                (candle 13 103 105 103 104) ].
Proof. reflexivity. Qed.

(** ** The expected direction *)

Lemma Qgtb_gt (x y : Q) : Qgtb x y = true <-> y < x.
Proof. apply Qltb_lt. Qed.

Lemma Qgtb_le (x y : Q) : Qgtb x y = false <-> x <= y.
Proof. apply Qltb_ge. Qed.

(** *** Rounding to a double *)

Lemma round_half_even_near (x : Q) :
  x - 0.5 <= inject_Z (round_half_even x) /\
  inject_Z (round_half_even x) <= x + 0.5.
Proof.
  pose proof (Qfloor_le x) as Hlo. pose proof (Qlt_floor x) as Hhi.
  rewrite inject_Z_plus in Hhi. change (inject_Z 1) with 1 in Hhi.
  unfold round_half_even.
  destruct (Qltb (x - inject_Z (Qfloor x)) 0.5) eqn:E1.
  - apply Qltb_lt in E1. split; lra.
  - apply Qltb_ge in E1.
    destruct (Qltb 0.5 (x - inject_Z (Qfloor x))) eqn:E2.
    + apply Qltb_lt in E2. rewrite inject_Z_plus. change (inject_Z 1) with 1.
      split; lra.
    + apply Qltb_ge in E2.
      destruct (Z.even (Qfloor x)).
      * split; lra.
      * rewrite inject_Z_plus. change (inject_Z 1) with 1. split; lra.
Qed.

Lemma floor_log2_le (x : Q) : 0 < x -> 2 ^ floor_log2 x <= x.
Proof.
  intros Hx. unfold floor_log2.
  destruct (Qle_bool (2 ^ (Z.log2 (Qnum x) - Z.log2 (Z.pos (Qden x)))) x) eqn:E.
  - apply Qle_bool_iff in E. exact E.
  - clear E. destruct x as [n d]. cbn [Qnum Qden].
    assert (Hn : (0 < n)%Z).
    { unfold Qlt in Hx. cbn in Hx. lia. }
    pose proof (Z.log2_spec n Hn) as [Hn1 _].
    pose proof (Z.log2_spec (Z.pos d) (Pos2Z.is_pos d)) as [_ Hd2].
    pose proof (Z.log2_nonneg n) as Ha.
    pose proof (Z.log2_nonneg (Z.pos d)) as Hb.
    set (a := Z.log2 n) in *. set (b := Z.log2 (Z.pos d)) in *.
    replace (a - b - 1)%Z with (a - Z.succ b)%Z by lia.
    rewrite Qpower_minus by (intros H; discriminate H).
    change 2 with (inject_Z 2).
    rewrite <- !Zpower_Qpower by lia.
    rewrite (Qmake_Qdiv n d).
    assert (HB : 0 < inject_Z (2 ^ Z.succ b)).
    { rewrite <- (Zlt_Qlt 0). apply Z.pow_pos_nonneg; lia. }
    assert (HD : 0 < inject_Z (Z.pos d)).
    { rewrite <- (Zlt_Qlt 0). lia. }
    apply Qle_shift_div_r; [exact HB |].
    unfold Qdiv. rewrite <- Qmult_assoc, (Qmult_comm (/ _)), Qmult_assoc.
    apply Qle_shift_div_l; [exact HD |].
    rewrite <- !inject_Z_mult, <- Zle_Qle.
    assert (0 < 2 ^ a)%Z by (apply Z.pow_pos_nonneg; lia).
    nia.
Qed.

(** A normal double is within half a unit in the last place of the number
    it rounds. *)
Lemma to_double_near (x : Q) :
  2 ^ (-1022) <= x ->
  x * (1 - half_ulp) <= to_double x /\ to_double x <= x * (1 + half_ulp).
Proof.
  intros Hx.
  assert (H0 : 0 < x).
  { eapply Qlt_le_trans; [| exact Hx]. apply Qpower_0_lt. reflexivity. }
  unfold to_double.
  assert (E : Qltb 0 x = true) by (apply Qltb_lt; exact H0).
  rewrite E. unfold to_double_pos.
  set (e := Z.max (floor_log2 x - 52) (-1074)).
  assert (HP : 0 < 2 ^ e) by (apply Qpower_0_lt; reflexivity).
  assert (Hbig : 2 ^ e * 2 ^ 52 <= x).
  { rewrite <- Qpower_plus by (intros H; discriminate H).
    destruct (Z.max_spec (floor_log2 x - 52) (-1074)) as [[_ Hm] | [_ Hm]];
      fold e in Hm; rewrite Hm.
    - exact Hx.
    - replace (floor_log2 x - 52 + 52)%Z with (floor_log2 x) by lia.
      apply floor_log2_le. exact H0. }
  assert (H52 : 2 ^ 52 == 4503599627370496) by reflexivity.
  rewrite H52 in Hbig.
  destruct (round_half_even_near (x / 2 ^ e)) as [Hlo Hhi].
  set (q := inject_Z (round_half_even (x / 2 ^ e))) in *.
  assert (Hm : x / 2 ^ e * 2 ^ e == x).
  { field. intros H. rewrite H in HP. inversion HP. }
  set (m := x / 2 ^ e) in *. set (P := 2 ^ e) in *.
  assert (Hup : q * P <= (m + 0.5) * P).
  { apply Qmult_le_compat_r; lra. }
  assert (Hdn : (m - 0.5) * P <= q * P).
  { apply Qmult_le_compat_r; lra. }
  unfold half_ulp. split; lra.
Qed.

(** The float product of a normal price and a factor near one, between the
    exact products with two bounds of the factor, each off by half a unit
    in the last place. *)
Lemma float_mul_near (cur c lo hi : Q) :
  2 ^ (-1021) <= cur -> 0.99 <= lo -> lo <= c -> c <= hi ->
  cur * lo * (1 - half_ulp) <= float_mul cur c /\
  float_mul cur c <= cur * hi * (1 + half_ulp).
Proof.
  intros Hcur Hlo Hc Hhi.
  assert (Hmin : 0 < 2 ^ (-1022)) by (apply Qpower_0_lt; reflexivity).
  assert (Hstep : 2 ^ (-1021) == 2 ^ (-1022) * 2).
  { change (-1021)%Z with (-1022 + 1)%Z.
    rewrite Qpower_plus by (intros H; discriminate H). reflexivity. }
  rewrite Hstep in Hcur.
  assert (Hpos : 0 < cur) by lra.
  assert (H1 : cur * 0.99 <= cur * lo) by (apply Qmult_le_l; assumption).
  assert (H2 : cur * lo <= cur * c) by (apply Qmult_le_l; assumption).
  assert (H3 : cur * c <= cur * hi) by (apply Qmult_le_l; assumption).
  unfold float_mul.
  destruct (to_double_near (cur * c)) as [Hdn Hup]; [lra |].
  unfold half_ulp in *. split; lra.
Qed.

(** The four constants as doubles. *)
Lemma double_1_001 : 1.0009 <= to_double 1.001 /\ to_double 1.001 <= 1.0011.
Proof. split; apply Qle_bool_iff; vm_compute; reflexivity. Qed.

Lemma double_0_999 : 0.9989 <= to_double 0.999 /\ to_double 0.999 <= 0.9991.
Proof. split; apply Qle_bool_iff; vm_compute; reflexivity. Qed.

Lemma double_1_0015 : 1.0014 <= to_double 1.0015 /\ to_double 1.0015 <= 1.0016.
Proof. split; apply Qle_bool_iff; vm_compute; reflexivity. Qed.

Lemma double_0_9985 : 0.9984 <= to_double 0.9985 /\ to_double 0.9985 <= 0.9986.
Proof. split; apply Qle_bool_iff; vm_compute; reflexivity. Qed.

(** The doubles of three numbers: the constant 1.001, which is not a
    double; the product of 1000 and that constant, which falls under 1001;
    and the tie between two doubles, which goes to the even one. *)
Example to_double_values :
  to_double 1.001 == 2254051613498933 # 2251799813685248 /\
  float_mul 1000 (to_double 1.001) == 8804889115230207 # 8796093022208 /\
  to_double 9007199254740993 == 9007199254740992 /\
  to_double 9007199254740995 == 9007199254740996.
Proof. repeat split; apply Qeq_bool_iff; vm_compute; reflexivity. Qed.

Lemma determine_fvg_type_cases (l cur : Q) :
  float_mul cur (to_double 0.999) <= float_mul cur (to_double 1.001) ->
  (determine_fvg_type l cur = Some Bearish
   <-> float_mul cur (to_double 1.001) < l) /\
  (determine_fvg_type l cur = Some Bullish
   <-> l < float_mul cur (to_double 0.999)) /\
  (determine_fvg_type l cur = None
   <-> float_mul cur (to_double 0.999) <= l /\
       l <= float_mul cur (to_double 1.001)).
Proof.
  intros Hband. unfold determine_fvg_type.
  destruct (Qgtb l (float_mul cur (to_double 1.001))) eqn:Hup.
  - apply Qgtb_gt in Hup.
    split; [| split]; split; intros HH;
      first [discriminate | reflexivity | lra].
  - apply Qgtb_le in Hup.
    destruct (Qltb l (float_mul cur (to_double 0.999))) eqn:Hlow.
    + apply Qltb_lt in Hlow.
      split; [| split]; split; intros HH;
        first [discriminate | reflexivity | lra].
    + apply Qltb_ge in Hlow.
      split; [| split]; split; intros HH;
        first [discriminate | reflexivity | lra | split; lra].
Qed.

(** C6, as the code has it. For a level and a close that is a normal price,
    [determine_fvg_type] answers Bearish iff the level is above the float
    product of the close and the double nearest to 1.001, Bullish iff it is
    below the float product of the close and the double nearest to 0.999,
    and no filter otherwise; a level at the float product of the close and
    1.0015 expects Bearish, at the float product of the close and 0.9985
    Bullish, and at the close either. *)
Theorem determine_fvg_type_policy (lvl cur : Q) :
  normal_price cur ->
  (determine_fvg_type lvl cur = Some Bearish
   <-> float_mul cur (to_double 1.001) < lvl) /\
  (determine_fvg_type lvl cur = Some Bullish
   <-> lvl < float_mul cur (to_double 0.999)) /\
  (determine_fvg_type lvl cur = None
   <-> float_mul cur (to_double 0.999) <= lvl /\
       lvl <= float_mul cur (to_double 1.001)) /\
  determine_fvg_type (float_mul cur (to_double 1.0015)) cur = Some Bearish /\
  determine_fvg_type (float_mul cur (to_double 0.9985)) cur = Some Bullish /\
  determine_fvg_type cur cur = None.
Proof.
  intros [Hcur _].
  assert (Hmin : 0 < 2 ^ (-1021)) by (apply Qpower_0_lt; reflexivity).
  assert (Hpos : 0 < cur) by lra.
  destruct double_1_001 as [A1 B1]. destruct double_0_999 as [A2 B2].
  destruct double_1_0015 as [A3 B3]. destruct double_0_9985 as [A4 B4].
  destruct (float_mul_near cur (to_double 1.001) 1.0009 1.0011)
    as [L1 U1]; [exact Hcur | lra | exact A1 | exact B1 |].
  destruct (float_mul_near cur (to_double 0.999) 0.9989 0.9991)
    as [L2 U2]; [exact Hcur | lra | exact A2 | exact B2 |].
  destruct (float_mul_near cur (to_double 1.0015) 1.0014 1.0016)
    as [L3 U3]; [exact Hcur | lra | exact A3 | exact B3 |].
  destruct (float_mul_near cur (to_double 0.9985) 0.9984 0.9986)
    as [L4 U4]; [exact Hcur | lra | exact A4 | exact B4 |].
  unfold half_ulp in *.
  assert (Hband : float_mul cur (to_double 0.999)
                  <= float_mul cur (to_double 1.001)) by lra.
  destruct (determine_fvg_type_cases lvl cur Hband) as (Hbear & Hbull & Hnone).
  split; [exact Hbear |]. split; [exact Hbull |]. split; [exact Hnone |].
  split; [| split].
  - apply (determine_fvg_type_cases _ cur Hband). lra.
  - apply (determine_fvg_type_cases _ cur Hband). lra.
  - apply (determine_fvg_type_cases _ cur Hband). split; lra.
Qed.

(** A close of 1000 is a normal price; the level taken is 1001, above the
    float product 1000.9999999999999 and not above the exact one. *)
Lemma determine_fvg_type_policy_witness :
  normal_price 1000 /\
  (determine_fvg_type 1001 1000 = Some Bearish
   <-> float_mul 1000 (to_double 1.001) < 1001) /\
  (determine_fvg_type 1001 1000 = Some Bullish
   <-> 1001 < float_mul 1000 (to_double 0.999)) /\
  (determine_fvg_type 1001 1000 = None
   <-> float_mul 1000 (to_double 0.999) <= 1001 /\
       1001 <= float_mul 1000 (to_double 1.001)) /\
  determine_fvg_type (float_mul 1000 (to_double 1.0015)) 1000 = Some Bearish /\
  determine_fvg_type (float_mul 1000 (to_double 0.9985)) 1000 = Some Bullish /\
  determine_fvg_type 1000 1000 = None.
Proof.
  assert (Hn : normal_price 1000).
  { split; apply Qle_bool_iff; vm_compute; reflexivity. }
  split; [exact Hn |].
  apply (determine_fvg_type_policy 1001 1000). exact Hn.
Defined.

(** C6 as stated, with exact products, fails: at a close of 1000 the float
    product with 1.001 is 1000.9999999999999, so a level at 1001 expects
    Bearish although it is not above [1000 * 1.001]. *)
Lemma determine_fvg_type_exact_products :
  ~ (forall lvl cur : Q,
       0 < cur ->
       (determine_fvg_type lvl cur = Some Bearish <-> cur * 1.001 < lvl)).
Proof.
  intros H.
  destruct (H 1001 1000) as [Hright _]; [reflexivity |].
  assert (E : determine_fvg_type 1001 1000 = Some Bearish)
    by (vm_compute; reflexivity).
  specialize (Hright E). revert Hright. vm_compute. discriminate.
Qed.

(** ** Alert conditions *)

(** On a rule none of whose keys holds [None], the evaluator is
    [check_alert_config]. *)
Lemma check_alert_conditions_config (indicator_data : option IndicatorData)
    (cfg : AlertConfig) :
  check_alert_conditions indicator_data cfg
  = check_alert_config indicator_data cfg.
Proof.
  destruct cfg as [t c v l cw].
  destruct indicator_data as [d |]; [| reflexivity].
  unfold check_alert_conditions, check_alert_config, as_dict.
  cbn [key_type key_condition key_value key_line key_compare_with
       cfg_type cfg_condition cfg_value cfg_line cfg_compare_with].
  destruct (data_empty d); [reflexivity |].
  assert (Hline :
    match d with
    | Series values => Returns values
    | Frame [] => Raises "IndexError: list index out of range"
    | Frame (((first_column, _) :: _) as cols) =>
        match dict_get (entry_of l) first_column with
        | Some main_line => get_column cols main_line
        | None => Raises "KeyError: None"
        end
    end
    = match d with
      | Series values => Returns values
      | Frame [] => Raises "IndexError: list index out of range"
      | Frame (((first_column, _) :: _) as cols) =>
          get_column cols (default first_column l)
      end).
  { destruct d as [values | [| [first_column ?] cols]]; try reflexivity.
    destruct l; reflexivity. }
  rewrite Hline. clear Hline.
  destruct (match d with
            | Series values => Returns values
            | Frame [] => Raises "IndexError: list index out of range"
            | Frame (((first_column, _) :: _) as cols) =>
                get_column cols (default first_column l)
            end) as [line | e | e]; cbn [bind]; try reflexivity.
  destruct (iloc_back line 1) as [current | e | e]; cbn [bind];
    try reflexivity.
  destruct (previous_of d line) as [previous | e | e]; cbn [bind];
    try reflexivity.
  destruct t as [t |], c as [c |], v as [v |], cw as [cw |];
    cbn [entry_of dict_get dict_get_none py_eq default with_threshold];
    unfold compare_lines, compare_branch; cbn [cfg_compare_with py_eq];
    reflexivity.
Qed.

Lemma iloc_back_last (pre : list Q) (x : Q) (values : list Q) :
  values = pre ++ [x] -> iloc_back values 1 = Returns x.
Proof.
  intros ->. unfold iloc_back. rewrite length_app. simpl.
  destruct (Nat.ltb_spec (length pre + 1) 1) as [H | _]; [lia |].
  replace (length pre + 1 - 1)%nat with (length pre) by lia.
  now rewrite list_lookup_middle.
Qed.

Lemma iloc_back_previous (pre : list Q) (x y : Q) :
  iloc_back (pre ++ [x; y]) 2 = Returns x.
Proof.
  unfold iloc_back. rewrite length_app. simpl.
  destruct (Nat.ltb_spec (length pre + 2) 2) as [H | _]; [lia |].
  replace (length pre + 2 - 2)%nat with (length pre) by lia.
  now rewrite list_lookup_middle.
Qed.

Lemma iloc_back_inside (values : list Q) (k : nat) :
  (1 <= k <= length values)%nat -> exists x, iloc_back values k = Returns x.
Proof.
  intros Hk. unfold iloc_back.
  destruct (Nat.ltb_spec (length values) k) as [H | _]; [lia |].
  destruct (lookup_lt_is_Some_2 values (length values - k)) as [x Hx]; [lia |].
  exists x. now rewrite Hx.
Qed.

Lemma previous_of_returns (d : IndicatorData) (values : list Q) :
  length values = data_len d ->
  exists prev, previous_of d values = Returns prev /\
               (prev = None <-> (data_len d <= 1)%nat).
Proof.
  intros Hlen. unfold previous_of.
  destruct (Nat.ltb_spec 1 (data_len d)) as [H | H].
  - destruct (iloc_back_inside values 2) as [x Hx]; [lia |].
    rewrite Hx. simpl. eexists. split; [reflexivity |].
    split; [discriminate | lia].
  - eexists. split; [reflexivity |]. split; auto.
Qed.

(** What the crossover rule computes on a series with a previous sample. *)
Lemma crossover_on_series (pre : list Q) (p c thr : Q) (cond : string)
    (line cmp : option string) :
  check_alert_conditions (Some (Series (pre ++ [p; c])))
    {| cfg_type := Some "crossover"; cfg_condition := Some cond;
       cfg_value := Some thr; cfg_line := line; cfg_compare_with := cmp |}
  = if String.eqb cond "crosses_above" then
      Returns (Qleb p thr && Qltb thr c, Some (CrossDetails c p thr))
    else if String.eqb cond "crosses_below" then
      Returns (Qleb thr p && Qltb c thr, Some (CrossDetails c p thr))
    else Returns (false, None).
Proof.
  rewrite check_alert_conditions_config.
  unfold check_alert_config, data_empty, data_len.
  rewrite length_app. simpl length.
  destruct (Nat.eqb_spec (length pre + 2) 0) as [H | _]; [lia |].
  cbn [bind].
  rewrite (iloc_back_last (pre ++ [p]) c (pre ++ [p; c]))
    by (now rewrite <- List.app_assoc).
  cbn [bind].
  unfold previous_of, data_len. rewrite length_app. simpl length.
  destruct (Nat.ltb_spec 1 (length pre + 2)) as [_ | H]; [| lia].
  rewrite iloc_back_previous. simpl.
  destruct (String.eqb cond "crosses_above"); [reflexivity |].
  destruct (String.eqb cond "crosses_below"); reflexivity.
Qed.

Lemma crossed_iff (a b c d : Q) :
  Qleb a b && Qltb c d = true <-> a <= b /\ c < d.
Proof. now rewrite andb_true_iff, Qleb_le, Qltb_lt. Qed.

(** C5. On a single series whose last two samples are [previous] and
    [current], the crossover rule fires [crosses_above] iff
    [previous <= threshold < current] and [crosses_below] iff
    [previous >= threshold > current]; for [eps > 0], a move from
    [threshold] to [threshold + eps] fires [crosses_above], a move from
    [threshold - eps] to [threshold] does not. *)
Theorem crossover_boundaries (pre : list Q) (previous current threshold eps : Q)
    (line cmp : option string) :
  0 < eps ->
  (exists fired,
      check_alert_conditions (Some (Series (pre ++ [previous; current])))
        (mkAlert (Some "crossover") (Some "crosses_above") (Some threshold)
           line cmp)
      = Returns (fired, Some (CrossDetails current previous threshold)) /\
      (fired = true <-> previous <= threshold /\ threshold < current)) /\
  (exists fired,
      check_alert_conditions (Some (Series (pre ++ [previous; current])))
        (mkAlert (Some "crossover") (Some "crosses_below") (Some threshold)
           line cmp)
      = Returns (fired, Some (CrossDetails current previous threshold)) /\
      (fired = true <-> threshold <= previous /\ current < threshold)) /\
  check_alert_conditions (Some (Series (pre ++ [threshold; threshold + eps])))
    (mkAlert (Some "crossover") (Some "crosses_above") (Some threshold)
       line cmp)
  = Returns (true, Some (CrossDetails (threshold + eps) threshold threshold)) /\
  check_alert_conditions (Some (Series (pre ++ [threshold - eps; threshold])))
    (mkAlert (Some "crossover") (Some "crosses_above") (Some threshold)
       line cmp)
  = Returns (false, Some (CrossDetails threshold (threshold - eps) threshold)).
Proof.
  intros Heps. rewrite !crossover_on_series. simpl.
  split; [| split; [| split]].
  - eexists. split; [reflexivity |]. apply crossed_iff.
  - eexists. split; [reflexivity |]. apply crossed_iff.
  - assert (H : Qleb threshold threshold && Qltb threshold (threshold + eps)
                = true).
    { apply crossed_iff. split; [apply Qle_refl |].
      rewrite <- (Qplus_0_r threshold) at 1.
      now apply Qplus_lt_r. }
    now rewrite H.
  - assert (H : Qltb threshold threshold = false).
    { apply Qltb_ge, Qle_refl. }
    rewrite H, andb_false_r. reflexivity.
Qed.

(** A step of one half meets the hypothesis of [crossover_boundaries], here
    around a threshold of 70. *)
Lemma crossover_boundaries_witness :
  0 < 0.5 /\
  check_alert_conditions (Some (Series ([65] ++ [70; 70 + 0.5])))
    (mkAlert (Some "crossover") (Some "crosses_above") (Some 70) None None)
  = Returns (true, Some (CrossDetails (70 + 0.5) 70 70)) /\
  check_alert_conditions (Some (Series ([65] ++ [70 - 0.5; 70])))
    (mkAlert (Some "crossover") (Some "crosses_above") (Some 70) None None)
  = Returns (false, Some (CrossDetails 70 (70 - 0.5) 70)).
Proof.
  split; [reflexivity |].
  apply (crossover_boundaries [65] 69 71 70 0.5 None None). reflexivity.
Defined.

Lemma get_column_known (cols : list (string * list Q)) (name : string) :
  has_column cols name = true ->
  exists values, get_column cols name = Returns values /\
                 In values (map snd cols).
Proof.
  induction cols as [| [n v] rest IH]; simpl; [discriminate |].
  destruct (String.eqb n name).
  - intros _. exists v. auto.
  - simpl. intros H. destruct (IH H) as (values & E & Hin).
    exists values. auto.
Qed.

Lemma column_rows (cols : list (string * list Q)) (name : string) :
  frame_aligned (Frame cols) -> has_column cols name = true ->
  exists values, get_column cols name = Returns values /\
                 length values = data_len (Frame cols).
Proof.
  intros Hal Hhas. destruct (get_column_known cols name Hhas) as (v & E & Hin).
  exists v. split; [exact E |].
  apply in_map_iff in Hin. destruct Hin as (c & <- & Hc).
  unfold frame_aligned in Hal. rewrite List.Forall_forall in Hal.
  now apply Hal.
Qed.

Lemma data_rows (d : IndicatorData) :
  data_empty d = false -> (1 <= data_len d)%nat.
Proof.
  destruct d as [values | cols]; unfold data_empty; intros Hne.
  - apply Nat.eqb_neq in Hne. simpl. lia.
  - apply orb_false_iff in Hne. destruct Hne as [_ Hne].
    apply Nat.eqb_neq in Hne. lia.
Qed.

(** The three reads that precede the conditions all return. *)
Lemma alert_reads_return (d : IndicatorData) (cfg : AlertConfig) :
  data_empty d = false -> frame_aligned d -> main_line_known d cfg ->
  exists line current previous,
    match d with
    | Frame cols =>
        match cols with
        | (first_column, _) :: _ =>
            get_column cols (default first_column (cfg_line cfg))
        | [] => Raises "IndexError: list index out of range"
        end
    | Series values => Returns values
    end = Returns line /\
    iloc_back line 1 = Returns current /\
    previous_of d line = Returns previous.
Proof.
  intros Hne Hal Hline.
  pose proof (data_rows d Hne) as Hrows.
  assert (Hread : forall line, length line = data_len d ->
            exists current previous,
              iloc_back line 1 = Returns current /\
              previous_of d line = Returns previous).
  { intros line Hlen.
    destruct (iloc_back_inside line 1) as [cur Hcur]; [lia |].
    destruct (previous_of_returns d line Hlen) as (prev & Hprev & _).
    exists cur, prev. auto. }
  destruct d as [values | cols].
  - destruct (Hread values eq_refl) as (cur & prev & Hc & Hp).
    exists values, cur, prev. auto.
  - destruct cols as [| [n v] rest]; [simpl in Hrows; lia |].
    assert (Hhas : has_column ((n, v) :: rest) (default n (cfg_line cfg)) = true).
    { unfold main_line_known in Hline.
      destruct (cfg_line cfg) as [name |]; simpl default; [exact Hline |].
      simpl. now rewrite String.eqb_refl. }
    destruct (column_rows _ _ Hal Hhas) as (line & E & Hlen).
    destruct (Hread line Hlen) as (cur & prev & Hc & Hp).
    exists line, cur, prev. auto.
Qed.





(** ** The sandbox run *)

Lemma calculate_call (calculate : PyCalculate) (df : DataFrame)
    (params : option Params) :
  match params with
  | Some (p :: ps) => calculate df (p :: ps)
  | Some [] | None => calculate df []
  end = calculate df (default [] params).
Proof. destruct params as [[| p ps] |]; reflexivity. Qed.

Lemma execute_indicator_raises
    (py_exec : string -> DataFrame -> outcome (option PyCalculate))
    (code : string) (df : DataFrame) (params : option Params) (cause : string) :
  run_fails py_exec code df params cause ->
  execute_indicator py_exec code df params
  = Raises ("Indicator execution error: " ++ cause).
Proof.
  intros Hfail. unfold execute_indicator, execute_indicator_try.
  destruct Hfail as [E | e E | calculate e E Hcall]; rewrite E; cbn [fst].
  - reflexivity.
  - reflexivity.
  - now rewrite calculate_call, Hcall.
Qed.

(** The run of the code is on a copy: a run that fails before [calculate]
    is called leaves the frame of the caller as it is. *)
Lemma frame_after_failed_exec
    (py_exec : string -> DataFrame -> outcome (option PyCalculate))
    (code : string) (df : DataFrame) (params : option Params) :
  (forall calculate, py_exec code df <> Returns (Some calculate)) ->
  frame_after_indicator py_exec code df params = df.
Proof.
  intros Hno. unfold frame_after_indicator, execute_indicator_try.
  destruct (py_exec code df) as [[calculate |] | e | e]; try reflexivity.
  now destruct (Hno calculate).
Qed.

Lemma find_code_of (builtin_indicators : gmap string (string * Params))
    (get_indicator_code : string -> outcome string) (alert : IndicatorAlert)
    (code : string) (params : Params) :
  alert_code builtin_indicators get_indicator_code alert code params ->
  find_code builtin_indicators get_indicator_code alert
  = Returns (code, params).
Proof.
  unfold find_code. intros [E | (E & Eget & ->)]; rewrite E.
  - reflexivity.
  - now rewrite Eget.
Qed.

(** The loop over two lists of alerts: the second list is looked at on the
    frame that the rounds of the first leave. *)
Lemma check_indicator_alerts_app
    (py_exec : string -> DataFrame -> outcome (option PyCalculate))
    (builtin_indicators : gmap string (string * Params))
    (get_indicator_code : string -> outcome string)
    (before rest : list IndicatorAlert) :
  forall start df,
    frame_after_alerts py_exec builtin_indicators get_indicator_code start
      before = Some df ->
    check_indicator_alerts py_exec builtin_indicators get_indicator_code start
      (before ++ rest)
    = check_indicator_alerts py_exec builtin_indicators get_indicator_code
        start before
      ++ check_indicator_alerts py_exec builtin_indicators get_indicator_code
           df rest.
Proof.
  induction before as [| alert before IH]; intros start df Hframe.
  - cbn in Hframe. injection Hframe as ->. reflexivity.
  - cbn [frame_after_alerts] in Hframe.
    cbn [app check_indicator_alerts].
    destruct (fst (check_one_alert py_exec builtin_indicators
                     get_indicator_code start alert))
      as [[[|] details] | e | e]; try discriminate Hframe;
      cbn [app]; f_equal; apply IH; exact Hframe.
Qed.

(** A run that raises outside [Exception] is not wrapped, and the loop of
    the caller ends at its alert. *)
Lemma exit_leaves_the_loop
    (py_exec : string -> DataFrame -> outcome (option PyCalculate))
    (builtin_indicators : gmap string (string * Params))
    (get_indicator_code : string -> outcome string)
    (code : string) (df : DataFrame) (params : Params) (e : string)
    (alert : IndicatorAlert) (after : list IndicatorAlert) :
  py_exec code df = Exits e ->
  alert_code builtin_indicators get_indicator_code alert code params ->
  execute_indicator py_exec code df (Some params) = Exits e /\
  check_indicator_alerts py_exec builtin_indicators get_indicator_code df
    (alert :: after)
  = [AlertsLeft e].
Proof.
  intros Hexit Hcode.
  assert (Hrun : execute_indicator py_exec code df (Some params) = Exits e).
  { unfold execute_indicator, execute_indicator_try. now rewrite Hexit. }
  split; [exact Hrun |].
  cbn [check_indicator_alerts]. unfold check_one_alert.
  rewrite (find_code_of _ _ _ _ _ Hcode). cbn [fst snd].
  rewrite Hrun. reflexivity.
Qed.

(** C9, as the code has it. A sandbox run whose code binds no [calculate],
    or raises an [Exception], or whose [calculate] raises one, makes
    [execute_indicator] raise one error, whose message is the cause after a
    fixed prefix. In the loop of the caller, on the frame [df] that the
    alerts before leave, the alert of that run is reported as an error, the
    alerts before it are evaluated as they are without it, and the alerts
    after it are evaluated on the frame that the failed run leaves, which is
    [df] itself when the run fails before [calculate] is called. *)
Theorem execute_indicator_failure
    (py_exec : string -> DataFrame -> outcome (option PyCalculate))
    (builtin_indicators : gmap string (string * Params))
    (get_indicator_code : string -> outcome string)
    (code : string) (start df : DataFrame) (params : Params) (cause : string)
    (before after : list IndicatorAlert) (alert : IndicatorAlert) :
  run_fails py_exec code df (Some params) cause ->
  alert_code builtin_indicators get_indicator_code alert code params ->
  frame_after_alerts py_exec builtin_indicators get_indicator_code start before
  = Some df ->
  execute_indicator py_exec code df (Some params)
  = Raises ("Indicator execution error: " ++ cause) /\
  check_indicator_alerts py_exec builtin_indicators get_indicator_code start
    (before ++ alert :: after)
  = check_indicator_alerts py_exec builtin_indicators get_indicator_code start
      before
    ++ AlertError ("Alert check error: Indicator execution error: " ++ cause)
    :: check_indicator_alerts py_exec builtin_indicators get_indicator_code
         (frame_after_indicator py_exec code df (Some params)) after /\
  ((forall calculate, py_exec code df <> Returns (Some calculate)) ->
   frame_after_indicator py_exec code df (Some params) = df).
Proof.
  intros Hfail Hcode Hframe.
  pose proof (execute_indicator_raises _ _ _ _ _ Hfail) as Hraise.
  split; [exact Hraise |]. split; [| apply frame_after_failed_exec].
  rewrite (check_indicator_alerts_app _ _ _ _ _ _ _ Hframe). f_equal.
  cbn [check_indicator_alerts]. unfold check_one_alert.
  rewrite (find_code_of _ _ _ _ _ Hcode). cbn [fst snd].
  rewrite Hraise. reflexivity.
Qed.

(** Three alerts under [exec_two_codes] meet the hypotheses of
    [execute_indicator_failure]: the first fires on the four rows of
    [gap_frame]; the [calculate] of the second drops a row, then raises; the
    third is looked at on the three rows left. *)
Lemma execute_indicator_failure_witness :
  execute_indicator exec_two_codes "vwap" gap_frame (Some [])
  = Raises ("Indicator execution error: " ++ "KeyError: 'vwap'") /\
  check_indicator_alerts exec_two_codes two_builtins Raises gap_frame
    ([rsi_above 70] ++ vwap_above :: [rsi_above 72])
  = check_indicator_alerts exec_two_codes two_builtins Raises gap_frame
      [rsi_above 70]
    ++ AlertError
         ("Alert check error: Indicator execution error: "
          ++ "KeyError: 'vwap'")
    :: check_indicator_alerts exec_two_codes two_builtins Raises
         (frame_after_indicator exec_two_codes "vwap" gap_frame (Some []))
         [rsi_above 72] /\
  ((forall calculate,
      exec_two_codes "vwap" gap_frame <> Returns (Some calculate)) ->
   frame_after_indicator exec_two_codes "vwap" gap_frame (Some [])
   = gap_frame).
Proof.
  apply (execute_indicator_failure exec_two_codes two_builtins Raises
           "vwap" gap_frame gap_frame [] "KeyError: 'vwap'"
           [rsi_above 70] [rsi_above 72] vwap_above).
  - eapply fails_calculate_raises; reflexivity.
  - left. reflexivity.
  - reflexivity.
Defined.

(** What the three alerts of the witness report, and the frame that the
    failed run leaves. *)
Example three_alerts_reports :
  check_indicator_alerts exec_two_codes two_builtins Raises gap_frame
    [rsi_above 70; vwap_above; rsi_above 72]
  = [ AlertFired (Some (ValueDetails 71 70));
      AlertError
        "Alert check error: Indicator execution error: KeyError: 'vwap'";
      AlertQuiet ] /\
  frame_after_indicator exec_two_codes "vwap" gap_frame (Some [])
  = tail gap_frame.
Proof. split; reflexivity. Qed.

(** C9 as stated fails for code that raises outside [Exception]: under
    [exec_exits] the run of the code raises [SystemExit], which
    [execute_indicator] does not wrap, and the loop of the caller ends at
    the alert with the alert after it not looked at. *)
Lemma execute_indicator_exit_not_wrapped :
  ~ (forall (py_exec : string -> DataFrame -> outcome (option PyCalculate))
            (builtin_indicators : gmap string (string * Params))
            (get_indicator_code : string -> outcome string)
            (code : string) (df : DataFrame) (params : Params)
            (cause : string) (alert : IndicatorAlert)
            (after : list IndicatorAlert),
       code_raises py_exec code df cause ->
       alert_code builtin_indicators get_indicator_code alert code params ->
       execute_indicator py_exec code df (Some params)
       = Raises ("Indicator execution error: " ++ cause) /\
       length (check_indicator_alerts py_exec builtin_indicators
                 get_indicator_code df (alert :: after))
       = S (length after)).
Proof.
  intros H.
  assert (Hcode : alert_code two_builtins Raises (rsi_above 70) "rsi" [])
    by (left; reflexivity).
  destruct (exit_leaves_the_loop exec_exits two_builtins Raises "rsi"
              gap_frame [] "SystemExit" (rsi_above 70) [rsi_above 72]
              eq_refl Hcode) as [Hrun Hloop].
  destruct (H exec_exits two_builtins Raises "rsi" gap_frame []
              "SystemExit" (rsi_above 70) [rsi_above 72]) as [Hwrapped Hlen].
  - right. reflexivity.
  - exact Hcode.
  - rewrite Hrun in Hwrapped. discriminate Hwrapped.
Qed.

(** ** Taps *)

(** A row in whose range the price lies. *)
Lemma first_tap_zip (l : DataFrame) (p : Q) :
  forall a idx row,
    first_tap (zip (seq a (length l)) l) p = Some (idx, row) ->
    (a <= idx)%nat /\ l !! (idx - a)%nat = Some row /\
    low row <= p /\ p <= high row.
Proof.
  induction l as [| c l IH]; intros a idx row; simpl; [discriminate |].
  destruct (Qleb (low c) p && Qleb p (high c)) eqn:Hin.
  - intros [= <- <-]. apply andb_true_iff in Hin. destruct Hin as [H1 H2].
    apply Qleb_le in H1, H2. rewrite Nat.sub_diag. auto.
  - intros H. apply IH in H. destruct H as (Hle & Hl & Hr).
    split; [lia |]. split; [| exact Hr].
    replace (idx - a)%nat with (S (idx - S a)) by lia. exact Hl.
Qed.

Lemma first_tap_iterrows (df : DataFrame) (p : Q) (idx : nat) (row : Candle) :
  first_tap (iterrows df) p = Some (idx, row) ->
  df !! idx = Some row /\ low row <= p /\ p <= high row.
Proof.
  intros H. apply first_tap_zip in H. destruct H as (_ & Hl & Hr).
  now rewrite Nat.sub_0_r in Hl.
Qed.

Lemma check_price_tap_level_taps (dfc : DataFrame) (cp : Q)
    (taps0 : gmap Z TapInfo) (acc : list TriggeredInfo * gmap Z TapInfo)
    (lvl : PriceLevel) :
  (forall id info, snd acc !! id = Some info ->
                   taps0 !! id = Some info \/ tap_from dfc info) ->
  Forall (fun t => (candle_index t < length dfc)%nat) (fst acc) ->
  (forall id info,
      snd (check_price_tap_level dfc cp acc lvl) !! id = Some info ->
      taps0 !! id = Some info \/ tap_from dfc info) /\
  Forall (fun t => (candle_index t < length dfc)%nat)
    (fst (check_price_tap_level dfc cp acc lvl)).
Proof.
  destruct acc as [tl taps]. simpl. intros Hm Hl.
  unfold check_price_tap_level.
  destruct (negb (enabled lvl) || triggered lvl); [auto |].
  destruct (taps !! level_id lvl) eqn:Hheld; [auto |].
  destruct (first_tap (iterrows dfc) (price lvl)) as [[idx row] |] eqn:Htap;
    [| auto].
  apply first_tap_iterrows in Htap. destruct Htap as (Hrow & Hlo & Hhi).
  simpl. split.
  - intros id info. rewrite lookup_insert. case_decide as Hid.
    + intros [= <-]. right. exists row. simpl. auto.
    + apply Hm.
  - apply Forall_app. split; [exact Hl |].
    constructor; [| constructor]. simpl.
    now apply lookup_lt_Some in Hrow.
Qed.

Lemma check_price_tap_fold (dfc : DataFrame) (cp : Q) (taps0 : gmap Z TapInfo)
    (levels : list PriceLevel) :
  forall acc,
    (forall id info, snd acc !! id = Some info ->
                     taps0 !! id = Some info \/ tap_from dfc info) ->
    Forall (fun t => (candle_index t < length dfc)%nat) (fst acc) ->
    (forall id info,
        snd (fold_left (check_price_tap_level dfc cp) levels acc) !! id
        = Some info ->
        taps0 !! id = Some info \/ tap_from dfc info) /\
    Forall (fun t => (candle_index t < length dfc)%nat)
      (fst (fold_left (check_price_tap_level dfc cp) levels acc)).
Proof.
  induction levels as [| lvl rest IH]; intros acc Hm Hl; simpl; [auto |].
  destruct (check_price_tap_level_taps dfc cp taps0 acc lvl Hm Hl) as [Hm' Hl'].
  now apply IH.
Qed.

(** C2, on its domain. On a series that is not a single candle, a tap record
    that [check_price_tap] creates comes from a completed candle, never from
    the last one: its index is below [len(df) - 1], the row at this index
    gives its timestamp, and the range of this row holds the price of the
    level; the same bound holds for the indices of the returned list. *)
Theorem tap_is_completed_candle (df : DataFrame) (levels : list PriceLevel)
    (cp : Q) (taps : gmap Z TapInfo) :
  length df <> 1%nat ->
  (forall id info,
      snd (check_price_tap df levels cp taps) !! id = Some info ->
      taps !! id = None ->
      (tap_index info < length df - 1)%nat /\
      exists row,
        df !! tap_index info = Some row /\
        tap_timestamp info = timestamp row /\
        low row <= tap_price info /\ tap_price info <= high row) /\
  Forall (fun t => (candle_index t < length df - 1)%nat)
    (fst (check_price_tap df levels cp taps)).
Proof.
  intros Hlen. unfold check_price_tap.
  destruct ((length df =? 0)%nat || (length levels =? 0)%nat) eqn:Hguard.
  - simpl. split; [| constructor]. intros id info H1 H2. congruence.
  - apply orb_false_iff in Hguard. destruct Hguard as [Hdf _].
    apply Nat.eqb_neq in Hdf.
    destruct (Nat.ltb_spec 1 (length df)) as [_ | H]; [| lia].
    destruct (check_price_tap_fold (iloc_drop_last df) cp taps levels
                ([], taps)) as [Hm Hl]; [simpl; auto | constructor |].
    rewrite length_drop_last in Hl. split; [| exact Hl].
    intros id info Hnew Hold.
    destruct (Hm id info Hnew) as [Hwas | (row & Hrow & Hts & Hr)];
      [congruence |].
    unfold iloc_drop_last in Hrow.
    apply lookup_take_Some in Hrow. destruct Hrow as [Hrow Hidx].
    split; [exact Hidx |]. exists row. auto.
Qed.

(** The two-candle frame [tap_frame] meets the hypothesis of
    [tap_is_completed_candle]. *)
Lemma tap_is_completed_candle_witness :
  length tap_frame <> 1%nat /\
  Forall (fun t => (candle_index t < length tap_frame - 1)%nat)
    (fst (check_price_tap tap_frame [level_101] 105 ∅)).
Proof.
  assert (H : length tap_frame <> 1%nat) by discriminate.
  split; [exact H |].
  apply (tap_is_completed_candle tap_frame [level_101] 105 ∅ H).
Defined.

(** C2 as stated fails on a series of one candle: the live candle is the one
    scanned, and it creates the tap record of [level_101]. *)
Lemma tap_on_single_candle :
  ~ (forall (df : DataFrame) (levels : list PriceLevel) (cp : Q)
            (taps : gmap Z TapInfo) (id : Z) (info : TapInfo),
        snd (check_price_tap df levels cp taps) !! id = Some info ->
        taps !! id = None ->
        (tap_index info < length df - 1)%nat).
Proof.
  intros H.
  assert (Hnew : snd (check_price_tap live_only_frame [level_101] 105 ∅)
                   !! 1%Z
                 = Some (mkTap 0 10 101 (Some Bullish)))
    by (vm_compute; reflexivity).
  specialize (H live_only_frame [level_101] 105 ∅ 1%Z _ Hnew (lookup_empty _)).
  simpl in H. lia.
Qed.

(** ** Confirmation of a tap *)

Lemma post_tap_rows (fvg_df : DataFrame) (tap_ts : Z) (row : Candle) :
  In row (post_tap fvg_df tap_ts)
  <-> In row fvg_df /\ (tap_ts < timestamp row)%Z.
Proof.
  unfold post_tap. rewrite filter_In. now rewrite Z.ltb_lt.
Qed.

Lemma detect_fvg_short (df : DataFrame) (flt : option FvgType) (start_idx : Z) :
  (length df < 4)%nat -> detect_fvg df flt start_idx = Returns [].
Proof.
  intros H. unfold detect_fvg.
  destruct (Nat.ltb_spec (length df) 4); [reflexivity | lia].
Qed.

Lemma check_fvg_after_tap_head (fvg_df : DataFrame) (tap_ts : Z)
    (expected : option FvgType) :
  exists fvgs,
    detect_fvg (post_tap fvg_df tap_ts) expected 2 = Returns fvgs /\
    check_fvg_after_tap fvg_df tap_ts expected = Returns (head fvgs).
Proof.
  unfold check_fvg_after_tap.
  destruct (Nat.eqb_spec (length fvg_df) 0) as [Hempty | _].
  - apply length_zero_iff_nil in Hempty. subst fvg_df.
    exists []. split; reflexivity.
  - destruct (Nat.ltb_spec (length (post_tap fvg_df tap_ts)) 4) as [Hs | _].
    + exists []. split; [now apply detect_fvg_short | reflexivity].
    + rewrite detect_fvg_gaps. cbn [bind]. eexists. split; [reflexivity |].
      now destruct (flat_map _ _).
Qed.


Lemma fire_signal_appends (user_id : Z) (sym price_tf fvg_tf : string)
    (lvl : PriceLevel) (trig : Q) (tap_ts : Z) (expected : option FvgType)
    (fvg : FVG) (signals : list Signal) (w : World) :
  exists s,
    fst (fire_signal user_id sym price_tf fvg_tf lvl trig tap_ts expected fvg
           signals w) = signals ++ [s] /\
    price_level s = price lvl /\ trigger_price s = trig /\
    sig_tap_timestamp s = tap_ts /\
    expected_type s = expected_name expected /\
    sig_fvg_type s = fvg_type fvg /\
    sig_fvg_timestamp s = fvg_timestamp fvg /\
    sig_fvg_low s = fvg_low fvg /\ sig_fvg_high s = fvg_high fvg /\
    sig_gap_size s = gap_size fvg.
Proof.
  unfold fire_signal. simpl.
  destruct (decrypt_webhook _ user_id); eexists; simpl;
    (split; [reflexivity |]); repeat split.
Qed.

(** ** The signals of the engine *)

Lemma fire_signal_from (fvg_df : DataFrame) (user_id : Z)
    (sym price_tf fvg_tf : string) (lvl : PriceLevel) (trig : Q) (tap_ts : Z)
    (expected : option FvgType) (fvgs : list FVG) (fvg : FVG)
    (signals : list Signal) (w : World) :
  detect_fvg (post_tap fvg_df tap_ts) expected 2 = Returns fvgs ->
  head fvgs = Some fvg ->
  Forall (signal_from fvg_df) signals ->
  Forall (signal_from fvg_df)
    (fst (fire_signal user_id sym price_tf fvg_tf lvl trig tap_ts expected fvg
            signals w)).
Proof.
  intros Hdet Hhead Hall.
  destruct (fire_signal_appends user_id sym price_tf fvg_tf lvl trig tap_ts
              expected fvg signals w)
    as (s & -> & _ & _ & Hts & Hexp & Hty & Hfts & Hlo & Hhi & Hsz).
  apply Forall_app. split; [exact Hall |].
  constructor; [| constructor].
  exists expected, fvgs, fvg. rewrite Hts. repeat split; assumption.
Qed.

Lemma newly_tapped_loop_from (fvg_df : DataFrame) (user_id : Z)
    (sym price_tf fvg_tf : string) (newly_tapped : list TriggeredInfo) :
  forall signals w,
    Forall (signal_from fvg_df) signals ->
    exists signals' w',
      newly_tapped_loop fvg_df user_id sym price_tf fvg_tf newly_tapped
        signals w = Returns (signals', w') /\
      Forall (signal_from fvg_df) signals'.
Proof.
  induction newly_tapped as [| tapped rest IH]; intros signals w Hall; simpl.
  - eauto.
  - destruct (check_fvg_after_tap_head fvg_df (tapped_timestamp tapped)
                (tapped_expected_fvg_type tapped)) as (fvgs & Edet & ->).
    cbn [bind]. destruct (head fvgs) as [fvg |] eqn:Hhead; [| now apply IH].
    pose proof (fire_signal_from fvg_df user_id sym price_tf fvg_tf
                  (level tapped) (candle_close tapped) _ _ _ _ signals w
                  Edet Hhead Hall) as Hfired.
    destruct (fire_signal _ _ _ _ _ _ _ _ _ _ _) as [signals1 w1].
    now apply IH.
Qed.

Lemma previously_tapped_loop_from (fvg_df : DataFrame) (user_id : Z)
    (sym price_tf fvg_tf : string) (price_levels : list PriceLevel) :
  forall signals w,
    Forall (signal_from fvg_df) signals ->
    exists signals' w',
      previously_tapped_loop fvg_df user_id sym price_tf fvg_tf price_levels
        signals w = Returns (signals', w') /\
      Forall (signal_from fvg_df) signals'.
Proof.
  induction price_levels as [| lvl rest IH]; intros signals w Hall; simpl.
  - eauto.
  - destruct (triggered lvl); [now apply IH |].
    destruct (triggered_levels w !! level_id lvl) as [tap_info |];
      [| now apply IH].
    destruct (check_fvg_after_tap_head fvg_df (tap_timestamp tap_info)
                (expected_fvg_type tap_info)) as (fvgs & Edet & ->).
    cbn [bind]. destruct (head fvgs) as [fvg |] eqn:Hhead; [| now apply IH].
    pose proof (fire_signal_from fvg_df user_id sym price_tf fvg_tf
                  lvl (tap_price tap_info) _ _ _ _ signals w
                  Edet Hhead Hall) as Hfired.
    destruct (fire_signal _ _ _ _ _ _ _ _ _ _ _) as [signals1 w1].
    now apply IH.
Qed.

Lemma get_current_price_returns (df : DataFrame) :
  exists cur, get_current_price df = Returns cur.
Proof.
  unfold get_current_price.
  destruct ((length df =? 0)%nat || (length df <? 2)%nat) eqn:Hguard; [eauto |].
  apply orb_false_iff in Hguard. destruct Hguard as [_ Hlen].
  apply Nat.ltb_ge in Hlen.
  destruct (iloc_inside df (length df - 2)) as (row & _ & ->); [lia |].
  cbn [bind]. eauto.
Qed.

(** Every call of the engine returns, and each signal it returns carries the
    first gap after its tap. *)
Lemma check_fvg_signals_from (price_df fvg_df : DataFrame)
    (price_levels : list PriceLevel) (user_id : Z)
    (sym price_tf fvg_tf : string) (w : World) :
  exists signals w',
    check_fvg_signals price_df fvg_df price_levels user_id sym price_tf fvg_tf w
    = Returns (signals, w') /\
    Forall (signal_from fvg_df) signals.
Proof.
  unfold check_fvg_signals.
  destruct (_ || _ || _)%nat; [exists [], w; auto |].
  destruct (get_current_price_returns price_df) as [cur ->]. cbn [bind].
  destruct cur as [cur |]; [| exists [], w; auto].
  destruct (check_price_tap price_df price_levels cur (triggered_levels w))
    as [newly_tapped taps].
  destruct (newly_tapped_loop_from fvg_df user_id sym price_tf fvg_tf
              newly_tapped [] (mkWorld taps (db w) (discord_sent w)))
    as (signals1 & w1 & -> & Hall1); [constructor |].
  cbn [bind fst snd].
  now apply previously_tapped_loop_from.
Qed.


(** ** One signal for each tap *)

Lemma fire_signal_result (user_id : Z) (sym price_tf fvg_tf : string)
    (lvl : PriceLevel) (trig : Q) (tap_ts : Z) (expected : option FvgType)
    (fvg : FVG) (signals : list Signal) (w : World) :
  exists s w',
    fire_signal user_id sym price_tf fvg_tf lvl trig tap_ts expected fvg
      signals w = (signals ++ [s], w') /\
    triggered_levels w' = triggered_levels w /\
    price_level s = price lvl /\ trigger_price s = trig /\
    sig_tap_timestamp s = tap_ts /\
    sig_fvg_timestamp s = fvg_timestamp fvg.
Proof.
  unfold fire_signal. simpl.
  destruct (decrypt_webhook _ user_id); do 2 eexists;
    (split; [reflexivity |]); repeat split.
Qed.

Lemma current_price_two_candles (df : DataFrame) (cur : Q) :
  get_current_price df = Returns (Some cur) -> (2 <= length df)%nat.
Proof.
  unfold get_current_price.
  destruct ((length df =? 0)%nat || (length df <? 2)%nat) eqn:Hguard;
    [discriminate |].
  intros _. apply orb_false_iff in Hguard. destruct Hguard as [_ Hlen].
  now apply Nat.ltb_ge in Hlen.
Qed.

(** The defect behind C1, in general: a level that is tapped and confirmed in
    the same call is fired by the first loop, which leaves its tap record in
    place, and once more by the second loop, which finds this record. *)
Lemma same_call_confirmation_fires_twice (price_df fvg_df : DataFrame)
    (lvl : PriceLevel) (user_id : Z) (sym price_tf fvg_tf : string)
    (w : World) (cur : Q) (idx : nat) (row : Candle) (fvg : FVG) :
  fvg_df <> [] ->
  get_current_price price_df = Returns (Some cur) ->
  enabled lvl = true -> triggered lvl = false ->
  triggered_levels w !! level_id lvl = None ->
  first_tap (iterrows (iloc_drop_last price_df)) (price lvl) = Some (idx, row) ->
  check_fvg_after_tap fvg_df (timestamp row)
    (determine_fvg_type (price lvl) cur) = Returns (Some fvg) ->
  exists s1 s2 w',
    check_fvg_signals price_df fvg_df [lvl] user_id sym price_tf fvg_tf w
    = Returns ([s1; s2], w') /\
    price_level s1 = price lvl /\ price_level s2 = price lvl /\
    sig_tap_timestamp s1 = timestamp row /\
    sig_tap_timestamp s2 = timestamp row /\
    sig_fvg_timestamp s1 = fvg_timestamp fvg /\
    sig_fvg_timestamp s2 = fvg_timestamp fvg.
Proof.
  intros Hfvg Hcur Hen Htr Hfree Htap Hchk.
  pose proof (current_price_two_candles _ _ Hcur) as Hlen.
  unfold check_fvg_signals, check_price_tap.
  destruct (Nat.eqb_spec (length price_df) 0) as [H | _]; [lia |].
  destruct (Nat.eqb_spec (length fvg_df) 0) as [H | _];
    [now apply length_zero_iff_nil in H |].
  destruct (Nat.ltb_spec 1 (length price_df)) as [_ | H]; [| lia].
  simpl orb. cbv iota. rewrite Hcur. cbn [bind].
  cbn [fold_left]. unfold check_price_tap_level.
  rewrite Hen, Htr, Hfree, Htap. cbn [negb orb app].
  cbn [newly_tapped_loop level tapped_timestamp tapped_expected_fvg_type
       candle_close].
  rewrite Hchk. cbn [bind].
  destruct (fire_signal_result user_id sym price_tf fvg_tf lvl (close row)
              (timestamp row) (determine_fvg_type (price lvl) cur) fvg []
              (mkWorld
                 (<[level_id lvl :=
                      mkTap idx (timestamp row) (price lvl)
                        (determine_fvg_type (price lvl) cur)]>
                    (triggered_levels w))
                 (db w) (discord_sent w)))
    as (s1 & w1 & -> & Hkeep & Hp1 & _ & Ht1 & Hf1).
  cbn [bind fst snd previously_tapped_loop app].
  rewrite Htr, Hkeep. cbn [triggered_levels].
  rewrite lookup_insert_eq.
  cbn [tap_timestamp expected_fvg_type tap_price].
  rewrite Hchk. cbn [bind].
  destruct (fire_signal_result user_id sym price_tf fvg_tf lvl (price lvl)
              (timestamp row) (determine_fvg_type (price lvl) cur) fvg [s1] w1)
    as (s2 & w2 & -> & _ & Hp2 & _ & Ht2 & Hf2).
  exists s1, s2, (del_tap (level_id lvl) w2).
  repeat split; assumption.
Qed.

(** C1 fails on the code. In one refresh whose trigger series shows the tap
    of [level_101] and whose confirmation series already shows the gap after
    it, the engine returns two signals for the level, both for the tap at 10
    and the gap at 13; the next refresh on the same series returns none. *)
Theorem single_tap_fires_twice :
  exists s1 s2 w',
    refresh 7 "BTCUSDT" "1h" "5m" (tap_frame, gap_frame) fresh_world
    = Returns ([s1; s2], w') /\
    price_level s1 = 101 /\ price_level s2 = 101 /\
    sig_tap_timestamp s1 = 10%Z /\ sig_tap_timestamp s2 = 10%Z /\
    sig_fvg_timestamp s1 = 13%Z /\ sig_fvg_timestamp s2 = 13%Z /\
    refreshes 7 "BTCUSDT" "1h" "5m"
      [(tap_frame, gap_frame); (tap_frame, gap_frame)] fresh_world
    = Returns ([s1; s2], w').
Proof.
  destruct (refresh 7 "BTCUSDT" "1h" "5m" (tap_frame, gap_frame) fresh_world)
    as [[signals w'] | msg | msg] eqn:E; vm_compute in E; try discriminate E.
  injection E as <- <-.
  do 3 eexists. split; [reflexivity |].
  repeat split; vm_compute; reflexivity.
Qed.

(** The other path of the code: on one engine object the tap is seen in one
    call, before any gap, and the gap in a later one. The second loop fires
    once and deletes the tap record, and the level, flagged in the store,
    stays silent afterwards. *)
Example tap_then_gap_fires_once :
  exists s w',
    evaluations 7 "BTCUSDT" "1h" "5m"
      [(tap_frame, quiet_frame); (tap_frame, gap_frame); (tap_frame, gap_frame)]
      fresh_world
    = Returns ([s], w') /\
    price_level s = 101 /\ sig_tap_timestamp s = 10%Z /\
    sig_fvg_timestamp s = 13%Z /\
    triggered_levels w' !! 1%Z = None /\
    map triggered (get_price_levels (db w')) = [true].
Proof.
  destruct (evaluations 7 "BTCUSDT" "1h" "5m"
              [(tap_frame, quiet_frame); (tap_frame, gap_frame);
               (tap_frame, gap_frame)] fresh_world)
    as [[signals w'] | msg | msg] eqn:E; vm_compute in E; try discriminate E.
  injection E as <- <-.
  do 2 eexists. split; [reflexivity |].
  repeat split; vm_compute; reflexivity.
Qed.

(** The same three series through the host. Every refresh builds its engine
    anew, so the tap of the first refresh is forgotten; the second refresh
    finds it again, together with the gap, and fires twice. *)
Example tap_then_gap_across_refreshes :
  exists s1 s2 w',
    refreshes 7 "BTCUSDT" "1h" "5m"
      [(tap_frame, quiet_frame); (tap_frame, gap_frame); (tap_frame, gap_frame)]
      fresh_world
    = Returns ([s1; s2], w') /\
    price_level s1 = 101 /\ price_level s2 = 101 /\
    sig_tap_timestamp s1 = 10%Z /\ sig_tap_timestamp s2 = 10%Z /\
    sig_fvg_timestamp s1 = 13%Z /\ sig_fvg_timestamp s2 = 13%Z /\
    map triggered (get_price_levels (db w')) = [true].
Proof.
  destruct (refreshes 7 "BTCUSDT" "1h" "5m"
              [(tap_frame, quiet_frame); (tap_frame, gap_frame);
               (tap_frame, gap_frame)] fresh_world)
    as [[signals w'] | msg | msg] eqn:E; vm_compute in E; try discriminate E.
  injection E as <- <-.
  do 3 eexists. split; [reflexivity |].
  repeat split; vm_compute; reflexivity.
Qed.

(** * Further properties *)

(** ** The detector: filter, start index, size, constituents *)

Lemma filter_flat_map {A B : Type} (P : B -> bool) (g : A -> list B)
    (l : list A) :
  List.filter P (flat_map g l) = flat_map (fun a => List.filter P (g a)) l.
Proof.
  induction l as [| a l IH]; simpl; [reflexivity |].
  now rewrite List.filter_app, IH.
Qed.

Lemma gap_at_filter (dc : DataFrame) (t : FvgType) (i : nat) :
  List.filter (has_type t) (gap_at dc None i) = gap_at dc (Some t) i.
Proof.
  unfold gap_at.
  destruct (dc !! (i - 2)%nat) as [c1 |]; [| reflexivity].
  destruct (dc !! (i - 1)%nat) as [c2 |]; [| reflexivity].
  destruct (dc !! i) as [c3 |]; [| reflexivity].
  destruct (Qltb (high c1) (low c3)); [destruct t; reflexivity |].
  destruct (Qltb (high c3) (low c1)); [destruct t; reflexivity | reflexivity].
Qed.

(** X1. Running [detect_fvg] with a direction filter gives exactly the FVGs
    of that direction among those of the unfiltered run, in the same
    order. *)
Theorem detect_fvg_filter_selects (df : DataFrame) (t : FvgType)
    (start_idx : Z) :
  exists fvgs,
    detect_fvg df None start_idx = Returns fvgs /\
    detect_fvg df (Some t) start_idx
    = Returns (List.filter (has_type t) fvgs).
Proof.
  eexists. split; [apply detect_fvg_gaps |].
  rewrite detect_fvg_gaps, filter_flat_map. f_equal.
  apply flat_map_ext. intros i. symmetry. apply gap_at_filter.
Qed.

Lemma filter_none {A : Type} (P : A -> bool) (l : list A) :
  (forall x, In x l -> P x = false) -> List.filter P l = [].
Proof.
  induction l as [| a l IH]; intros H; simpl; [reflexivity |].
  rewrite (H a (or_introl eq_refl)). apply IH. intros x Hx. apply H. now right.
Qed.

Lemma filter_all {A : Type} (P : A -> bool) (l : list A) :
  (forall x, In x l -> P x = true) -> List.filter P l = l.
Proof.
  induction l as [| a l IH]; intros H; simpl; [reflexivity |].
  rewrite (H a (or_introl eq_refl)). f_equal. apply IH.
  intros x Hx. apply H. now right.
Qed.

Lemma range_split (a m b : nat) :
  (a <= m <= b)%nat -> range a b = range a m ++ range m b.
Proof.
  intros H. unfold range.
  replace (b - a)%nat with ((m - a) + (b - m))%nat by lia.
  rewrite seq_app. do 2 f_equal. lia.
Qed.

(** X2. The start index only cuts the result: [detect_fvg] from [start_idx]
    returns the FVGs of the run from the default start whose index is at
    least [max(2, start_idx)]; any start up to 2 gives the full result. *)
Theorem detect_fvg_start_cuts (df : DataFrame) (flt : option FvgType)
    (start_idx : Z) :
  exists fvgs,
    detect_fvg df flt 0 = Returns fvgs /\
    detect_fvg df flt start_idx
    = Returns (List.filter (from_index (Z.to_nat (Z.max 2 start_idx))) fvgs) /\
    ((start_idx <= 2)%Z -> detect_fvg df flt start_idx = Returns fvgs).
Proof.
  eexists. split; [apply detect_fvg_gaps |].
  set (dc := iloc_drop_last df). set (n := length dc).
  set (m := Z.to_nat (Z.max 2 start_idx)).
  assert (Hcut : detect_fvg df flt start_idx
                 = Returns (List.filter (from_index m)
                     (flat_map (gap_at dc flt)
                        (range (Z.to_nat (Z.max 2 0)) n)))).
  { rewrite detect_fvg_gaps. fold dc n m. f_equal.
    change (Z.to_nat (Z.max 2 0)) with 2%nat.
    assert (Hm : (2 <= m)%nat) by (unfold m; lia).
    destruct (Nat.le_gt_cases m n) as [Hle | Hgt].
    - rewrite (range_split 2 m n) by lia.
      rewrite flat_map_app, List.filter_app.
      rewrite filter_none, filter_all; [reflexivity | |].
      + intros f Hf. unfold range in Hf. apply gaps_index_range in Hf.
        unfold from_index. apply Nat.leb_le. lia.
      + intros f Hf. unfold range in Hf. apply gaps_index_range in Hf.
        unfold from_index. apply Nat.leb_gt. lia.
    - unfold range at 1. replace (n - m)%nat with 0%nat by lia. simpl.
      symmetry. apply filter_none.
      intros f Hf. unfold range in Hf. apply gaps_index_range in Hf.
      unfold from_index. apply Nat.leb_gt. lia. }
  split; [exact Hcut |].
  intros Hs. rewrite !detect_fvg_gaps. do 3 f_equal. lia.
Qed.

(** The start index 2 of [check_fvg_after_tap] meets the hypothesis of the
    last part of [detect_fvg_start_cuts]. *)
Lemma detect_fvg_start_cuts_witness :
  (2 <= 2)%Z /\
  exists fvgs,
    detect_fvg gap_frame None 0 = Returns fvgs /\
    detect_fvg gap_frame None 2 = Returns fvgs.
Proof.
  split; [lia |].
  destruct (detect_fvg_start_cuts gap_frame None 2) as (fvgs & E0 & _ & E2).
  exists fvgs. split; [exact E0 | apply E2; lia].
Defined.

Lemma flat_map_length_le {A B : Type} (g : A -> list B) (l : list A) :
  (forall a, (length (g a) <= 1)%nat) ->
  (length (flat_map g l) <= length l)%nat.
Proof.
  intros Hg. induction l as [| a l IH]; simpl; [lia |].
  rewrite length_app. specialize (Hg a). lia.
Qed.

(** X3. [detect_fvg] returns at most [len(df) - 3] FVGs, none on a frame of
    fewer than four candles; each FVG lies at an index from 2 on that is not
    the index of the last candle, and records the three rows of [df] that
    end at its index and the timestamp of the third. *)
Theorem detect_fvg_constituents (df : DataFrame) (flt : option FvgType)
    (start_idx : Z) :
  exists fvgs,
    detect_fvg df flt start_idx = Returns fvgs /\
    (length fvgs <= length df - 3)%nat /\
    forall f, In f fvgs ->
      (2 <= index f < length df - 1)%nat /\
      df !! (index f - 2)%nat = Some (candle_1 f) /\
      df !! (index f - 1)%nat = Some (candle_2 f) /\
      df !! index f = Some (candle_3 f) /\
      fvg_timestamp f = timestamp (candle_3 f).
Proof.
  eexists. split; [apply detect_fvg_gaps |].
  pose proof (length_drop_last df) as Hlen.
  pose proof (start_ge_2 start_idx) as Hs.
  split.
  - etransitivity.
    + apply flat_map_length_le. intros i.
      destruct (gap_at_shape (iloc_drop_last df) flt i) as [-> | (f & -> & _)];
        simpl; lia.
    + unfold range. rewrite length_seq. lia.
  - intros f Hf. pose proof Hf as Hidx.
    unfold range in Hidx. apply gaps_index_range in Hidx.
    apply in_flat_map in Hf. destruct Hf as (i & _ & Hf).
    pose proof (gap_at_index _ _ _ _ Hf) as Hi.
    apply gap_at_cases in Hf.
    destruct Hf as (c1 & c2 & c3 & L1 & L2 & L3 & Hcase).
    unfold iloc_drop_last in L1, L2, L3.
    apply lookup_take_Some in L1, L2, L3.
    destruct L1 as [L1 _], L2 as [L2 _], L3 as [L3 _].
    split; [lia |].
    destruct Hcase as [(_ & _ & ->) | (_ & _ & _ & ->)]; simpl; auto.
Qed.

(** ** The scan for taps *)

Lemma tap_scan_skip (dfc : DataFrame) (cp : Q) (taps0 : gmap Z TapInfo)
    (done : list PriceLevel) (acc : list TriggeredInfo * gmap Z TapInfo)
    (lvl : PriceLevel) :
  tap_scan_inv dfc cp taps0 done acc ->
  (enabled lvl = true -> triggered lvl = false ->
   snd acc !! level_id lvl = None ->
   first_tap (iterrows dfc) (price lvl) = None) ->
  tap_scan_inv dfc cp taps0 (done ++ [lvl]) acc.
Proof.
  intros (I1 & I2 & I3 & I4 & I5 & I6) Hlvl.
  split; [exact I1 |]. split; [| split; [| split; [exact I4 |]]].
  3: split; [| exact I6].
  - intros id info Hi.
    destruct (I2 id info Hi) as [? | (l & idx & row & Hin & ?)]; [auto |].
    right. exists l, idx, row. split; [apply in_or_app; auto | auto].
  - intros t Ht. destruct (I3 t Ht) as (idx & row & Hin & ?).
    exists idx, row. split; [apply in_or_app; auto | auto].
  - intros l Hl. apply in_app_or in Hl.
    destruct Hl as [Hl | [<- | []]]; [now apply I5 | exact Hlvl].
Qed.

Lemma tap_scan_step (dfc : DataFrame) (cp : Q) (taps0 : gmap Z TapInfo)
    (done : list PriceLevel) (acc : list TriggeredInfo * gmap Z TapInfo)
    (lvl : PriceLevel) :
  tap_scan_inv dfc cp taps0 done acc ->
  tap_scan_inv dfc cp taps0 (done ++ [lvl])
    (check_price_tap_level dfc cp acc lvl).
Proof.
  intros Hinv. unfold check_price_tap_level.
  destruct acc as [tl T].
  destruct (enabled lvl) eqn:Hen;
    [| apply tap_scan_skip; [exact Hinv | intros; congruence]].
  destruct (triggered lvl) eqn:Htr;
    [apply tap_scan_skip; [exact Hinv | intros; congruence] |].
  simpl negb. simpl orb.
  destruct (T !! level_id lvl) as [held |] eqn:Hheld;
    [apply tap_scan_skip; [exact Hinv | simpl; intros; congruence] |].
  destruct (first_tap (iterrows dfc) (price lvl)) as [[idx row] |] eqn:Htap;
    [| apply tap_scan_skip; [exact Hinv | auto]].
  destruct Hinv as (I1 & I2 & I3 & I4 & I5 & I6). simpl in *.
  fold (tap_entry cp lvl idx row). fold (tap_record cp lvl idx row).
  split; [| split; [| split; [| split; [| split]]]]; simpl.
  - intros id info Hi. rewrite lookup_insert_ne; [now apply I1 |].
    intros <-. apply I1 in Hi. congruence.
  - intros id info. rewrite lookup_insert. case_decide as Hid.
    + intros [= <-]. right. exists lvl, idx, row.
      split; [apply in_or_app; simpl; auto | auto 10].
    + intros Hi. destruct (I2 id info Hi) as [? | (l & i & r & Hin & ?)];
        [auto |].
      right. exists l, i, r. split; [apply in_or_app; auto | auto].
  - intros t Ht. apply in_app_or in Ht. destruct Ht as [Ht | [<- | []]].
    + destruct (I3 t Ht) as (i & r & Hin & Hz & Hf & Ht' & Hrec).
      exists i, r. split; [apply in_or_app; auto |].
      repeat split; auto.
      rewrite lookup_insert_ne; [exact Hrec |]. congruence.
    + exists idx, row. simpl. split; [apply in_or_app; simpl; auto |].
      split; [| split; [exact Htap | split; [reflexivity |]]].
      * destruct (taps0 !! level_id lvl) eqn:H0; [| reflexivity].
        apply I1 in H0. congruence.
      * apply lookup_insert_eq.
  - rewrite map_app. simpl. apply NoDup_app. split; [exact I4 |].
    split; [| apply NoDup_singleton].
    intros id Hid Hnew. apply list_elem_of_In in Hid, Hnew.
    destruct Hnew as [<- | []]. apply in_map_iff in Hid.
    destruct Hid as (t & Heq & Ht).
    destruct (I3 t Ht) as (i & r & _ & _ & _ & _ & Hrec). congruence.
  - intros l Hl Hel Htl. rewrite lookup_insert. case_decide as Hid;
      [discriminate |].
    intros Hnone. apply in_app_or in Hl. destruct Hl as [Hl | [<- | []]];
      [now apply I5 | congruence].
  - intros id info. rewrite lookup_insert. case_decide as Hid.
    + intros _ _. exists (tap_entry cp lvl idx row).
      split; [apply in_or_app; simpl; auto | exact Hid].
    + intros Hi H0. destruct (I6 id info Hi H0) as (t & Ht & Hid').
      exists t. split; [apply in_or_app; auto | exact Hid'].
Qed.

Lemma tap_scan_fold (dfc : DataFrame) (cp : Q) (taps0 : gmap Z TapInfo)
    (rest : list PriceLevel) :
  forall done acc,
    tap_scan_inv dfc cp taps0 done acc ->
    tap_scan_inv dfc cp taps0 (done ++ rest)
      (fold_left (check_price_tap_level dfc cp) rest acc).
Proof.
  induction rest as [| lvl rest IH]; intros done acc Hinv; simpl.
  - now rewrite app_nil_r.
  - replace (done ++ lvl :: rest) with ((done ++ [lvl]) ++ rest)
      by (now rewrite <- List.app_assoc).
    apply IH. now apply tap_scan_step.
Qed.

Lemma tap_scan_start (dfc : DataFrame) (cp : Q) (taps0 : gmap Z TapInfo)
    (levels : list PriceLevel) :
  (forall lvl, In lvl levels -> first_tap (iterrows dfc) (price lvl) = None) ->
  tap_scan_inv dfc cp taps0 levels ([], taps0).
Proof.
  intros Hnone. unfold tap_scan_inv. simpl.
  split; [auto |]. split; [auto |]. split; [intros t [] |].
  split; [constructor |]. split; [auto |].
  intros id info H1 H2. congruence.
Qed.

(** The list and the map of [check_price_tap] satisfy the invariant of the
    scan for all the levels. *)
Lemma check_price_tap_inv (df : DataFrame) (levels : list PriceLevel) (cp : Q)
    (taps : gmap Z TapInfo) :
  tap_scan_inv (scanned df) cp taps levels (check_price_tap df levels cp taps).
Proof.
  unfold check_price_tap.
  destruct (Nat.eqb_spec (length df) 0) as [Hdf | Hdf].
  - apply length_zero_iff_nil in Hdf. subst df. simpl.
    apply tap_scan_start. reflexivity.
  - destruct (Nat.eqb_spec (length levels) 0) as [Hl | Hl].
    + apply length_zero_iff_nil in Hl. subst levels. simpl.
      apply tap_scan_start. intros lvl [].
    + simpl orb. cbv iota. fold (scanned df).
      apply (tap_scan_fold (scanned df) cp taps levels [] ([], taps)).
      apply tap_scan_start. intros lvl [].
Qed.

Lemma first_tap_zip_before (l : DataFrame) (p : Q) :
  forall a idx row,
    first_tap (zip (seq a (length l)) l) p = Some (idx, row) ->
    forall j r, (j < idx - a)%nat -> l !! j = Some r -> ~ touches r p.
Proof.
  induction l as [| c l IH]; intros a idx row; simpl; [discriminate |].
  destruct (Qleb (low c) p && Qleb p (high c)) eqn:Hin.
  - intros [= <- <-] j r Hj. lia.
  - intros H j r Hj Hr. destruct j as [| j]; simpl in Hr.
    + injection Hr as <-. intros [H1 H2].
      apply Qleb_le in H1, H2. rewrite H1, H2 in Hin. discriminate.
    + apply (IH _ _ _ H j r); [lia | exact Hr].
Qed.

Lemma first_tap_zip_none (l : DataFrame) (p : Q) :
  forall a, first_tap (zip (seq a (length l)) l) p = None ->
            forall r, In r l -> ~ touches r p.
Proof.
  induction l as [| c l IH]; intros a; simpl; [intros _ r [] |].
  destruct (Qleb (low c) p && Qleb p (high c)) eqn:Hin; [discriminate |].
  intros H r [<- | Hr]; [| now apply (IH (S a))].
  intros [H1 H2]. apply Qleb_le in H1, H2. rewrite H1, H2 in Hin. discriminate.
Qed.

Lemma scanned_lookup (df : DataFrame) (j : nat) (r : Candle) :
  scanned df !! j = Some r -> df !! j = Some r.
Proof.
  unfold scanned, iloc_drop_last. destruct (1 <? length df)%nat; [| auto].
  intros H. apply lookup_take_Some in H. tauto.
Qed.

Lemma scanned_lookup_below (df : DataFrame) (j : nat) (r : Candle) :
  (j < length (scanned df))%nat -> df !! j = Some r -> scanned df !! j = Some r.
Proof.
  unfold scanned, iloc_drop_last. destruct (1 <? length df)%nat; [| auto].
  rewrite length_take. intros Hj H. rewrite lookup_take_lt by lia. exact H.
Qed.

(** X4. [check_price_tap] never changes or removes a tap record it was
    given, and a record it adds belongs to a level of the list that is
    enabled and not triggered, with the price of that level and the
    direction that [determine_fvg_type] expects for it. *)
Theorem check_price_tap_keeps_and_creates (df : DataFrame)
    (levels : list PriceLevel) (cp : Q) (taps : gmap Z TapInfo) :
  (forall id info,
      taps !! id = Some info ->
      snd (check_price_tap df levels cp taps) !! id = Some info) /\
  (forall id info,
      snd (check_price_tap df levels cp taps) !! id = Some info ->
      taps !! id = None ->
      exists lvl,
        In lvl levels /\ level_id lvl = id /\
        enabled lvl = true /\ triggered lvl = false /\
        tap_price info = price lvl /\
        expected_fvg_type info = determine_fvg_type (price lvl) cp).
Proof.
  destruct (check_price_tap_inv df levels cp taps) as (I1 & I2 & _).
  split; [exact I1 |].
  intros id info Hnew Hold.
  destruct (I2 id info Hnew)
    as [Hwas | (lvl & idx & row & Hin & Hid & Hen & Htr & _ & ->)];
    [congruence |].
  exists lvl. simpl. auto 10.
Qed.

(** X5. First tap wins: the record that [check_price_tap] adds for a level
    points at a candle whose range holds the price of the level, and no
    candle before it in the series does. *)
Theorem check_price_tap_first_tap (df : DataFrame) (levels : list PriceLevel)
    (cp : Q) (taps : gmap Z TapInfo) (id : Z) (info : TapInfo) :
  snd (check_price_tap df levels cp taps) !! id = Some info ->
  taps !! id = None ->
  (exists row,
      df !! tap_index info = Some row /\ touches row (tap_price info) /\
      tap_timestamp info = timestamp row) /\
  (forall j r, (j < tap_index info)%nat -> df !! j = Some r ->
               ~ touches r (tap_price info)).
Proof.
  intros Hnew Hold.
  destruct (check_price_tap_inv df levels cp taps) as (_ & I2 & _).
  destruct (I2 id info Hnew)
    as [Hwas | (lvl & idx & row & _ & _ & _ & _ & Htap & ->)];
    [congruence |].
  simpl. pose proof Htap as Hrow. apply first_tap_iterrows in Hrow.
  destruct Hrow as (Hrow & Hlo & Hhi). split.
  - exists row. split; [now apply scanned_lookup |]. split; [split |]; auto.
  - intros j r Hj Hr.
    apply (first_tap_zip_before (scanned df) (price lvl) 0 idx row Htap j r);
      [lia |].
    apply scanned_lookup_below; [| exact Hr].
    apply lookup_lt_Some in Hrow. lia.
Qed.

(** The tap of [level_101] in [tap_frame] meets the hypotheses of
    [check_price_tap_first_tap]. *)
Lemma check_price_tap_first_tap_witness :
  snd (check_price_tap tap_frame [level_101] 105 ∅) !! 1%Z
  = Some (mkTap 0 10 101 (Some Bullish)) /\
  (∅ : gmap Z TapInfo) !! 1%Z = None /\
  exists row,
    tap_frame !! 0%nat = Some row /\ touches row 101 /\
    10%Z = timestamp row.
Proof.
  assert (Hnew : snd (check_price_tap tap_frame [level_101] 105 ∅) !! 1%Z
                 = Some (mkTap 0 10 101 (Some Bullish)))
    by (vm_compute; reflexivity).
  split; [exact Hnew |]. split; [apply lookup_empty |].
  apply (check_price_tap_first_tap tap_frame [level_101] 105 ∅ 1%Z
           (mkTap 0 10 101 (Some Bullish)) Hnew (lookup_empty _)).
Defined.

(** X6. No tap is missed: after [check_price_tap], every level of the list
    that is enabled and not triggered either holds a tap record or has a
    price that no scanned candle touches. *)
Theorem check_price_tap_misses_none (df : DataFrame) (levels : list PriceLevel)
    (cp : Q) (taps : gmap Z TapInfo) (lvl : PriceLevel) :
  In lvl levels -> enabled lvl = true -> triggered lvl = false ->
  is_Some (snd (check_price_tap df levels cp taps) !! level_id lvl) \/
  (forall row, In row (scanned df) -> ~ touches row (price lvl)).
Proof.
  intros Hin Hen Htr.
  destruct (check_price_tap_inv df levels cp taps) as (_ & _ & _ & _ & I5 & _).
  destruct (snd (check_price_tap df levels cp taps) !! level_id lvl) eqn:Hrec;
    [left; eauto |].
  right. apply (first_tap_zip_none (scanned df) (price lvl) 0).
  now apply I5.
Qed.

(** The level [level_101] over [tap_frame] meets the hypotheses of
    [check_price_tap_misses_none]. *)
Lemma check_price_tap_misses_none_witness :
  In level_101 [level_101] /\ enabled level_101 = true /\
  triggered level_101 = false /\
  (is_Some (snd (check_price_tap tap_frame [level_101] 105 ∅)
              !! level_id level_101) \/
   (forall row, In row (scanned tap_frame) -> ~ touches row (price level_101))).
Proof.
  split; [now left |]. split; [reflexivity |]. split; [reflexivity |].
  apply (check_price_tap_misses_none tap_frame [level_101] 105 ∅ level_101);
    [now left | reflexivity | reflexivity].
Defined.

(** X7. The list that [check_price_tap] returns names each newly tapped
    level once: every entry belongs to a level of the list that held no
    record before, carries the prices of the candle at its index, and has a
    record in the map with the same index, timestamp, price and expected
    direction; and every record added has its entry in the list. *)
Theorem check_price_tap_list_matches (df : DataFrame)
    (levels : list PriceLevel) (cp : Q) (taps : gmap Z TapInfo) :
  (forall t, In t (fst (check_price_tap df levels cp taps)) ->
     In (level t) levels /\ taps !! level_id (level t) = None /\
     snd (check_price_tap df levels cp taps) !! level_id (level t)
     = Some {| tap_index := candle_index t;
               tap_timestamp := tapped_timestamp t;
               tap_price := price (level t);
               expected_fvg_type := tapped_expected_fvg_type t |} /\
     exists row,
       df !! candle_index t = Some row /\
       tapped_timestamp t = timestamp row /\
       candle_open t = open row /\ candle_close t = close row /\
       candle_high t = high row /\ candle_low t = low row) /\
  NoDup (map (fun t => level_id (level t))
           (fst (check_price_tap df levels cp taps))) /\
  (forall id info,
      snd (check_price_tap df levels cp taps) !! id = Some info ->
      taps !! id = None ->
      exists t, In t (fst (check_price_tap df levels cp taps)) /\
                level_id (level t) = id).
Proof.
  destruct (check_price_tap_inv df levels cp taps)
    as (_ & _ & I3 & I4 & _ & I6).
  split; [| split; [exact I4 | exact I6]].
  intros t Ht.
  destruct (I3 t Ht) as (idx & row & Hin & Hfree & Htap & Heq & Hrec).
  split; [exact Hin |]. split; [exact Hfree |].
  apply first_tap_iterrows in Htap. destruct Htap as (Hrow & _).
  apply scanned_lookup in Hrow.
  assert (F1 : candle_index t = idx) by (rewrite Heq; reflexivity).
  assert (F2 : tapped_timestamp t = timestamp row)
    by (rewrite Heq; reflexivity).
  assert (F3 : tapped_expected_fvg_type t
               = determine_fvg_type (price (level t)) cp)
    by (rewrite Heq; reflexivity).
  assert (F4 : candle_open t = open row /\ candle_close t = close row /\
               candle_high t = high row /\ candle_low t = low row)
    by (rewrite Heq; repeat split; reflexivity).
  rewrite F1, F2, F3. split; [exact Hrec |]. exists row. auto.
Qed.

Lemma check_price_tap_fold_fixed (dfc : DataFrame) (cp : Q)
    (levels : list PriceLevel) (tl : list TriggeredInfo) (T : gmap Z TapInfo) :
  (forall lvl, In lvl levels -> enabled lvl = true -> triggered lvl = false ->
               T !! level_id lvl = None ->
               first_tap (iterrows dfc) (price lvl) = None) ->
  fold_left (check_price_tap_level dfc cp) levels (tl, T) = (tl, T).
Proof.
  induction levels as [| lvl rest IH]; intros H; cbn [fold_left];
    [reflexivity |].
  assert (Hstep : check_price_tap_level dfc cp (tl, T) lvl = (tl, T)).
  { unfold check_price_tap_level.
    destruct (enabled lvl) eqn:Hen; [| reflexivity].
    destruct (triggered lvl) eqn:Htr; [reflexivity |]. simpl.
    destruct (T !! level_id lvl) eqn:Hrec; [reflexivity |].
    now rewrite (H lvl (or_introl eq_refl) Hen Htr Hrec). }
  rewrite Hstep. apply IH. intros l Hl. apply H. now right.
Qed.

(** X8. A re-scan changes nothing: calling [check_price_tap] again on the
    same series and levels, with the map the first call left, returns no
    newly tapped level and leaves the map as it is. *)
Theorem check_price_tap_rescan (df : DataFrame) (levels : list PriceLevel)
    (cp cp' : Q) (taps : gmap Z TapInfo) :
  check_price_tap df levels cp' (snd (check_price_tap df levels cp taps))
  = ([], snd (check_price_tap df levels cp taps)).
Proof.
  destruct (check_price_tap_inv df levels cp taps) as (_ & _ & _ & _ & I5 & _).
  unfold check_price_tap at 1.
  destruct ((length df =? 0)%nat || (length levels =? 0)%nat); [reflexivity |].
  fold (scanned df). now apply check_price_tap_fold_fixed.
Qed.

(** ** The books of the engine *)

Lemma books_start (user_id : Z) (ids : list Z) (w : World) :
  books user_id ids w [] w.
Proof.
  unfold books, notified_of. simpl. rewrite !app_nil_r.
  split; [reflexivity |]. split; [reflexivity |].
  split; [now destruct (decrypt_webhook (db w) user_id); rewrite ?app_nil_r |].
  split; [constructor |]. split; [reflexivity |].
  induction (price_levels_table (db w)); constructor; auto 10.
Qed.

Lemma books_del_tap (user_id : Z) (ids : list Z) (w0 w : World)
    (signals : list Signal) (id : Z) :
  books user_id ids w0 signals w -> books user_id ids w0 signals (del_tap id w).
Proof. unfold books. simpl. auto. Qed.

Lemma flagged_rows (ids : list Z) (id : Z) (t0 t : list PriceLevel) :
  In id ids ->
  Forall2 (fun a b =>
             level_id a = level_id b /\ price a = price b /\
             label a = label b /\ enabled a = enabled b /\
             (triggered a = true -> triggered b = true) /\
             (~ In (level_id a) ids -> triggered b = triggered a)) t0 t ->
  Forall2 (fun a b =>
             level_id a = level_id b /\ price a = price b /\
             label a = label b /\ enabled a = enabled b /\
             (triggered a = true -> triggered b = true) /\
             (~ In (level_id a) ids -> triggered b = triggered a)) t0
    (map (fun lvl => if (level_id lvl =? id)%Z then set_triggered true lvl
                     else lvl) t).
Proof.
  intros Hid. induction 1 as [| a b t0 t (H1 & H2 & H3 & H4 & H5 & H6) _ IH];
    simpl; constructor; [| exact IH].
  destruct (Z.eqb_spec (level_id b) id) as [Heq | Hne]; simpl; [| auto 10].
  repeat split; auto. intros Hout. exfalso. apply Hout. congruence.
Qed.

Lemma books_fire (user_id : Z) (ids : list Z) (w0 w : World)
    (sym price_tf fvg_tf : string) (lvl : PriceLevel) (trig : Q) (tap_ts : Z)
    (expected : option FvgType) (fvg : FVG) (signals : list Signal) :
  books user_id ids w0 signals w -> In (level_id lvl) ids ->
  books user_id ids w0
    (fst (fire_signal user_id sym price_tf fvg_tf lvl trig tap_ts expected fvg
            signals w))
    (snd (fire_signal user_id sym price_tf fvg_tf lvl trig tap_ts expected fvg
            signals w)) /\
  triggered_levels
    (snd (fire_signal user_id sym price_tf fvg_tf lvl trig tap_ts expected fvg
            signals w)) = triggered_levels w.
Proof.
  intros (Bh & Bw & Bs & Bn & Bi & Bt) Hid.
  unfold fire_signal, save_signal, decrypt_webhook, update_price_level_triggered.
  cbn [db price_levels_table signals_history webhooks].
  assert (Hhook : webhooks (db w) !! user_id = decrypt_webhook (db w0) user_id)
    by (unfold decrypt_webhook; now rewrite Bw).
  rewrite Hhook. unfold books, notified_of in *.
  assert (Hlen : length (signals_history (db w))
                 = (length (signals_history (db w0)) + length signals)%nat).
  { rewrite Bh, length_app, length_map. reflexivity. }
  assert (Hseq : forall s, signal_id s = Some (S (length (signals_history (db w)))) ->
            map signal_id (signals ++ [s])
            = map Some (seq (S (length (signals_history (db w0))))
                          (length (signals ++ [s])))).
  { intros s Hs. rewrite map_app, length_app, seq_app, map_app, Bi. simpl.
    rewrite Hs, Hlen. reflexivity. }
  destruct (decrypt_webhook (db w0) user_id) as [url |] eqn:Hurl;
    cbn [fst snd db discord_sent triggered_levels price_levels_table
         signals_history webhooks];
    (split; [| reflexivity]).
  - split; [rewrite map_app, List.app_assoc, <- Bh; reflexivity |].
    split; [exact Bw |].
    split; [rewrite Bs, <- List.app_assoc; reflexivity |].
    split.
    { apply Forall_app. split; [exact Bn |].
      constructor; [| constructor]. reflexivity. }
    split; [apply Hseq; reflexivity | now apply flagged_rows].
  - split; [rewrite map_app, List.app_assoc, <- Bh; reflexivity |].
    split; [exact Bw |]. split; [rewrite app_nil_r in *; exact Bs |].
    split.
    { apply Forall_app. split; [exact Bn |].
      constructor; [| constructor]. reflexivity. }
    split; [apply Hseq; reflexivity | now apply flagged_rows].
Qed.

Lemma newly_tapped_loop_books (fvg_df : DataFrame) (user_id : Z)
    (sym price_tf fvg_tf : string) (ids : list Z) (w0 : World)
    (newly_tapped : list TriggeredInfo) :
  forall signals w signals' w',
    books user_id ids w0 signals w ->
    Forall (fun t => In (level_id (level t)) ids) newly_tapped ->
    newly_tapped_loop fvg_df user_id sym price_tf fvg_tf newly_tapped signals w
    = Returns (signals', w') ->
    books user_id ids w0 signals' w' /\
    triggered_levels w' = triggered_levels w.
Proof.
  induction newly_tapped as [| tapped rest IH];
    intros signals w signals' w' Hb Hids; simpl.
  - intros [= <- <-]. auto.
  - apply Forall_cons_iff in Hids. destruct Hids as [Hid Hids].
    destruct (check_fvg_after_tap fvg_df (tapped_timestamp tapped)
                (tapped_expected_fvg_type tapped)) as [[fvg |] | msg | msg];
      cbn [bind]; [| now apply IH | discriminate | discriminate].
    pose proof (books_fire user_id ids w0 w sym price_tf fvg_tf (level tapped)
                  (candle_close tapped) (tapped_timestamp tapped)
                  (tapped_expected_fvg_type tapped) fvg signals Hb Hid)
      as [Hb1 Ht1].
    destruct (fire_signal _ _ _ _ _ _ _ _ _ _ _) as [signals1 w1].
    simpl in Hb1, Ht1. intros Hloop.
    destruct (IH _ _ _ _ Hb1 Hids Hloop) as [Hb2 Ht2].
    split; [exact Hb2 | congruence].
Qed.

Lemma previously_tapped_loop_books (fvg_df : DataFrame) (user_id : Z)
    (sym price_tf fvg_tf : string) (ids : list Z) (w0 : World)
    (price_levels : list PriceLevel) :
  forall signals w signals' w',
    books user_id ids w0 signals w ->
    Forall (fun lvl => In (level_id lvl) ids) price_levels ->
    previously_tapped_loop fvg_df user_id sym price_tf fvg_tf price_levels
      signals w = Returns (signals', w') ->
    books user_id ids w0 signals' w' /\
    (forall id info, triggered_levels w' !! id = Some info ->
                     triggered_levels w !! id = Some info).
Proof.
  induction price_levels as [| lvl rest IH];
    intros signals w signals' w' Hb Hids; simpl.
  - intros [= <- <-]. auto.
  - apply Forall_cons_iff in Hids. destruct Hids as [Hid Hids].
    destruct (triggered lvl); [now apply IH |].
    destruct (triggered_levels w !! level_id lvl) as [tap_info |];
      [| now apply IH].
    destruct (check_fvg_after_tap fvg_df (tap_timestamp tap_info)
                (expected_fvg_type tap_info)) as [[fvg |] | msg | msg];
      cbn [bind]; [| now apply IH | discriminate | discriminate].
    pose proof (books_fire user_id ids w0 w sym price_tf fvg_tf lvl
                  (tap_price tap_info) (tap_timestamp tap_info)
                  (expected_fvg_type tap_info) fvg signals Hb Hid)
      as [Hb1 Ht1].
    destruct (fire_signal _ _ _ _ _ _ _ _ _ _ _) as [signals1 w1].
    simpl in Hb1, Ht1. intros Hloop.
    destruct (IH _ _ _ _ (books_del_tap _ _ _ _ _ (level_id lvl) Hb1)
                Hids Hloop) as [Hb2 Ht2].
    split; [exact Hb2 |].
    intros id info Hi. apply Ht2 in Hi. simpl in Hi.
    apply lookup_delete_Some in Hi. destruct Hi as [_ Hi]. congruence.
Qed.

Lemma check_fvg_signals_books_of (price_df fvg_df : DataFrame)
    (price_levels : list PriceLevel) (user_id : Z)
    (sym price_tf fvg_tf : string) (w : World) (signals : list Signal)
    (w' : World) :
  check_fvg_signals price_df fvg_df price_levels user_id sym price_tf fvg_tf w
  = Returns (signals, w') ->
  books user_id (map level_id price_levels) w signals w'.
Proof.
  unfold check_fvg_signals.
  destruct (_ || _ || _)%nat; [intros [= <- <-]; apply books_start |].
  destruct (get_current_price price_df) as [[cur |] | msg | msg]; cbn [bind];
    [| intros [= <- <-]; apply books_start | discriminate | discriminate].
  pose proof (check_price_tap_inv price_df price_levels cur
                (triggered_levels w)) as (_ & _ & Hlist & _).
  destruct (check_price_tap price_df price_levels cur (triggered_levels w))
    as [newly_tapped taps]. simpl in Hlist.
  destruct (newly_tapped_loop fvg_df user_id sym price_tf fvg_tf newly_tapped
              [] (mkWorld taps (db w) (discord_sent w)))
    as [[signals1 w1] | msg | msg] eqn:Hloop1; cbn [bind fst snd];
    [| discriminate | discriminate].
  intros Hloop2.
  set (ids := map level_id price_levels).
  assert (Hb0 : books user_id ids w [] (mkWorld taps (db w) (discord_sent w))).
  { pose proof (books_start user_id ids w) as H. unfold books in *. exact H. }
  assert (Hids1 : Forall (fun t => In (level_id (level t)) ids) newly_tapped).
  { apply List.Forall_forall. intros t Ht. apply in_map.
    now destruct (Hlist t Ht) as (idx & row & Hin & _). }
  destruct (newly_tapped_loop_books _ _ _ _ _ ids w _ _ _ _ _ Hb0 Hids1 Hloop1)
    as [Hb1 _].
  assert (Hids2 : Forall (fun lvl => In (level_id lvl) ids) price_levels).
  { apply List.Forall_forall. intros l Hl. now apply in_map. }
  now destruct (previously_tapped_loop_books _ _ _ _ _ ids w _ _ _ _ _
                  Hb1 Hids2 Hloop2).
Qed.

(** X9. Every signal that [check_fvg_signals] returns is saved: the history
    of the store grows by the returned signals, in order, as they were when
    saved; their ids are the row ids that follow the rows already there; the
    notifier receives them all if the user has a webhook and none if not,
    and [notified] says which; the webhooks are not touched. *)
Theorem check_fvg_signals_saves (price_df fvg_df : DataFrame)
    (price_levels : list PriceLevel) (user_id : Z)
    (sym price_tf fvg_tf : string) (w : World) :
  exists signals w',
    check_fvg_signals price_df fvg_df price_levels user_id sym price_tf fvg_tf w
    = Returns (signals, w') /\
    signals_history (db w')
    = signals_history (db w) ++ map as_saved signals /\
    map signal_id signals
    = map Some (seq (S (length (signals_history (db w)))) (length signals)) /\
    discord_sent w' = discord_sent w ++ notified_of (db w) user_id signals /\
    Forall (fun s => notified s
                     = bool_decide (is_Some (decrypt_webhook (db w) user_id)))
      signals /\
    webhooks (db w') = webhooks (db w).
Proof.
  destruct (check_fvg_signals_from price_df fvg_df price_levels user_id sym
              price_tf fvg_tf w) as (signals & w' & E & _).
  exists signals, w'. split; [exact E |].
  apply check_fvg_signals_books_of in E.
  destruct E as (Bh & Bw & Bs & Bn & Bi & _). auto.
Qed.

(** X10. [check_fvg_signals] leaves the rows of the store in place: same
    ids, prices, labels and enabled flags, row by row; a row that was
    triggered stays triggered; and a row whose id is not among the levels
    passed keeps its flag. *)
Theorem check_fvg_signals_only_flags (price_df fvg_df : DataFrame)
    (price_levels : list PriceLevel) (user_id : Z)
    (sym price_tf fvg_tf : string) (w : World) :
  exists signals w',
    check_fvg_signals price_df fvg_df price_levels user_id sym price_tf fvg_tf w
    = Returns (signals, w') /\
    Forall2 (fun a b =>
               level_id a = level_id b /\ price a = price b /\
               label a = label b /\ enabled a = enabled b /\
               (triggered a = true -> triggered b = true) /\
               (~ In (level_id a) (map level_id price_levels) ->
                triggered b = triggered a))
      (price_levels_table (db w)) (price_levels_table (db w')).
Proof.
  destruct (check_fvg_signals_from price_df fvg_df price_levels user_id sym
              price_tf fvg_tf w) as (signals & w' & E & _).
  exists signals, w'. split; [exact E |].
  apply check_fvg_signals_books_of in E.
  now destruct E as (_ & _ & _ & _ & _ & Bt).
Qed.

(** ** Calls that fire nothing *)

Lemma world_eta (w : World) :
  mkWorld (triggered_levels w) (db w) (discord_sent w) = w.
Proof. now destruct w. Qed.

Lemma previously_tapped_all_triggered (fvg_df : DataFrame) (user_id : Z)
    (sym price_tf fvg_tf : string) (price_levels : list PriceLevel)
    (signals : list Signal) (w : World) :
  Forall (fun lvl => triggered lvl = true) price_levels ->
  previously_tapped_loop fvg_df user_id sym price_tf fvg_tf price_levels
    signals w = Returns (signals, w).
Proof.
  induction 1 as [| lvl rest Htr _ IH]; simpl; [reflexivity |].
  now rewrite Htr.
Qed.

Lemma check_price_tap_all_triggered (df : DataFrame)
    (price_levels : list PriceLevel) (cp : Q) (taps : gmap Z TapInfo) :
  Forall (fun lvl => triggered lvl = true) price_levels ->
  check_price_tap df price_levels cp taps = ([], taps).
Proof.
  intros Hall. unfold check_price_tap.
  destruct (_ || _)%nat; [reflexivity |].
  apply check_price_tap_fold_fixed. intros lvl Hin _ Htr.
  rewrite List.Forall_forall in Hall. apply Hall in Hin. congruence.
Qed.

Lemma check_fvg_signals_all_triggered (price_df fvg_df : DataFrame)
    (price_levels : list PriceLevel) (user_id : Z)
    (sym price_tf fvg_tf : string) (w : World) :
  Forall (fun lvl => triggered lvl = true) price_levels ->
  check_fvg_signals price_df fvg_df price_levels user_id sym price_tf fvg_tf w
  = Returns ([], w).
Proof.
  intros Hall. unfold check_fvg_signals.
  destruct (_ || _ || _)%nat; [reflexivity |].
  destruct (get_current_price_returns price_df) as [[cur |] ->]; cbn [bind];
    [| reflexivity].
  rewrite check_price_tap_all_triggered by exact Hall.
  cbn [newly_tapped_loop bind fst snd].
  rewrite previously_tapped_all_triggered by exact Hall.
  now rewrite world_eta.
Qed.

(** X11. A call with nothing to evaluate is a no-op: with fewer than two
    trigger candles, with an empty confirmation series, or when every level
    passed is already triggered (in particular with no level),
    [check_fvg_signals] returns no signal and leaves the tap records, the
    store and the notifier as they were. *)
Theorem check_fvg_signals_idle (price_df fvg_df : DataFrame)
    (price_levels : list PriceLevel) (user_id : Z)
    (sym price_tf fvg_tf : string) (w : World) :
  (length price_df < 2)%nat \/ fvg_df = [] \/
  Forall (fun lvl => triggered lvl = true) price_levels ->
  check_fvg_signals price_df fvg_df price_levels user_id sym price_tf fvg_tf w
  = Returns ([], w).
Proof.
  intros [Hshort | [-> | Hall]].
  - unfold check_fvg_signals, get_current_price.
    destruct (_ || _ || _)%nat; [reflexivity |].
    destruct (Nat.ltb_spec (length price_df) 2) as [_ | H]; [| lia].
    now rewrite orb_true_r.
  - unfold check_fvg_signals. simpl. now rewrite orb_true_r.
  - now apply check_fvg_signals_all_triggered.
Qed.

(** A trigger series of one candle meets the hypothesis of
    [check_fvg_signals_idle]. *)
Lemma check_fvg_signals_idle_witness :
  ((length live_only_frame < 2)%nat \/ gap_frame = [] \/
   Forall (fun lvl => triggered lvl = true) [level_101]) /\
  check_fvg_signals live_only_frame gap_frame [level_101] 7 "BTCUSDT" "1h" "5m"
    fresh_world
  = Returns ([], fresh_world).
Proof.
  assert (H : (length live_only_frame < 2)%nat \/ gap_frame = [] \/
              Forall (fun lvl => triggered lvl = true) [level_101])
    by (left; simpl; lia).
  split; [exact H |].
  apply (check_fvg_signals_idle live_only_frame gap_frame [level_101] 7
           "BTCUSDT" "1h" "5m" fresh_world H).
Defined.

Lemma newly_tapped_loop_quiet (fvg_df : DataFrame) (user_id : Z)
    (sym price_tf fvg_tf : string) (newly_tapped : list TriggeredInfo)
    (signals : list Signal) (w : World) :
  (forall ts expected, check_fvg_after_tap fvg_df ts expected = Returns None) ->
  newly_tapped_loop fvg_df user_id sym price_tf fvg_tf newly_tapped signals w
  = Returns (signals, w).
Proof.
  intros Hq. induction newly_tapped as [| t rest IH]; simpl; [reflexivity |].
  now rewrite Hq.
Qed.

Lemma previously_tapped_loop_quiet (fvg_df : DataFrame) (user_id : Z)
    (sym price_tf fvg_tf : string) (price_levels : list PriceLevel)
    (signals : list Signal) (w : World) :
  (forall ts expected, check_fvg_after_tap fvg_df ts expected = Returns None) ->
  previously_tapped_loop fvg_df user_id sym price_tf fvg_tf price_levels
    signals w = Returns (signals, w).
Proof.
  intros Hq. induction price_levels as [| lvl rest IH]; simpl; [reflexivity |].
  destruct (triggered lvl); [exact IH |].
  destruct (triggered_levels w !! level_id lvl); [| exact IH].
  now rewrite Hq.
Qed.

Lemma short_series_confirms_nothing (fvg_df : DataFrame) :
  (length fvg_df < 4)%nat ->
  forall ts expected, check_fvg_after_tap fvg_df ts expected = Returns None.
Proof.
  intros Hlen ts expected. unfold check_fvg_after_tap.
  destruct (length fvg_df =? 0)%nat; [reflexivity |].
  pose proof (List.filter_length_le
                (fun row => (ts <? timestamp row)%Z) fvg_df) as Hle.
  fold (post_tap fvg_df ts) in Hle.
  destruct (Nat.ltb_spec (length (post_tap fvg_df ts)) 4); [reflexivity | lia].
Qed.

(** X12. While no gap confirms, taps wait: if the confirmation series shows
    no FVG after any tap (as when it has fewer than four candles), the call
    returns no signal and touches neither the store nor the notifier; the
    tap records it was given are all still there, joined by the taps found in
    this call. *)
Theorem pending_taps_persist (price_df fvg_df : DataFrame)
    (price_levels : list PriceLevel) (user_id : Z)
    (sym price_tf fvg_tf : string) (w : World) :
  ((length fvg_df < 4)%nat \/
   forall ts expected, check_fvg_after_tap fvg_df ts expected = Returns None) ->
  exists w',
    check_fvg_signals price_df fvg_df price_levels user_id sym price_tf fvg_tf w
    = Returns ([], w') /\
    db w' = db w /\ discord_sent w' = discord_sent w /\
    (forall id info, triggered_levels w !! id = Some info ->
                     triggered_levels w' !! id = Some info) /\
    (forall cur, get_current_price price_df = Returns (Some cur) ->
                 fvg_df <> [] -> price_levels <> [] ->
                 triggered_levels w'
                 = snd (check_price_tap price_df price_levels cur
                          (triggered_levels w))).
Proof.
  intros Hq.
  assert (Hquiet : forall ts expected,
             check_fvg_after_tap fvg_df ts expected = Returns None).
  { destruct Hq as [Hlen | Hq]; [| exact Hq].
    now apply short_series_confirms_nothing. }
  clear Hq. unfold check_fvg_signals.
  destruct (Nat.eqb_spec (length price_df) 0) as [Hp | Hp];
    [exists w; simpl; repeat split; auto;
     intros cur Hcur; apply current_price_two_candles in Hcur; lia |].
  destruct (Nat.eqb_spec (length fvg_df) 0) as [Hf | Hf];
    [exists w; simpl; repeat split; auto;
     intros cur _ Hne; apply length_zero_iff_nil in Hf; congruence |].
  destruct (Nat.eqb_spec (length price_levels) 0) as [Hl | Hl];
    [exists w; simpl; repeat split; auto;
     intros cur _ _ Hne; apply length_zero_iff_nil in Hl; congruence |].
  simpl orb. cbv iota.
  destruct (get_current_price_returns price_df) as [[cur |] ->]; cbn [bind];
    [| exists w; repeat split; auto; discriminate].
  pose proof (check_price_tap_inv price_df price_levels cur (triggered_levels w))
    as (I1 & _).
  destruct (check_price_tap price_df price_levels cur (triggered_levels w))
    as [newly_tapped taps] eqn:Htap. simpl in I1.
  rewrite newly_tapped_loop_quiet by exact Hquiet. cbn [bind fst snd].
  rewrite previously_tapped_loop_quiet by exact Hquiet.
  eexists. split; [reflexivity |]. simpl. repeat split; auto.
  intros c [= <-] _ _. now rewrite Htap.
Qed.

(** The three candles of [short_frame] meet the hypothesis of
    [pending_taps_persist]: the tap of [level_101] is recorded and waits. *)
Lemma pending_taps_persist_witness :
  ((length short_frame < 4)%nat \/
   forall ts expected,
     check_fvg_after_tap short_frame ts expected = Returns None) /\
  exists w',
    check_fvg_signals tap_frame short_frame [level_101] 7 "BTCUSDT" "1h" "5m"
      fresh_world = Returns ([], w') /\
    db w' = db fresh_world.
Proof.
  assert (H : (length short_frame < 4)%nat \/
              forall ts expected,
                check_fvg_after_tap short_frame ts expected = Returns None)
    by (left; simpl; lia).
  split; [exact H |].
  destruct (pending_taps_persist tap_frame short_frame [level_101] 7 "BTCUSDT"
              "1h" "5m" fresh_world H) as (w' & E & Hdb & _).
  exists w'. split; [exact E | exact Hdb].
Defined.

(** ** A pending tap fires once *)

Lemma fire_signal_store (user_id : Z) (sym price_tf fvg_tf : string)
    (lvl : PriceLevel) (trig : Q) (tap_ts : Z) (expected : option FvgType)
    (fvg : FVG) (signals : list Signal) (w : World) :
  price_levels_table
    (db (snd (fire_signal user_id sym price_tf fvg_tf lvl trig tap_ts expected
                fvg signals w)))
  = map (fun l => if (level_id l =? level_id lvl)%Z then set_triggered true l
                  else l)
      (price_levels_table (db w)).
Proof.
  unfold fire_signal. simpl. now destruct (decrypt_webhook _ user_id).
Qed.

Lemma evaluations_all_triggered (user_id : Z) (sym price_tf fvg_tf : string)
    (ticks : list (DataFrame * DataFrame)) (w : World) :
  Forall (fun lvl => triggered lvl = true) (price_levels_table (db w)) ->
  evaluations user_id sym price_tf fvg_tf ticks w = Returns ([], w).
Proof.
  intros Hall. induction ticks as [| frames rest IH]; simpl; [reflexivity |].
  unfold get_price_levels.
  rewrite check_fvg_signals_all_triggered by exact Hall.
  cbn [bind fst snd]. rewrite IH. reflexivity.
Qed.

(** X13. On one engine object, a tap that waits fires once. When the store
    holds one level, not triggered, whose tap record the engine holds and
    the confirmation series confirms, a call of [check_fvg_signals] with
    that level and at least two trigger candles returns exactly one signal,
    with the price of the level, the tap of the record and the gap found; it
    deletes the record and flags the level in the store; and every later
    call on that engine, with the levels read from the store and whatever
    series, returns nothing and changes nothing. *)
Theorem pending_tap_fires_once (price_df fvg_df : DataFrame) (lvl : PriceLevel)
    (tap : TapInfo) (fvg : FVG) (user_id : Z) (sym price_tf fvg_tf : string)
    (w : World) :
  price_levels_table (db w) = [lvl] ->
  triggered lvl = false ->
  triggered_levels w !! level_id lvl = Some tap ->
  (2 <= length price_df)%nat ->
  check_fvg_after_tap fvg_df (tap_timestamp tap) (expected_fvg_type tap)
  = Returns (Some fvg) ->
  exists s w',
    check_fvg_signals price_df fvg_df [lvl] user_id sym price_tf fvg_tf w
    = Returns ([s], w') /\
    price_level s = price lvl /\ trigger_price s = tap_price tap /\
    sig_tap_timestamp s = tap_timestamp tap /\
    sig_fvg_timestamp s = fvg_timestamp fvg /\
    triggered_levels w' !! level_id lvl = None /\
    price_levels_table (db w') = [set_triggered true lvl] /\
    forall ticks,
      evaluations user_id sym price_tf fvg_tf ticks w' = Returns ([], w').
Proof.
  intros Hstore Htr Htap Hlen Hchk.
  unfold check_fvg_signals.
  destruct (Nat.eqb_spec (length price_df) 0) as [H | _]; [lia |].
  destruct (Nat.eqb_spec (length fvg_df) 0) as [H | _].
  { apply length_zero_iff_nil in H. subst fvg_df. discriminate Hchk. }
  simpl orb. cbv iota.
  destruct (get_current_price_returns price_df) as [cur Hcur].
  assert (Hsome : exists c, cur = Some c).
  { unfold get_current_price in Hcur.
    destruct (Nat.eqb_spec (length price_df) 0) as [H | _]; [lia |].
    destruct (Nat.ltb_spec (length price_df) 2) as [H | _]; [lia |].
    simpl in Hcur.
    destruct (iloc price_df (length price_df - 2)); simpl in Hcur;
      [injection Hcur as <-; eauto | discriminate | discriminate]. }
  destruct Hsome as [c ->]. rewrite Hcur. cbn [bind].
  assert (Hscan : check_price_tap price_df [lvl] c (triggered_levels w)
                  = ([], triggered_levels w)).
  { unfold check_price_tap. destruct (_ || _)%nat; [reflexivity |].
    apply check_price_tap_fold_fixed.
    intros l [<- | []] _ _ Hnone. congruence. }
  rewrite Hscan. cbn [newly_tapped_loop bind fst snd previously_tapped_loop].
  rewrite world_eta, Htr, Htap, Hchk. cbn [bind].
  pose proof (fire_signal_store user_id sym price_tf fvg_tf lvl (tap_price tap)
                (tap_timestamp tap) (expected_fvg_type tap) fvg [] w) as Hdb.
  destruct (fire_signal_result user_id sym price_tf fvg_tf lvl (tap_price tap)
              (tap_timestamp tap) (expected_fvg_type tap) fvg [] w)
    as (s & w1 & E & Hkeep & Hp & Hg & Ht & Hf).
  rewrite E in *. cbn [snd app] in *.
  assert (Hrows : price_levels_table (db (del_tap (level_id lvl) w1))
                  = [set_triggered true lvl]).
  { simpl. rewrite Hdb, Hstore. simpl. now rewrite Z.eqb_refl. }
  exists s, (del_tap (level_id lvl) w1).
  split; [reflexivity |].
  repeat (split; [assumption |]).
  split; [simpl; apply lookup_delete_eq |].
  split; [exact Hrows |].
  intros ticks. apply evaluations_all_triggered. rewrite Hrows.
  constructor; [reflexivity | constructor].
Qed.

(** The engine [pending_world], whose tap of [level_101] is confirmed by
    [gap_frame], meets the hypotheses of [pending_tap_fires_once]. *)
Lemma pending_tap_fires_once_witness :
  price_levels_table (db pending_world) = [level_101] /\
  triggered level_101 = false /\
  triggered_levels pending_world !! level_id level_101
  = Some (mkTap 0 10 101 (Some Bullish)) /\
  (2 <= length tap_frame)%nat /\
  check_fvg_after_tap gap_frame 10 (Some Bullish)
  = Returns (Some (mkFVG Bullish 2 13 100 103 (103 - 100)
                     (candle 11 99 100 98 99) (candle 12 99 99 95 96)
                     (candle 13 103 105 103 104))) /\
  exists s w',
    check_fvg_signals tap_frame gap_frame [level_101] 7 "BTCUSDT" "1h" "5m"
      pending_world
    = Returns ([s], w') /\
    forall ticks, evaluations 7 "BTCUSDT" "1h" "5m" ticks w' = Returns ([], w').
Proof.
  assert (H3 : triggered_levels pending_world !! level_id level_101
               = Some (mkTap 0 10 101 (Some Bullish)))
    by (vm_compute; reflexivity).
  assert (H4 : (2 <= length tap_frame)%nat) by (simpl; lia).
  split; [reflexivity |]. split; [reflexivity |]. split; [exact H3 |].
  split; [exact H4 |]. split; [reflexivity |].
  destruct (pending_tap_fires_once tap_frame gap_frame level_101
              (mkTap 0 10 101 (Some Bullish))
              (mkFVG Bullish 2 13 100 103 (103 - 100)
                 (candle 11 99 100 98 99) (candle 12 99 99 95 96)
                 (candle 13 103 105 103 104))
              7 "BTCUSDT" "1h" "5m" pending_world
              eq_refl eq_refl H3 H4 eq_refl)
    as (s & w' & E & _ & _ & _ & _ & _ & _ & Hlater).
  exists s, w'. split; [exact E | exact Hlater].
Defined.

(** ** The current price and the badge of a level *)

(** X14. [get_current_price] is the close of the candle before the last one,
    whatever the last (live) candle is, and is [None], without raising, on a
    series of fewer than two candles. *)
Theorem get_current_price_last_completed :
  (forall (pre : DataFrame) (c live : Candle),
      get_current_price (pre ++ [c; live]) = Returns (Some (close c))) /\
  (forall df : DataFrame,
      (length df < 2)%nat -> get_current_price df = Returns None).
Proof.
  split.
  - intros pre c live. unfold get_current_price, iloc.
    rewrite length_app. simpl length.
    destruct (Nat.eqb_spec (length pre + 2) 0) as [H | _]; [lia |].
    destruct (Nat.ltb_spec (length pre + 2) 2) as [H | _]; [lia |].
    simpl orb. cbv iota.
    replace (length pre + 2 - 2)%nat with (length pre) by lia.
    now rewrite list_lookup_middle.
  - intros df Hlen. unfold get_current_price.
    destruct (Nat.ltb_spec (length df) 2) as [_ | H]; [| lia].
    now rewrite orb_true_r.
Qed.

(** X15. The badge that the host shows beside a level agrees with the engine:
    for a known current price it names the direction that
    [determine_fvg_type] expects for the level, and without a current price
    it says unknown. *)
Theorem badge_agrees_with_engine (price_level : Q) :
  (forall current_price,
      get_fvg_type_indicator price_level (Some current_price)
      = badge_of (determine_fvg_type price_level current_price)) /\
  (forall current_price expected,
      get_fvg_type_indicator price_level (Some current_price)
      = badge_of expected ->
      determine_fvg_type price_level current_price = expected) /\
  get_fvg_type_indicator price_level None = "⚪ Unknown".
Proof.
  split; [| split; [| reflexivity]].
  - intros cp. unfold get_fvg_type_indicator, determine_fvg_type.
    destruct (Qgtb price_level (float_mul cp (to_double 1.001)));
      [reflexivity |].
    destruct (Qltb price_level (float_mul cp (to_double 0.999))); reflexivity.
  - intros cp expected. unfold get_fvg_type_indicator, determine_fvg_type.
    destruct (Qgtb price_level (float_mul cp (to_double 1.001)));
      [| destruct (Qltb price_level (float_mul cp (to_double 0.999)))];
      destruct expected as [[|] |]; simpl; intros H;
      first [reflexivity | discriminate H].
Qed.

(** ** Trading recommendations *)

Lemma round_half_even_integer (x : Q) (n : Z) :
  x == inject_Z n -> round_half_even x = n.
Proof.
  intros Hx. unfold round_half_even.
  assert (Hf : Qfloor x = n) by (rewrite Hx; apply Qfloor_Z).
  rewrite Hf.
  assert (Hr : Qltb (x - inject_Z n) 0.5 = true) by (apply Qltb_lt; lra).
  now rewrite Hr.
Qed.

(** X17. For a type other than Bullish and Bearish, and for a gap of size
    zero, [get_trading_recommendation] gives no ratio: the empty
    recommendation with every number 0 in the first case, a risk/reward of 0
    in the second. *)
Theorem recommendation_without_ratio (cp lo hi : Q) :
  (forall ty : string,
      ty <> "Bullish" -> ty <> "Bearish" ->
      get_trading_recommendation ty cp lo hi = mkRecommendation "" 0 0 0 0) /\
  risk_reward (get_trading_recommendation "Bullish" cp lo lo) = 0 /\
  risk_reward (get_trading_recommendation "Bearish" cp lo lo) = 0.
Proof.
  split; [| split].
  - intros ty H1 H2. apply String.eqb_neq in H1, H2.
    unfold get_trading_recommendation. rewrite H1, H2. reflexivity.
  - unfold get_trading_recommendation. simpl String.eqb. cbv iota.
    cbn [entry stop_loss take_profit].
    assert (G : Qgtb (Qabs (lo - (lo - (lo - lo) * 0.5))) 0 = false).
    { apply Qgtb_le. rewrite Qabs_pos; lra. }
    now rewrite G.
  - unfold get_trading_recommendation. simpl String.eqb. cbv iota.
    cbn [entry stop_loss take_profit].
    assert (G : Qgtb (Qabs (lo - (lo + (lo - lo) * 0.5))) 0 = false).
    { apply Qgtb_le. rewrite Qabs_pos; lra. }
    now rewrite G.
Qed.

(** ** Support and resistance *)

Lemma series_max_bound (values : list Q) (m : Q) :
  series_max values = Some m ->
  In m values /\ forall x, In x values -> x <= m.
Proof.
  revert m. induction values as [| v rest IH]; intros m; simpl; [discriminate |].
  destruct (series_max rest) as [m' |] eqn:Hrest.
  - destruct (IH m' eq_refl) as [Hin Hle].
    destruct (Qltb m' v) eqn:Hc; intros [= <-].
    + apply Qltb_lt in Hc. split; [now left |].
      intros x [<- | Hx]; [apply Qle_refl |].
      apply Qle_trans with m'; [now apply Hle | now apply Qlt_le_weak].
    + apply Qltb_ge in Hc. split; [now right |].
      intros x [<- | Hx]; [exact Hc | now apply Hle].
  - intros [= <-].
    destruct rest as [| r rest'];
      [| simpl in Hrest; destruct (series_max rest'); discriminate Hrest].
    split; [now left |]. intros x [<- | []]. apply Qle_refl.
Qed.

Lemma series_min_bound (values : list Q) (m : Q) :
  series_min values = Some m ->
  In m values /\ forall x, In x values -> m <= x.
Proof.
  revert m. induction values as [| v rest IH]; intros m; simpl; [discriminate |].
  destruct (series_min rest) as [m' |] eqn:Hrest.
  - destruct (IH m' eq_refl) as [Hin Hle].
    destruct (Qltb v m') eqn:Hc; intros [= <-].
    + apply Qltb_lt in Hc. split; [now left |].
      intros x [<- | Hx]; [apply Qle_refl |].
      apply Qle_trans with m'; [now apply Qlt_le_weak | now apply Hle].
    + apply Qltb_ge in Hc. split; [now right |].
      intros x [<- | Hx]; [exact Hc | now apply Hle].
  - intros [= <-].
    destruct rest as [| r rest'];
      [| simpl in Hrest; destruct (series_min rest'); discriminate Hrest].
    split; [now left |]. intros x [<- | []]. apply Qle_refl.
Qed.

Lemma series_max_some (values : list Q) :
  values <> [] -> exists m, series_max values = Some m.
Proof.
  destruct values as [| v rest]; [congruence |]. intros _. simpl.
  destruct (series_max rest); eauto.
Qed.

Lemma series_min_some (values : list Q) :
  values <> [] -> exists m, series_min values = Some m.
Proof.
  destruct values as [| v rest]; [congruence |]. intros _. simpl.
  destruct (series_min rest); eauto.
Qed.

(** The rows of a slice are the rows of the frame at the indices of the
    slice. *)
Lemma slice_rows (df : DataFrame) (a b : nat) (row : Candle) :
  In row (iloc_slice df a b)
  <-> exists j, (a <= j < b)%nat /\ df !! j = Some row.
Proof.
  unfold iloc_slice. rewrite <- list_elem_of_In, list_elem_of_lookup. split.
  - intros (k & Hk). apply lookup_take_Some in Hk. destruct Hk as [Hk Hlt].
    rewrite lookup_drop in Hk. exists (a + k)%nat. split; [lia | exact Hk].
  - intros (j & Hj & Hrow). exists (j - a)%nat.
    rewrite lookup_take_lt by lia. rewrite lookup_drop.
    now replace (a + (j - a))%nat with j by lia.
Qed.

Lemma is_peak (dc : DataFrame) (window i : nat) (row : Candle) :
  dc !! i = Some row ->
  float_eq (high row)
    (series_max (map high (iloc_slice dc (i - window) (i + window + 1))))
  = true
  <-> forall j r, (i - window <= j <= i + window)%nat -> dc !! j = Some r ->
                  high r <= high row.
Proof.
  intros Hrow.
  assert (Hself : In (high row)
                    (map high (iloc_slice dc (i - window) (i + window + 1)))).
  { apply in_map, slice_rows. exists i. split; [lia | exact Hrow]. }
  destruct (series_max_some _ (fun E => eq_ind _ (fun l => In (high row) l)
                                           Hself _ E))
    as [m Hm].
  rewrite Hm. simpl. rewrite Qeq_bool_iff.
  destruct (series_max_bound _ _ Hm) as [Hin Hle]. split.
  - intros Heq j r Hj Hr. rewrite Heq. apply Hle.
    apply in_map, slice_rows. exists j. split; [lia | exact Hr].
  - intros Hall. apply Qle_antisym; [now apply Hle |].
    apply in_map_iff in Hin. destruct Hin as (r & <- & Hr).
    apply slice_rows in Hr. destruct Hr as (j & Hj & Hr).
    apply (Hall j r); [lia | exact Hr].
Qed.

Lemma is_trough (dc : DataFrame) (window i : nat) (row : Candle) :
  dc !! i = Some row ->
  float_eq (low row)
    (series_min (map low (iloc_slice dc (i - window) (i + window + 1))))
  = true
  <-> forall j r, (i - window <= j <= i + window)%nat -> dc !! j = Some r ->
                  low row <= low r.
Proof.
  intros Hrow.
  assert (Hself : In (low row)
                    (map low (iloc_slice dc (i - window) (i + window + 1)))).
  { apply in_map, slice_rows. exists i. split; [lia | exact Hrow]. }
  destruct (series_min_some _ (fun E => eq_ind _ (fun l => In (low row) l)
                                           Hself _ E))
    as [m Hm].
  rewrite Hm. simpl. rewrite Qeq_bool_iff.
  destruct (series_min_bound _ _ Hm) as [Hin Hle]. split.
  - intros Heq j r Hj Hr. rewrite Heq. apply Hle.
    apply in_map, slice_rows. exists j. split; [lia | exact Hr].
  - intros Hall. apply Qle_antisym; [| now apply Hle].
    apply in_map_iff in Hin. destruct Hin as (r & <- & Hr).
    apply slice_rows in Hr. destruct Hr as (j & Hj & Hr).
    apply (Hall j r); [lia | exact Hr].
Qed.

Lemma support_resistance_body_at (dc : DataFrame) (window : nat)
    (levels : list SRLevel) (i : nat) :
  (i < length dc)%nat ->
  support_resistance_body dc window levels i
  = Returns (levels ++ sr_at dc window i).
Proof.
  intros Hi. destruct (iloc_inside dc i Hi) as (row & L & E).
  unfold support_resistance_body, sr_at. rewrite E, L. cbn [bind].
  destruct (float_eq (high row) _), (float_eq (low row) _); simpl;
    rewrite <- ?List.app_assoc, ?app_nil_r; reflexivity.
Qed.

Lemma support_resistance_loop_at (dc : DataFrame) (window : nat)
    (idxs : list nat) :
  Forall (fun i => (i < length dc)%nat) idxs ->
  forall levels,
    support_resistance_loop dc window idxs levels
    = Returns (levels ++ flat_map (sr_at dc window) idxs).
Proof.
  induction 1 as [| i rest Hi _ IH]; intros levels; simpl.
  - now rewrite app_nil_r.
  - rewrite support_resistance_body_at by exact Hi. cbn [bind].
    rewrite IH. now rewrite <- List.app_assoc.
Qed.

Lemma calculate_support_resistance_at (df : DataFrame) (window : nat) :
  calculate_support_resistance df window
  = Returns (flat_map (sr_at (iloc_drop_last df) window)
               (range window (length (iloc_drop_last df) - window))).
Proof.
  unfold calculate_support_resistance.
  pose proof (length_drop_last df) as Hlen.
  destruct (Nat.ltb_spec (length df) (window + 1)) as [Hshort | _].
  - unfold range.
    replace (length (iloc_drop_last df) - window - window)%nat with 0%nat by lia.
    reflexivity.
  - rewrite support_resistance_loop_at; [reflexivity |].
    apply List.Forall_forall. intros i Hi. unfold range in Hi.
    apply in_seq in Hi. lia.
Qed.

Lemma drop_last_lookup (df : DataFrame) (j : nat) :
  (j < length df - 1)%nat -> iloc_drop_last df !! j = df !! j.
Proof. intros Hj. unfold iloc_drop_last. now rewrite lookup_take_lt. Qed.

(** X18. [calculate_support_resistance] returns, without raising, exactly
    the local extrema of the completed candles: a resistance at the high of
    each candle whose high is the greatest of the [2 * window + 1] candles
    centred on it, a support at the low of each candle whose low is the least
    of them, for the centres that leave a full window on both sides before
    the last candle; on fewer than [window + 1] candles it returns nothing. *)
Theorem support_resistance_extrema (df : DataFrame) (window : nat) :
  exists levels,
    calculate_support_resistance df window = Returns levels /\
    (forall l, In l levels ->
       exists i row,
         (window <= i)%nat /\ (i + window < length df - 1)%nat /\
         df !! i = Some row /\ sr_timestamp l = timestamp row /\
         ((sr_type l = resistance /\ sr_price l = high row /\
           forall j r, (i - window <= j <= i + window)%nat ->
                       df !! j = Some r -> high r <= high row)
          \/
          (sr_type l = support /\ sr_price l = low row /\
           forall j r, (i - window <= j <= i + window)%nat ->
                       df !! j = Some r -> low row <= low r))) /\
    (forall i row,
        (window <= i)%nat -> (i + window < length df - 1)%nat ->
        df !! i = Some row ->
        ((forall j r, (i - window <= j <= i + window)%nat ->
                      df !! j = Some r -> high r <= high row) ->
         In (mkSR resistance (high row) (timestamp row)) levels) /\
        ((forall j r, (i - window <= j <= i + window)%nat ->
                      df !! j = Some r -> low row <= low r) ->
         In (mkSR support (low row) (timestamp row)) levels)) /\
    ((length df < window + 1)%nat -> levels = []).
Proof.
  eexists. split; [apply calculate_support_resistance_at |].
  pose proof (length_drop_last df) as Hlen.
  set (dc := iloc_drop_last df) in *.
  assert (Hwin : forall i j : nat,
             (i + window < length df - 1)%nat -> (j <= i + window)%nat ->
             dc !! j = df !! j).
  { intros i j Hi Hj. apply drop_last_lookup. lia. }
  split; [| split].
  - intros l Hl. apply in_flat_map in Hl. destruct Hl as (i & Hi & Hl).
    unfold range in Hi. apply in_seq in Hi.
    assert (Hiw : (i + window < length df - 1)%nat) by lia.
    unfold sr_at in Hl. destruct (dc !! i) as [row |] eqn:Hrow; [| destruct Hl].
    exists i, row. split; [lia |]. split; [exact Hiw |].
    split; [rewrite <- (Hwin i i Hiw) by lia; exact Hrow |].
    apply in_app_or in Hl. destruct Hl as [Hl | Hl].
    + destruct (float_eq (high row) _) eqn:Hpeak; [| destruct Hl].
      destruct Hl as [<- | []]. split; [reflexivity |]. left.
      split; [reflexivity |]. split; [reflexivity |].
      intros j r Hj Hr. apply (proj1 (is_peak dc window i row Hrow) Hpeak j r Hj).
      rewrite (Hwin i j Hiw) by lia. exact Hr.
    + destruct (float_eq (low row) _) eqn:Htrough; [| destruct Hl].
      destruct Hl as [<- | []]. split; [reflexivity |]. right.
      split; [reflexivity |]. split; [reflexivity |].
      intros j r Hj Hr.
      apply (proj1 (is_trough dc window i row Hrow) Htrough j r Hj).
      rewrite (Hwin i j Hiw) by lia. exact Hr.
  - intros i row Hi Hiw Hrow.
    assert (Hrow' : dc !! i = Some row)
      by (rewrite (Hwin i i Hiw) by lia; exact Hrow).
    assert (Hin : In i (range window (length dc - window))).
    { unfold range. apply in_seq. lia. }
    split; intros Hall; apply in_flat_map; exists i; (split; [exact Hin |]);
      unfold sr_at; rewrite Hrow'; apply in_or_app.
    + left. rewrite (proj2 (is_peak dc window i row Hrow')); [now left |].
      intros j r Hj Hr. apply (Hall j r Hj).
      rewrite <- (Hwin i j Hiw) by lia. exact Hr.
    + right. rewrite (proj2 (is_trough dc window i row Hrow')); [now left |].
      intros j r Hj Hr. apply (Hall j r Hj).
      rewrite <- (Hwin i j Hiw) by lia. exact Hr.
  - intros Hshort. unfold range.
    replace (length dc - window - window)%nat with 0%nat by lia. reflexivity.
Qed.

(** With a window of one candle, [peak_frame] has its resistance at 110 and
    its support at 90. *)
Example support_resistance_peak_frame :
  calculate_support_resistance peak_frame 1
  = Returns [ mkSR resistance 110 2; mkSR support 90 3 ].
Proof. reflexivity. Qed.

(** ** More on alert conditions *)

Lemma series_reads (pre : list Q) (c : Q) :
  data_empty (Series (pre ++ [c])) = false /\
  iloc_back (pre ++ [c]) 1 = Returns c /\
  exists prev, previous_of (Series (pre ++ [c])) (pre ++ [c]) = Returns prev.
Proof.
  split; [| split].
  - simpl. rewrite length_app. simpl. apply Nat.eqb_neq. lia.
  - now apply (iloc_back_last pre c).
  - destruct (previous_of_returns (Series (pre ++ [c])) (pre ++ [c]) eq_refl)
      as (prev & E & _). eauto.
Qed.



(** X20. A crossover rule needs a previous sample and fires one way at most:
    on a series of one sample it returns [(False, None)] for every
    condition, and on a longer series [crosses_above] and [crosses_below]
    never both fire for the same threshold. *)
Theorem crossover_one_way (pre : list Q) (previous current threshold : Q)
    (cond line cmp : option string) :
  check_alert_conditions (Some (Series [current]))
    (mkAlert (Some "crossover") cond (Some threshold) line cmp)
  = Returns (false, None) /\
  exists up down,
    check_alert_conditions (Some (Series (pre ++ [previous; current])))
      (mkAlert (Some "crossover") (Some "crosses_above") (Some threshold)
         line cmp)
    = Returns (up, Some (CrossDetails current previous threshold)) /\
    check_alert_conditions (Some (Series (pre ++ [previous; current])))
      (mkAlert (Some "crossover") (Some "crosses_below") (Some threshold)
         line cmp)
    = Returns (down, Some (CrossDetails current previous threshold)) /\
    up && down = false.
Proof.
  split; [reflexivity |].
  rewrite !crossover_on_series. simpl.
  do 2 eexists. split; [reflexivity |]. split; [reflexivity |].
  apply not_true_iff_false. intros H.
  apply andb_true_iff in H. destruct H as [Ha Hb].
  apply crossed_iff in Ha, Hb. lra.
Qed.

Lemma get_column_found (cols : list (string * list Q)) (name : string)
    (values : list Q) :
  get_column cols name = Returns values ->
  has_column cols name = true /\ In values (map snd cols).
Proof.
  induction cols as [| [n v] rest IH]; simpl; [discriminate |].
  destruct (String.eqb n name); simpl.
  - intros [= <-]. auto.
  - intros H. destruct (IH H). auto.
Qed.

Lemma get_column_missing (cols : list (string * list Q)) (name : string) :
  has_column cols name = false ->
  get_column cols name = Raises ("KeyError: " ++ name).
Proof.
  induction cols as [| [n v] rest IH]; simpl; [reflexivity |].
  destruct (String.eqb n name); simpl; [discriminate | exact IH].
Qed.

Lemma aligned_column (cols : list (string * list Q)) (name : string)
    (values : list Q) :
  frame_aligned (Frame cols) -> get_column cols name = Returns values ->
  length values = data_len (Frame cols).
Proof.
  intros Hal Hget. apply get_column_found in Hget. destruct Hget as [_ Hin].
  apply in_map_iff in Hin. destruct Hin as (c & <- & Hc).
  unfold frame_aligned in Hal. rewrite List.Forall_forall in Hal.
  now apply Hal.
Qed.

Lemma previous_of_two (d : IndicatorData) (pre : list Q) (x y : Q) :
  length (pre ++ [x; y]) = data_len d ->
  previous_of d (pre ++ [x; y]) = Returns (Some x).
Proof.
  intros Hlen. unfold previous_of. rewrite <- Hlen, length_app. simpl length.
  destruct (Nat.ltb_spec 1 (length pre + 2)) as [_ | H]; [| lia].
  now rewrite iloc_back_previous.
Qed.

Lemma iloc_back_last_two (pre : list Q) (x y : Q) :
  iloc_back (pre ++ [x; y]) 1 = Returns y.
Proof.
  apply (iloc_back_last (pre ++ [x]) y). now rewrite <- List.app_assoc.
Qed.

Lemma main_line_read (cols : list (string * list Q)) (name : string)
    (cfg : AlertConfig) :
  cols <> [] -> cfg_line cfg = Some name ->
  match cols with
  | (first_column, _) :: _ =>
      get_column cols (default first_column (cfg_line cfg))
  | [] => Raises "IndexError: list index out of range"
  end = get_column cols name.
Proof.
  intros Hcols Hline. destruct cols as [| [first v0] rest]; [congruence |].
  now rewrite Hline.
Qed.

Lemma compare_on_frame (cols : list (string * list Q))
    (main other cond : string) (pm pc : list Q) (p c q r : Q) (thr : option Q) :
  frame_aligned (Frame cols) ->
  get_column cols main = Returns (pm ++ [p; c]) ->
  get_column cols other = Returns (pc ++ [q; r]) ->
  other <> "" ->
  check_alert_conditions (Some (Frame cols))
    (mkAlert (Some "compare") (Some cond) thr (Some main) (Some other))
  = if String.eqb cond "crosses_above" then
      Returns (Qleb p q && Qltb r c, Some (CompareDetails c r))
    else if String.eqb cond "crosses_below" then
      Returns (Qleb q p && Qltb c r, Some (CompareDetails c r))
    else Returns (false, None).
Proof.
  intros Hal Hmain Hother Hname.
  pose proof (aligned_column _ _ _ Hal Hmain) as Lm.
  pose proof (aligned_column _ _ _ Hal Hother) as Lo.
  destruct (get_column_found _ _ _ Hother) as [Hhas _].
  apply String.eqb_neq in Hname.
  assert (Hne : data_empty (Frame cols) = false).
  { unfold data_empty. rewrite <- Lm, length_app. simpl length.
    destruct cols; [discriminate Hmain |]. simpl.
    apply Nat.eqb_neq. lia. }
  assert (Hcols : cols <> []) by (intros ->; discriminate Hmain).
  rewrite ?check_alert_conditions_config. unfold check_alert_config. rewrite Hne.
  rewrite (main_line_read cols main
             (mkAlert (Some "compare") (Some cond) thr (Some main) (Some other))
             Hcols eq_refl), Hmain.
  cbn [bind].
  rewrite iloc_back_last_two. cbn [bind].
  rewrite (previous_of_two _ _ _ _ Lm). cbn [bind].
  simpl String.eqb. cbn [andb is_frame]. cbv iota.
  unfold compare_branch. cbn [cfg_compare_with].
  rewrite Hname, Hhas. cbn [negb andb]. rewrite Hother. cbn [bind].
  rewrite iloc_back_last_two. cbn [bind].
  rewrite (previous_of_two _ _ _ _ Lo). cbn [bind].
  reflexivity.
Qed.

(** X21. On a frame as pandas holds it, a compare rule between the line
    [main] and another column fires [crosses_above] iff the main line was at
    or under the other on the previous row and is over it on the last row,
    and [crosses_below] iff the mirror holds; the details carry the two last
    values. *)
Theorem compare_rule_on_frame (cols : list (string * list Q))
    (main other : string) (pm pc : list Q) (p c q r : Q) (thr : option Q) :
  frame_aligned (Frame cols) ->
  get_column cols main = Returns (pm ++ [p; c]) ->
  get_column cols other = Returns (pc ++ [q; r]) ->
  other <> "" ->
  (exists fired,
      check_alert_conditions (Some (Frame cols))
        (mkAlert (Some "compare") (Some "crosses_above") thr (Some main)
           (Some other))
      = Returns (fired, Some (CompareDetails c r)) /\
      (fired = true <-> p <= q /\ r < c)) /\
  (exists fired,
      check_alert_conditions (Some (Frame cols))
        (mkAlert (Some "compare") (Some "crosses_below") thr (Some main)
           (Some other))
      = Returns (fired, Some (CompareDetails c r)) /\
      (fired = true <-> q <= p /\ c < r)).
Proof.
  intros Hal Hmain Hother Hname.
  rewrite !(compare_on_frame cols main other _ pm pc p c q r thr
              Hal Hmain Hother Hname).
  simpl.
  split; eexists; (split; [reflexivity |]); apply crossed_iff.
Qed.

(** On [macd_frame] the line [macd] goes from 1 to 2 while [signal] goes
    from 2 to 1: the hypotheses of [compare_rule_on_frame] hold, and
    [crosses_above] fires. *)
Lemma compare_rule_on_frame_witness :
  frame_aligned macd_frame /\
  get_column [ ("macd", [1; 2]); ("signal", [2; 1]) ] "macd"
  = Returns ([] ++ [1; 2]) /\
  get_column [ ("macd", [1; 2]); ("signal", [2; 1]) ] "signal"
  = Returns ([] ++ [2; 1]) /\
  "signal" <> "" /\
  exists fired,
    check_alert_conditions (Some macd_frame)
      (mkAlert (Some "compare") (Some "crosses_above") None (Some "macd")
         (Some "signal"))
    = Returns (fired, Some (CompareDetails 2 1)) /\
    (fired = true <-> 1 <= 2 /\ 1 < 2).
Proof.
  assert (Hal : frame_aligned macd_frame) by (repeat constructor).
  assert (Hn : "signal" <> "") by discriminate.
  split; [exact Hal |]. split; [reflexivity |]. split; [reflexivity |].
  split; [exact Hn |].
  apply (compare_rule_on_frame [ ("macd", [1; 2]); ("signal", [2; 1]) ]
           "macd" "signal" [] [] 1 2 2 1 None Hal eq_refl eq_refl Hn).
Defined.

Lemma compare_branch_returns (cols : list (string * list Q))
    (cfg : AlertConfig) (cond : string) (current : Q) (previous : option Q) :
  data_empty (Frame cols) = false -> frame_aligned (Frame cols) ->
  (previous = None <-> (data_len (Frame cols) <= 1)%nat) ->
  exists res,
    compare_branch (Frame cols) cols cfg cond current previous = Returns res.
Proof.
  intros Hne Hal Hprev. unfold compare_branch.
  destruct (cfg_compare_with cfg) as [name |]; [| eauto].
  destruct (negb (String.eqb name "")); [| eauto]. simpl andb.
  destruct (has_column cols name) eqn:Hhas; [| eauto].
  destruct (column_rows cols name Hal Hhas) as (cmp & E & Hlen).
  rewrite E. cbn [bind].
  pose proof (data_rows (Frame cols) Hne) as Hrows.
  destruct (iloc_back_inside cmp 1) as [cc Hcc]; [lia |].
  destruct (previous_of_returns (Frame cols) cmp Hlen) as (cp & Hcp & Hnone).
  rewrite Hcc, Hcp. cbn [bind].
  destruct cp as [cp |]; [| eauto].
  destruct previous as [p |].
  - destruct (String.eqb cond "crosses_above"); [eauto |].
    destruct (String.eqb cond "crosses_below"); eauto.
  - exfalso. assert (H : (data_len (Frame cols) <= 1)%nat) by now apply Hprev.
    apply Hnone in H. discriminate H.
Qed.

(** The three reads that precede the conditions all return, for a dict. *)
Lemma dict_reads_return (d : IndicatorData) (cfg : AlertDict) :
  data_empty d = false -> frame_aligned d -> line_known d cfg ->
  exists line current previous,
    match d with
    | Frame cols =>
        match cols with
        | (first_column, _) :: _ =>
            match dict_get (key_line cfg) first_column with
            | Some main_line => get_column cols main_line
            | None => Raises "KeyError: None"
            end
        | [] => Raises "IndexError: list index out of range"
        end
    | Series values => Returns values
    end = Returns line /\
    iloc_back line 1 = Returns current /\
    previous_of d line = Returns previous /\
    (previous = None <-> (data_len d <= 1)%nat).
Proof.
  intros Hne Hal Hline.
  pose proof (data_rows d Hne) as Hrows.
  assert (Hread : forall line, length line = data_len d ->
            exists current previous,
              iloc_back line 1 = Returns current /\
              previous_of d line = Returns previous /\
              (previous = None <-> (data_len d <= 1)%nat)).
  { intros line Hlen.
    destruct (iloc_back_inside line 1) as [cur Hcur]; [lia |].
    destruct (previous_of_returns d line Hlen) as (prev & Hprev & Hnone).
    exists cur, prev. auto. }
  destruct d as [values | cols].
  - destruct (Hread values eq_refl) as (cur & prev & Hc & Hp & Hn).
    exists values, cur, prev. auto.
  - destruct cols as [| [n v] rest]; [simpl in Hrows; lia |].
    unfold line_known in Hline.
    assert (Hhas : exists name,
               dict_get (key_line cfg) n = Some name /\
               has_column ((n, v) :: rest) name = true).
    { destruct (key_line cfg) as [| | name]; simpl dict_get.
      - exists n. split; [reflexivity |]. simpl. now rewrite String.eqb_refl.
      - destruct Hline.
      - exists name. auto. }
    destruct Hhas as (name & -> & Hhas).
    destruct (column_rows _ _ Hal Hhas) as (line & E & Hlen).
    destruct (Hread line Hlen) as (cur & prev & Hc & Hp & Hn).
    exists line, cur, prev. auto.
Qed.

Lemma compare_lines_returns (cols : list (string * list Q))
    (compare_line cond : option string) (current : Q) (previous : option Q) :
  data_empty (Frame cols) = false -> frame_aligned (Frame cols) ->
  (previous = None <-> (data_len (Frame cols) <= 1)%nat) ->
  exists res,
    compare_lines (Frame cols) cols compare_line cond current previous
    = Returns res.
Proof.
  intros Hne Hal Hprev. unfold compare_lines.
  destruct compare_line as [name |]; [| eauto].
  destruct (negb (String.eqb name "")); [| eauto]. simpl andb.
  destruct (has_column cols name) eqn:Hhas; [| eauto].
  destruct (column_rows cols name Hal Hhas) as (cmp & E & Hlen).
  rewrite E. cbn [bind].
  pose proof (data_rows (Frame cols) Hne) as Hrows.
  destruct (iloc_back_inside cmp 1) as [cc Hcc]; [lia |].
  destruct (previous_of_returns (Frame cols) cmp Hlen) as (cp & Hcp & Hnone).
  rewrite Hcc, Hcp. cbn [bind].
  destruct cp as [cp |]; [| eauto].
  destruct previous as [p |].
  - destruct (py_eq cond "crosses_above"); [eauto |].
    destruct (py_eq cond "crosses_below"); eauto.
  - exfalso. assert (H : (data_len (Frame cols) <= 1)%nat) by now apply Hprev.
    apply Hnone in H. discriminate H.
Qed.

Lemma with_threshold_cases {A : Type} (threshold : option Q) (k : Q -> A) :
  (threshold <> None -> exists res, with_threshold threshold k = Returns res) /\
  (threshold = None -> exists msg, with_threshold threshold k = Raises msg).
Proof.
  destruct threshold as [thr |]; simpl; split; intros H;
    first [congruence | eauto].
Qed.

(** What the evaluator does once the three reads have returned. *)
Lemma conditions_after_reads (d : IndicatorData) (cfg : AlertDict)
    (current : Q) (previous : option Q) (k : outcome (bool * option Details)) :
  data_empty d = false -> frame_aligned d ->
  (previous = None <-> (data_len d <= 1)%nat) ->
  k = (if py_eq (dict_get (key_type cfg) "value") "value" then
         if py_eq (dict_get (key_condition cfg) "above") "above" then
           with_threshold (dict_get (key_value cfg) 0) (fun thr =>
             (Qltb thr current, Some (ValueDetails current thr)))
         else if py_eq (dict_get (key_condition cfg) "above") "below" then
           with_threshold (dict_get (key_value cfg) 0) (fun thr =>
             (Qltb current thr, Some (ValueDetails current thr)))
         else if py_eq (dict_get (key_condition cfg) "above") "equals" then
           with_threshold (dict_get (key_value cfg) 0) (fun thr =>
             (Qabs_lt_cent (current - thr), Some (ValueDetails current thr)))
         else Returns (false, None)
       else
         match py_eq (dict_get (key_type cfg) "value") "crossover", previous with
         | true, Some p =>
             if py_eq (dict_get (key_condition cfg) "above") "crosses_above" then
               with_threshold (dict_get (key_value cfg) 0) (fun thr =>
                 (Qleb p thr && Qltb thr current,
                  Some (CrossDetails current p thr)))
             else if py_eq (dict_get (key_condition cfg) "above") "crosses_below"
             then
               with_threshold (dict_get (key_value cfg) 0) (fun thr =>
                 (Qleb thr p && Qltb current thr,
                  Some (CrossDetails current p thr)))
             else Returns (false, None)
         | _, _ =>
             if py_eq (dict_get (key_type cfg) "value") "compare" && is_frame d
             then
               match d with
               | Frame cols =>
                   compare_lines d cols (dict_get_none (key_compare_with cfg))
                     (dict_get (key_condition cfg) "above") current previous
               | Series _ => Returns (false, None)
               end
             else Returns (false, None)
         end) ->
  ((key_value cfg = HoldsNone -> needs_threshold d cfg = false) ->
   exists res, k = Returns res) /\
  (key_value cfg = HoldsNone -> needs_threshold d cfg = true ->
   exists msg, k = Raises msg).
Proof.
  intros Hne Hal Hprev ->. unfold needs_threshold.
  assert (Hthr : dict_get (key_value cfg) 0 = None <-> key_value cfg = HoldsNone).
  { destruct (key_value cfg); simpl; split; congruence. }
  assert (Hrows : (1 <? data_len d)%nat = match previous with
                                           | Some _ => true
                                           | None => false
                                           end).
  { destruct previous as [p |].
    - apply Nat.ltb_lt. destruct (Nat.le_gt_cases (data_len d) 1) as [H | H];
        [| exact H]. apply Hprev in H. discriminate H.
    - apply Nat.ltb_ge. now apply Hprev. }
  rewrite Hrows. clear Hrows.
  set (ty := dict_get (key_type cfg) "value").
  set (cond := dict_get (key_condition cfg) "above").
  set (threshold := dict_get (key_value cfg) 0) in *.
  assert (Hcmp : exists res,
             (if py_eq ty "compare" && is_frame d
              then match d with
                   | Frame cols =>
                       compare_lines d cols
                         (dict_get_none (key_compare_with cfg)) cond current
                         previous
                   | Series _ => Returns (false, None)
                   end
              else Returns (false, None)) = Returns res).
  { destruct (_ && _); [| eauto].
    destruct d as [values | cols]; [eauto |].
    now apply compare_lines_returns. }
  assert (Hwith : forall (k : Q -> bool * option Details),
             ((key_value cfg = HoldsNone -> true = false) ->
              exists res, with_threshold threshold k = Returns res) /\
             (key_value cfg = HoldsNone -> true = true ->
              exists msg, with_threshold threshold k = Raises msg)).
  { intros k. destruct (with_threshold_cases threshold k) as [Hret Hraise].
    split.
    - intros Hno. apply Hret. intros Hnone. apply Hthr in Hnone.
      specialize (Hno Hnone). discriminate Hno.
    - intros Hnone _. apply Hraise. now apply Hthr. }
  assert (Hquiet : forall (res : bool * option Details),
             ((key_value cfg = HoldsNone -> false = false) ->
              exists res', Returns res = Returns res') /\
             (key_value cfg = HoldsNone -> false = true ->
              exists msg, @Returns (bool * option Details) res = Raises msg)).
  { intros res. split; [eauto |]. intros _ H. discriminate H. }
  assert (Hquiet' : forall (k : outcome (bool * option Details)),
             (exists res, k = Returns res) ->
             ((key_value cfg = HoldsNone -> false = false) ->
              exists res', k = Returns res') /\
             (key_value cfg = HoldsNone -> false = true ->
              exists msg, k = Raises msg)).
  { intros k Hk. split; [intros _; exact Hk |]. intros _ H. discriminate H. }
  destruct (py_eq ty "value").
  - cbn [andb orb negb].
    destruct (py_eq cond "above"); [apply Hwith |].
    destruct (py_eq cond "below"); [apply Hwith |].
    destruct (py_eq cond "equals"); [apply Hwith |].
    apply Hquiet.
  - cbn [andb orb negb].
    destruct (py_eq ty "crossover"); cbn [andb]; [| now apply Hquiet'].
    destruct previous as [p |]; cbn [andb]; [| now apply Hquiet'].
    destruct (py_eq cond "crosses_above"); [apply Hwith |].
    destruct (py_eq cond "crosses_below"); [apply Hwith |].
    apply Hquiet.
Qed.

(** X22. When [check_alert_conditions] raises. With no output or an empty
    one it returns [(False, None)], whatever the dict. On a non-empty
    output, aligned as pandas holds it, with a dict whose ['line'], if any,
    names a column: it returns when ['value'] holds a number or is absent,
    or when the rule reaches no expression on the threshold; and it raises
    when ['value'] holds [None] and the rule reaches such an expression. On
    a non-empty frame a ['line'] that names no column raises the [KeyError]
    of that name, and a ['line'] that holds [None] the [KeyError] of
    [None], whatever the type of the rule. *)
Theorem check_alert_conditions_raises_when :
  (forall cfg : AlertDict,
      check_alert_conditions None cfg = Returns (false, None)) /\
  (forall d (cfg : AlertDict),
      data_empty d = true ->
      check_alert_conditions (Some d) cfg = Returns (false, None)) /\
  (forall d (cfg : AlertDict),
      data_empty d = false -> frame_aligned d -> line_known d cfg ->
      (key_value cfg = HoldsNone -> needs_threshold d cfg = false) ->
      exists res, check_alert_conditions (Some d) cfg = Returns res) /\
  (forall d (cfg : AlertDict),
      data_empty d = false -> frame_aligned d -> line_known d cfg ->
      key_value cfg = HoldsNone -> needs_threshold d cfg = true ->
      exists msg, check_alert_conditions (Some d) cfg = Raises msg) /\
  (forall cols (cfg : AlertDict) name,
      data_empty (Frame cols) = false ->
      key_line cfg = Holds name -> has_column cols name = false ->
      check_alert_conditions (Some (Frame cols)) cfg
      = Raises ("KeyError: " ++ name)) /\
  (forall cols (cfg : AlertDict),
      data_empty (Frame cols) = false ->
      key_line cfg = HoldsNone ->
      check_alert_conditions (Some (Frame cols)) cfg
      = Raises "KeyError: None").
Proof.
  split; [reflexivity |]. split; [| split; [| split; [| split]]].
  - intros d cfg He. unfold check_alert_conditions. now rewrite He.
  - intros d cfg Hne Hal Hline Hval.
    destruct (dict_reads_return d cfg Hne Hal Hline)
      as (line & cur & prev & Eline & Ecur & Eprev & Hnone).
    unfold check_alert_conditions. rewrite Hne, Eline. cbn [bind].
    rewrite Ecur. cbn [bind]. rewrite Eprev. cbn [bind].
    now apply (conditions_after_reads d cfg cur prev _ Hne Hal Hnone eq_refl).
  - intros d cfg Hne Hal Hline Hval Hneeds.
    destruct (dict_reads_return d cfg Hne Hal Hline)
      as (line & cur & prev & Eline & Ecur & Eprev & Hnone).
    unfold check_alert_conditions. rewrite Hne, Eline. cbn [bind].
    rewrite Ecur. cbn [bind]. rewrite Eprev. cbn [bind].
    now apply (conditions_after_reads d cfg cur prev _ Hne Hal Hnone eq_refl).
  - intros cols cfg name Hne Hline Hmiss.
    unfold check_alert_conditions. rewrite Hne.
    destruct cols as [| [n v] rest]; [discriminate Hne |].
    rewrite Hline. cbn [dict_get bind].
    now rewrite (get_column_missing _ _ Hmiss).
  - intros cols cfg Hne Hline.
    unfold check_alert_conditions. rewrite Hne.
    destruct cols as [| [n v] rest]; [discriminate Hne |].
    rewrite Hline. reflexivity.
Qed.

(** A value rule whose ['value'] holds [None], on the series 69, 71: the
    comparison of the last sample with [None] raises. *)
Example value_rule_with_none_raises :
  exists msg,
    check_alert_conditions (Some (Series [69; 71]))
      (mkAlertDict (Holds "value") (Holds "above") HoldsNone Missing Missing)
    = Raises msg.
Proof. eexists. reflexivity. Qed.

(** ** Confirmation looks after the tap only *)

(** X23. The answer of [check_fvg_after_tap] depends only on the rows after
    the tap: two confirmation series with the same rows of timestamp beyond
    the tap give the same answer; and the FVG returned is made of three such
    rows, so that the gap forms strictly after the tap. *)
Theorem confirmation_after_tap_only (fvg_df : DataFrame) (tap_ts : Z)
    (expected : option FvgType) :
  (forall other : DataFrame,
      post_tap other tap_ts = post_tap fvg_df tap_ts ->
      check_fvg_after_tap other tap_ts expected
      = check_fvg_after_tap fvg_df tap_ts expected) /\
  exists found,
    check_fvg_after_tap fvg_df tap_ts expected = Returns found /\
    forall f, found = Some f ->
      (tap_ts < timestamp (candle_1 f))%Z /\
      (tap_ts < timestamp (candle_2 f))%Z /\
      (tap_ts < timestamp (candle_3 f))%Z /\
      (tap_ts < fvg_timestamp f)%Z /\
      In (candle_1 f) fvg_df /\ In (candle_2 f) fvg_df /\
      In (candle_3 f) fvg_df.
Proof.
  split.
  - intros other Hsame.
    destruct (check_fvg_after_tap_head other tap_ts expected) as (l1 & D1 & ->).
    destruct (check_fvg_after_tap_head fvg_df tap_ts expected)
      as (l2 & D2 & ->).
    rewrite Hsame in D1. congruence.
  - destruct (check_fvg_after_tap_head fvg_df tap_ts expected)
      as (fvgs & Edet & ->).
    eexists. split; [reflexivity |].
    intros f Hf.
    assert (Hin : In f fvgs).
    { destruct fvgs; [discriminate |]. injection Hf as ->. now left. }
    rewrite detect_fvg_gaps in Edet. injection Edet as <-.
    apply in_flat_map in Hin. destruct Hin as (i & _ & Hin).
    apply gap_at_cases in Hin.
    destruct Hin as (c1 & c2 & c3 & L1 & L2 & L3 & Hcase).
    unfold iloc_drop_last in L1, L2, L3.
    apply lookup_take_Some in L1, L2, L3.
    destruct L1 as [L1 _], L2 as [L2 _], L3 as [L3 _].
    apply list_elem_of_lookup_2, list_elem_of_In, post_tap_rows in L1, L2, L3.
    destruct Hcase as [(_ & _ & ->) | (_ & _ & _ & ->)]; simpl; tauto.
Qed.

(** ** The alert loop of the host *)

(** The dict of a row whose rule does not read the threshold is the dict
    of a rule without ['line'] and ['compare_with']. *)
Lemma alert_config_of_number (alert : IndicatorAlert) :
  alert_type alert = "compare" ->
  forall d,
    check_alert_conditions d (alert_config_of alert)
    = check_alert_conditions d
        (mkAlert (Some (alert_type alert)) (Some (condition alert))
           (value alert) None None).
Proof.
  intros Hty d. destruct d as [d |]; [| reflexivity].
  unfold check_alert_conditions, alert_config_of, as_dict.
  cbn [key_type key_condition key_value key_line key_compare_with
       cfg_type cfg_condition cfg_value cfg_line cfg_compare_with entry_of].
  rewrite Hty. cbn [dict_get py_eq]. simpl String.eqb. cbv iota.
  reflexivity.
Qed.

Lemma hostless_compare_is_quiet (d : IndicatorData) (cond : string)
    (thr : option Q) :
  frame_aligned d ->
  check_alert_conditions (Some d) (mkAlert (Some "compare") (Some cond) thr
                                     None None)
  = Returns (false, None).
Proof.
  intros Hal. destruct (data_empty d) eqn:Hne.
  - rewrite ?check_alert_conditions_config. unfold check_alert_config. now rewrite Hne.
  - destruct (alert_reads_return d
                (mkAlert (Some "compare") (Some cond) thr None None)
                Hne Hal) as (line & cur & prev & Eline & Ecur & Eprev).
    { destruct d; exact I. }
    rewrite ?check_alert_conditions_config. unfold check_alert_config. rewrite Hne, Eline. cbn [bind].
    rewrite Ecur. cbn [bind]. rewrite Eprev. cbn [bind].
    simpl. destruct d; reflexivity.
Qed.

(** X24. From the loop of the host a compare alert never fires: the rule it
    builds has no ['compare_with'], so whenever the run of the indicator
    returns an output, the alert is reported quiet, whatever the output and
    the condition. *)
Theorem host_compare_alert_is_quiet
    (py_exec : string -> DataFrame -> outcome (option PyCalculate))
    (builtin_indicators : gmap string (string * Params))
    (get_indicator_code : string -> outcome string)
    (df : DataFrame) (alert : IndicatorAlert) (code : string) (params : Params)
    (d : IndicatorData) :
  alert_code builtin_indicators get_indicator_code alert code params ->
  execute_indicator py_exec code df (Some params) = Returns d ->
  frame_aligned d ->
  alert_type alert = "compare" ->
  check_indicator_alerts py_exec builtin_indicators get_indicator_code df
    [alert] = [AlertQuiet].
Proof.
  intros Hcode Hrun Hal Hty.
  cbn [check_indicator_alerts]. unfold check_one_alert.
  rewrite (find_code_of _ _ _ _ _ Hcode). cbn [fst snd].
  rewrite Hrun. cbn [bind].
  rewrite (alert_config_of_number alert) by (now rewrite Hty).
  rewrite Hty, hostless_compare_is_quiet by exact Hal. reflexivity.
Qed.

(** A compare alert on the built-in ["macd"], whose run returns
    [macd_frame], meets the hypotheses of [host_compare_alert_is_quiet]. *)
Lemma host_compare_alert_is_quiet_witness :
  let builtin := {[ "macd" := ("calculate", []) ]} in
  let alert :=
    mkIndicatorAlert 1 "macd" "MACD" "compare" "crosses_above" None in
  alert_code builtin Raises alert "calculate" [] /\
  execute_indicator exec_returns_macd "calculate" gap_frame (Some [])
  = Returns macd_frame /\
  frame_aligned macd_frame /\
  alert_type alert = "compare" /\
  check_indicator_alerts exec_returns_macd builtin Raises gap_frame [alert]
  = [AlertQuiet].
Proof.
  intros builtin alert.
  assert (H1 : alert_code builtin Raises alert "calculate" [])
    by (left; reflexivity).
  assert (H3 : frame_aligned macd_frame) by (repeat constructor).
  split; [exact H1 |]. split; [reflexivity |]. split; [exact H3 |].
  split; [reflexivity |].
  apply (host_compare_alert_is_quiet exec_returns_macd builtin Raises gap_frame
           alert "calculate" [] macd_frame H1 eq_refl H3 eq_refl).
Defined.

(** X25. From the loop of the host, a value alert with condition [above] on
    an indicator whose run returns a single series: when the row of the
    alert holds a number, the alert fires iff the last sample exceeds it,
    and the report carries the sample and the number; when the row holds
    NULL, the comparison with [None] raises and the alert is reported as an
    error. *)
Theorem host_value_alert
    (py_exec : string -> DataFrame -> outcome (option PyCalculate))
    (builtin_indicators : gmap string (string * Params))
    (get_indicator_code : string -> outcome string)
    (df : DataFrame) (alert : IndicatorAlert) (code : string) (params : Params)
    (pre : list Q) (current : Q) :
  alert_code builtin_indicators get_indicator_code alert code params ->
  execute_indicator py_exec code df (Some params)
  = Returns (Series (pre ++ [current])) ->
  alert_type alert = "value" -> condition alert = "above" ->
  (forall thr,
      value alert = Some thr ->
      check_indicator_alerts py_exec builtin_indicators get_indicator_code df
        [alert]
      = [ if Qltb thr current
          then AlertFired (Some (ValueDetails current thr))
          else AlertQuiet ]) /\
  (value alert = None ->
   exists msg,
     check_indicator_alerts py_exec builtin_indicators get_indicator_code df
       [alert]
     = [ AlertError ("Alert check error: " ++ msg) ]).
Proof.
  intros Hcode Hrun Hty Hcond.
  destruct (series_reads pre current) as (Hne & Hcur & prev & Hprev).
  assert (Hloop :
    check_indicator_alerts py_exec builtin_indicators get_indicator_code df
      [alert]
    = match with_threshold
              (match value alert with Some v => Some v | None => None end)
              (fun thr => (Qltb thr current, Some (ValueDetails current thr)))
      with
      | Returns (true, details) => [AlertFired details]
      | Returns (false, _) => [AlertQuiet]
      | Raises e => [AlertError ("Alert check error: " ++ e)]
      | Exits e => [AlertsLeft e]
      end).
  { cbn [check_indicator_alerts]. unfold check_one_alert.
    rewrite (find_code_of _ _ _ _ _ Hcode). cbn [fst snd].
    rewrite Hrun. cbn [bind].
    unfold check_alert_conditions, alert_config_of.
    cbn [key_type key_condition key_value key_line key_compare_with].
    rewrite Hne, Hty, Hcond. cbn [bind dict_get py_eq].
    rewrite Hcur. cbn [bind]. rewrite Hprev. cbn [bind].
    simpl String.eqb. cbv iota.
    destruct (value alert) as [v |]; simpl with_threshold.
    - now destruct (Qltb v current).
    - reflexivity. }
  split.
  - intros thr Hval. rewrite Hloop, Hval. simpl.
    now destruct (Qltb thr current).
  - intros Hval. rewrite Hloop, Hval. simpl. eauto.
Qed.

(** A value alert at 70 on a custom indicator, whose run returns the series
    69, 71, meets the hypotheses of [host_value_alert], and fires. *)
Lemma host_value_alert_witness :
  let alert := mkIndicatorAlert 2 "mine" "Mine" "value" "above" (Some 70) in
  let get_code := fun _ : string => Returns "calculate" in
  alert_code ∅ get_code alert "calculate" [] /\
  execute_indicator exec_returns_series "calculate" gap_frame (Some [])
  = Returns (Series ([69] ++ [71])) /\
  check_indicator_alerts exec_returns_series ∅ get_code gap_frame [alert]
  = [ AlertFired (Some (ValueDetails 71 70)) ].
Proof.
  intros alert get_code.
  assert (H1 : alert_code ∅ get_code alert "calculate" []).
  { right. split; [apply lookup_empty | split; reflexivity]. }
  split; [exact H1 |]. split; [reflexivity |].
  exact (proj1 (host_value_alert exec_returns_series ∅ get_code gap_frame
                  alert "calculate" [] [69] 71 H1 eq_refl eq_refl eq_refl)
           70 eq_refl).
Defined.

(** The same alert with NULL in its row is reported as an error. *)
Example host_value_alert_null :
  let alert := mkIndicatorAlert 2 "mine" "Mine" "value" "above" None in
  let get_code := fun _ : string => Returns "calculate" in
  check_indicator_alerts exec_returns_series ∅ get_code gap_frame [alert]
  = [ AlertError "Alert check error: TypeError: operand of type 'NoneType'" ].
Proof. reflexivity. Qed.
